(** * reply-hr: the meal planner (meal.py) and the HR responder (reply.py)

    A shallow embedding of the two Streamlit scripts.  Python values are an
    inductive type, a script run is a function in a state-and-exception
    monad whose state holds the widgets drawn so far and the requests sent
    to the generation API, and the API itself is an oracle the theorems
    quantify over. *)

From Stdlib Require Import PrimFloat Ascii.
From stdpp Require Import base option list strings gmap pretty.

Local Open Scope Z_scope.

(** ** Python values, exceptions and the operations the scripts use *)

Module Py.

(** What [json.loads] and [response.json()] can return.  A [str] is a
    sequence of code points below 256; a [dict] keeps its insertion order. *)
#[warnings="-register-all"]
Inductive pyval :=
| PyNone
| PyBool (b : bool)
| PyInt (z : Z)
| PyFloat (f : float)
| PyStr (s : string)
| PyList (l : list pyval)
| PyDict (d : list (string * pyval)).

(** The subclasses of [Exception] that can arise in the two scripts. *)
Inductive exn :=
| RequestException (msg : string)
| HTTPError (status : Z)
| RequestsJSONDecodeError (doc : string)
| JSONDecodeError (doc : string)
| KeyError (key : pyval)
| IndexError
| TypeError (msg : string)
| AttributeError (msg : string)
| ValueError (msg : string)
| RecursionError
| UnicodeEncodeError
| UnboundLocalError (name : string)
| StreamlitAPIException (msg : string).

(** [isinstance(e, requests.exceptions.RequestException)].  Since requests
    2.27 the error of [response.json()] derives from both
    [RequestException] and [json.JSONDecodeError]. *)
Definition is_RequestException (e : exn) : bool :=
  match e with
  | RequestException _ | HTTPError _ | RequestsJSONDecodeError _ => true
  | _ => false
  end.

(** [isinstance(e, json.JSONDecodeError)] *)
Definition is_JSONDecodeError (e : exn) : bool :=
  match e with
  | JSONDecodeError _ | RequestsJSONDecodeError _ => true
  | _ => false
  end.

Inductive outcome (A : Type) :=
| Ret (a : A)
| Raise (e : exn).
Arguments Ret {A} a.
Arguments Raise {A} e.

#[export] Instance outcome_ret : MRet outcome := @Ret.
#[export] Instance outcome_bind : MBind outcome := λ A B f m,
  match m with
  | Ret a => f a
  | Raise e => Raise e
  end.

(** [bool(v)] *)
Definition truthy (v : pyval) : bool :=
  match v with
  | PyNone => false
  | PyBool b => b
  | PyInt z => negb (z =? 0)
  | PyFloat f => negb (PrimFloat.eqb f PrimFloat.zero)
  | PyStr s => negb (String.eqb s "")
  | PyList l => match l with [] => false | _ => true end
  | PyDict d => match d with [] => false | _ => true end
  end.

(** [type(v).__name__] *)
Definition type_name (v : pyval) : string :=
  match v with
  | PyNone => "NoneType"
  | PyBool _ => "bool"
  | PyInt _ => "int"
  | PyFloat _ => "float"
  | PyStr _ => "str"
  | PyList _ => "list"
  | PyDict _ => "dict"
  end.

Fixpoint dict_lookup (k : string) (d : list (string * pyval)) : option pyval :=
  match d with
  | [] => None
  | (k', v) :: d' => if String.eqb k k' then Some v else dict_lookup k d'
  end.

(** [v.get(k, default)] *)
Definition py_get_default (v : pyval) (k : string) (dflt : pyval) : outcome pyval :=
  match v with
  | PyDict d => Ret (default dflt (dict_lookup k d))
  | _ => Raise (AttributeError "object has no attribute 'get'")
  end.

(** [v.get(k)] *)
Definition py_get (v : pyval) (k : string) : outcome pyval :=
  py_get_default v k PyNone.

(** [v[k]] for a string literal [k] *)
Definition py_getitem_str (v : pyval) (k : string) : outcome pyval :=
  match v with
  | PyDict d =>
      match dict_lookup k d with
      | Some x => Ret x
      | None => Raise (KeyError (PyStr k))
      end
  | PyList _ => Raise (TypeError "list indices must be integers or slices, not str")
  | PyStr _ => Raise (TypeError "string indices must be integers")
  | _ => Raise (TypeError "object is not subscriptable")
  end.

(** Python's index normalisation: a negative index counts from the end. *)
Definition py_index {A} (l : list A) (i : Z) : option A :=
  let n := Z.of_nat (length l) in
  if (0 <=? i) && (i <? n) then l !! Z.to_nat i
  else if (- n <=? i) && (i <? 0) then l !! Z.to_nat (n + i)
  else None.

Definition chars (s : string) : list pyval :=
  (λ c, PyStr (String c "")) <$> String.list_ascii_of_string s.

(** [v[i]] for an integer [i] *)
Definition py_getitem_int (v : pyval) (i : Z) : outcome pyval :=
  match v with
  | PyList l =>
      match py_index l i with Some x => Ret x | None => Raise IndexError end
  | PyStr s =>
      match py_index (chars s) i with Some x => Ret x | None => Raise IndexError end
  | PyDict _ => Raise (KeyError (PyInt i))
  | _ => Raise (TypeError "object is not subscriptable")
  end.

(** The items a [for] loop over [v] visits. *)
Definition py_iter (v : pyval) : outcome (list pyval) :=
  match v with
  | PyList l => Ret l
  | PyStr s => Ret (chars s)
  | PyDict d => Ret ((λ kv, PyStr kv.1) <$> d)
  | _ => Raise (TypeError "object is not iterable")
  end.

(** [a and b]: [b] is evaluated only when [a] is truthy. *)
Definition py_and (a b : outcome pyval) : outcome pyval :=
  x ← a; if truthy x then b else Ret x.

(** [str.isspace] on one code point below 256. *)
Definition isspace (c : ascii) : bool :=
  let n := N_of_ascii c in
  ((9 <=? n) && (n <=? 13) || (28 <=? n) && (n <=? 32) || (n =? 133) || (n =? 160))%N.

Fixpoint lstrip (s : string) : string :=
  match s with
  | String c s' => if isspace c then lstrip s' else s
  | EmptyString => EmptyString
  end.

Fixpoint rstrip (s : string) : string :=
  match s with
  | String c s' =>
      match rstrip s' with
      | EmptyString => if isspace c then EmptyString else String c EmptyString
      | r => String c r
      end
  | EmptyString => EmptyString
  end.

(** [s.strip()] *)
Definition strip (s : string) : string := rstrip (lstrip s).

(** *** Text beyond Latin-1

    The inputs of the two scripts and the response of the planner's
    endpoint are kept within the code points below 256, as [string]s.  The
    answer of the responder's model is not: what [create_pdf] does with it
    depends on whether it stays within them.  Such a [str] is the list of
    its code points; a [string] stands for the text with the same code
    points. *)
Definition text := list N.

Definition latin1 (s : string) : text := N_of_ascii <$> String.list_ascii_of_string s.
Coercion latin1 : string >-> text.

(** [t.encode('latin-1')], [None] standing for [UnicodeEncodeError] *)
Definition encode_latin1 (t : text) : option string :=
  String.string_of_list_ascii <$>
    mapM (λ n, if (n <? 256)%N then Some (ascii_of_N n) else None) t.

(** [bool(t)] *)
Definition text_truthy (t : text) : bool :=
  match t with [] => false | _ => true end.

(** [str.isspace] on one code point. *)
Definition text_isspace (n : N) : bool :=
  ((9 <=? n) && (n <=? 13) || (28 <=? n) && (n <=? 32) || (n =? 133) || (n =? 160)
   || (n =? 5760) || (8192 <=? n) && (n <=? 8202) || (n =? 8232) || (n =? 8233)
   || (n =? 8239) || (n =? 8287) || (n =? 12288))%N.

Fixpoint text_lstrip (t : text) : text :=
  match t with
  | n :: t' => if text_isspace n then text_lstrip t' else t
  | [] => []
  end.

Fixpoint text_rstrip (t : text) : text :=
  match t with
  | n :: t' =>
      match text_rstrip t' with
      | [] => if text_isspace n then [] else [n]
      | r => n :: r
      end
  | [] => []
  end.

(** [t.strip()] *)
Definition text_strip (t : text) : text := text_rstrip (text_lstrip t).

(** An f-string, kept as its literal chunks and interpolated values. *)
Inductive fpart :=
| FLit (s : string)
| FVal (v : pyval)
| FExn (e : exn).

Definition fstring := list fpart.

End Py.

(** ** A reference decoder for concrete responses

    [json.loads] restricted to documents without fractions, exponents and
    [\u] escapes, and to integers below the digit limit of [int].  The
    scripts are modelled over an arbitrary decoder; this one supplies the
    concrete worlds of the examples. *)

Module Json.
Import Py.

Definition quote : ascii := "034"%char.

(** Single quotes to double quotes, to write documents as literals. *)
Fixpoint dq (s : string) : string :=
  match s with
  | EmptyString => EmptyString
  | String c s' => String (if Ascii.eqb c "'" then quote else c) (dq s')
  end.

Definition is_ws (c : ascii) : bool :=
  Ascii.eqb c " " || Ascii.eqb c "009" || Ascii.eqb c "010" || Ascii.eqb c "013".

Fixpoint skip_ws (l : list ascii) : list ascii :=
  match l with
  | c :: l' => if is_ws c then skip_ws l' else l
  | [] => []
  end.

Definition unescape (c : ascii) : option ascii :=
  if Ascii.eqb c quote then Some quote
  else if Ascii.eqb c "\" then Some "\"%char
  else if Ascii.eqb c "/" then Some "/"%char
  else if Ascii.eqb c "b" then Some "008"%char
  else if Ascii.eqb c "f" then Some "012"%char
  else if Ascii.eqb c "n" then Some "010"%char
  else if Ascii.eqb c "r" then Some "013"%char
  else if Ascii.eqb c "t" then Some "009"%char
  else None.

(** The characters of a string literal after its opening quote. *)
Fixpoint string_body (l : list ascii) : option (string * list ascii) :=
  match l with
  | [] => None
  | c :: l' =>
      if Ascii.eqb c quote then Some (EmptyString, l')
      else if Ascii.eqb c "\" then
        match l' with
        | e :: l'' =>
            ch ← unescape e;
            '(s, r) ← string_body l'';
            Some (String ch s, r)
        | [] => None
        end
      else if (N_of_ascii c <? 32)%N then None
      else '(s, r) ← string_body l'; Some (String c s, r)
  end.

Definition digit (c : ascii) : option Z :=
  let n := Z.of_N (N_of_ascii c) in
  if (48 <=? n) && (n <=? 57) then Some (n - 48) else None.

Definition is_digit (c : ascii) : bool :=
  match digit c with Some _ => true | None => false end.

Fixpoint digits (acc : Z) (l : list ascii) : Z * list ascii :=
  match l with
  | c :: l' =>
      match digit c with
      | Some d => digits (10 * acc + d) l'
      | None => (acc, l)
      end
  | [] => (acc, [])
  end.

(** An integer literal: no leading zero, nothing of a float after it. *)
Definition natural (l : list ascii) : option (Z * list ascii) :=
  match l with
  | c :: l' =>
      d ← digit c;
      let '(n, r) := if d =? 0 then (0, l') else digits d l' in
      match r with
      | c' :: _ =>
          if is_digit c' || Ascii.eqb c' "." || Ascii.eqb c' "e" || Ascii.eqb c' "E"
          then None else Some (n, r)
      | [] => Some (n, r)
      end
  | [] => None
  end.

(** [d[k] = v]: a repeated key keeps its place and takes the new value. *)
Fixpoint dict_set (k : string) (v : pyval) (d : list (string * pyval)) : list (string * pyval) :=
  match d with
  | [] => [(k, v)]
  | (k', v') :: d' => if String.eqb k k' then (k, v) :: d' else (k', v') :: dict_set k v d'
  end.

(** What the decoder makes of a prefix of the document: a value and the
    rest, a syntax error, or nesting deeper than it can follow. *)
Inductive parse (A : Type) :=
| Parsed (a : A)
| Malformed
| TooDeep.
Arguments Parsed {A} a.
Arguments Malformed {A}.
Arguments TooDeep {A}.

#[local] Instance parse_ret : MRet parse := @Parsed.
#[local] Instance parse_bind : MBind parse := λ A B f m,
  match m with
  | Parsed a => f a
  | Malformed => Malformed
  | TooDeep => TooDeep
  end.

Definition well_formed {A} (o : option A) : parse A :=
  match o with Some a => Parsed a | None => Malformed end.

(** The rest of [l] after the literal [lit]. *)
Fixpoint after (lit l : list ascii) : option (list ascii) :=
  match lit, l with
  | [], _ => Some l
  | c :: lit', c' :: l' => if Ascii.eqb c c' then after lit' l' else None
  | _ :: _, [] => None
  end.

Definition Infinity : list ascii := String.list_ascii_of_string "Infinity".

(** The decoder calls itself once for every array and object it enters;
    [depth] is the number of such calls it is still allowed. *)
Fixpoint value (fuel : nat) (depth : N) (l : list ascii) : parse (pyval * list ascii) :=
  match fuel with
  | O => Malformed
  | S fuel =>
      match skip_ws l with
      | "n" :: "u" :: "l" :: "l" :: r => Parsed (PyNone, r)
      | "t" :: "r" :: "u" :: "e" :: r => Parsed (PyBool true, r)
      | "f" :: "a" :: "l" :: "s" :: "e" :: r => Parsed (PyBool false, r)
      | "N" :: "a" :: "N" :: r => Parsed (PyFloat nan, r)
      | "[" :: r =>
          if (depth =? 0)%N then TooDeep else
          match skip_ws r with
          | "]" :: r' => Parsed (PyList [], r')
          | _ => '(vs, r') ← elements fuel (N.pred depth) r; Parsed (PyList vs, r')
          end
      | "{" :: r =>
          if (depth =? 0)%N then TooDeep else
          match skip_ws r with
          | "}" :: r' => Parsed (PyDict [], r')
          | _ => '(d, r') ← members fuel (N.pred depth) [] r; Parsed (PyDict d, r')
          end
      | "-" :: r =>
          match after Infinity r with
          | Some r' => Parsed (PyFloat neg_infinity, r')
          | None => '(n, r') ← well_formed (natural r); Parsed (PyInt (- n), r')
          end
      | c :: r =>
          if Ascii.eqb c quote then
            '(s, r') ← well_formed (string_body r); Parsed (PyStr s, r')
          else
            match after Infinity (c :: r) with
            | Some r' => Parsed (PyFloat infinity, r')
            | None => '(n, r') ← well_formed (natural (c :: r)); Parsed (PyInt n, r')
            end
      | [] => Malformed
      end%char
  end
with elements (fuel : nat) (depth : N) (l : list ascii) : parse (list pyval * list ascii) :=
  match fuel with
  | O => Malformed
  | S fuel =>
      '(v, r) ← value fuel depth l;
      match skip_ws r with
      | "," :: r' => '(vs, r'') ← elements fuel depth r'; Parsed (v :: vs, r'')
      | "]" :: r' => Parsed ([v], r')
      | _ => Malformed
      end%char
  end
with members (fuel : nat) (depth : N) (acc : list (string * pyval)) (l : list ascii)
    : parse (list (string * pyval) * list ascii) :=
  match fuel with
  | O => Malformed
  | S fuel =>
      match skip_ws l with
      | c :: r =>
          if Ascii.eqb c quote then
            '(k, r1) ← well_formed (string_body r);
            match skip_ws r1 with
            | ":" :: r2 =>
                '(v, r3) ← value fuel depth r2;
                let acc' := dict_set k v acc in
                match skip_ws r3 with
                | "," :: r4 => members fuel depth acc' r4
                | "}" :: r4 => Parsed (acc', r4)
                | _ => Malformed
                end
            | _ => Malformed
            end%char
          else Malformed
      | [] => Malformed
      end
  end.

(** The body of a string literal that decodes to [s] (for [s] without
    control characters other than the newline). *)
Fixpoint escape (s : string) : string :=
  match s with
  | EmptyString => EmptyString
  | String c s' =>
      if Ascii.eqb c quote then String "\" (String quote (escape s'))
      else if Ascii.eqb c "\" then String "\" (String "\" (escape s'))
      else if Ascii.eqb c "010" then String "\" (String "n" (escape s'))
      else String c (escape s')
  end.

(** The nesting at which the decoder gives up.  CPython counts its calls
    against the interpreter's recursion limit (1000 by default) up to 3.11
    and against a limit of its own of up to 10000 since; the bound here is
    the largest of them, so that a document nested deeper fails with
    [RecursionError] under every one of them.  Documents nested between
    some hundred and this many levels lie outside this reference. *)
Definition recursion_limit : N := 10000.

(** [json.loads(s)] *)
Definition loads (s : string) : outcome pyval :=
  let l := String.list_ascii_of_string s in
  match value (2 * length l + 2) recursion_limit l with
  | Parsed (v, r) =>
      match skip_ws r with
      | [] => Ret v
      | _ => Raise (JSONDecodeError s)
      end
  | Malformed => Raise (JSONDecodeError s)
  | TooDeep => Raise RecursionError
  end.

End Json.

(** ** Script runs: state threaded through, exceptions propagated *)

Module Exec.
Import Py.

Definition exec (S A : Type) : Type := S → outcome A * S.

#[export] Instance exec_ret {S} : MRet (exec S) := λ A a s, (Ret a, s).
#[export] Instance exec_bind {S} : MBind (exec S) := λ A B f m s,
  match m s with
  | (Ret a, s') => f a s'
  | (Raise e, s') => (Raise e, s')
  end.

(** A pure expression evaluated inside a run. *)
Definition lift {S A} (o : outcome A) : exec S A := λ s, (o, s).

(** [try: m  except Exception as e: h e] *)
Definition try_except {S A} (m : exec S A) (h : exn → exec S A) : exec S A := λ s,
  match m s with
  | (Raise e, s') => h e s'
  | r => r
  end.

(** [for x in l: body x] *)
Fixpoint for_each {S A} (l : list A) (body : A → exec S unit) : exec S unit :=
  match l with
  | [] => mret ()
  | x :: l' => body x;; for_each l' body
  end.

(** [enumerate(l)], counting from [i] *)
Fixpoint enumerate_from {A} (i : Z) (l : list A) : list (Z * A) :=
  match l with
  | [] => []
  | x :: l' => (i, x) :: enumerate_from (i + 1) l'
  end.

Definition enumerate {A} (l : list A) : list (Z * A) := enumerate_from 0 l.

End Exec.

(** ** The Streamlit calls of the two scripts *)

Module St.
Import Py Exec.

(** Where an element is drawn. *)
Inductive container :=
| Main
| Sidebar
| Form (key : string)
| Tab (i : nat)
| Column (j : nat).

(** What is drawn.  Pictographs in labels are left out: they lie outside
    the code points a [string] holds. *)
Inductive element :=
| Title (body : string)
| Header (body : string)
| Subheader (body : fstring)
| Markdown (body : fstring)
| Write (body : fstring)
| Info (body : string)
| Success (body : string)
| Warning (body : string)
| Error (body : fstring)
| Json (v : pyval)
| Code (body : string)
| Tabs (labels : list string)
| Columns (n : nat)
| Checkbox (label : pyval) (key : string)
| Input (label : string)
| Button (label : string)
| TextArea (label : string) (value : text)
| DownloadButton (label : string) (file_name : string) (data : list string).

Definition page := list (container * element).

Section Calls.
Context {S : Type} (get_page : S → page) (set_page : page → S → S).

(** Every drawing call appends one element to the page. *)
Definition draw (c : container) (e : element) : exec S unit := λ s,
  (Ret (), set_page (get_page s ++ [(c, e)]) s).

Definition as_label (v : pyval) : option string :=
  match v with PyStr s => Some s | _ => None end.

(** [st.tabs(labels)]: refuses an empty list and labels that are not
    [str]; otherwise one container per label. *)
Definition st_tabs (c : container) (labels : list pyval) : exec S (list container) :=
  match labels with
  | [] => lift (Raise (StreamlitAPIException
            "The input argument to st.tabs must contain at least one tab label."))
  | _ =>
      match mapM as_label labels with
      | None => lift (Raise (StreamlitAPIException
            "The tabs input list to st.tabs is only allowed to contain strings."))
      | Some ls => draw c (Tabs ls);; mret (Tab <$> seq 0%nat (length ls))
      end
  end.

(** [st.columns(n)] *)
Definition st_columns (c : container) (n : nat) : exec S (list container) :=
  draw c (Columns n);; mret (Column <$> seq 0%nat n).

(** [handles[i]] on the list a layout call returned *)
Definition handle (handles : list container) (i : Z) : exec S container :=
  match py_index handles i with
  | Some h => mret h
  | None => lift (Raise IndexError)
  end.
End Calls.

End St.

(** ** meal.py: the weekly meal planner *)

Module Meal.
Import Py Exec St.

(** The structured-output descriptor sent with every request. *)
#[warnings="-register-all"]
Inductive schema :=
| STRING
| ARRAY (items : schema)
| OBJECT (properties : list (string * schema)) (required : list string).

Definition response_schema : schema :=
  OBJECT
    [("weekly_meal_plan",
      ARRAY (OBJECT
        [("day", STRING);
         ("meals",
          ARRAY (OBJECT
            [("type", STRING);
             ("recipe_name", STRING);
             ("ingredients", ARRAY STRING);
             ("instructions", STRING)]
            ["type"; "recipe_name"; "ingredients"; "instructions"]))]
        ["day"; "meals"]));
     ("shopping_list", ARRAY STRING)]
    ["weekly_meal_plan"; "shopping_list"].

Definition API_KEY : string := "".

Definition api_url : string :=
  "https://generativelanguage.googleapis.com/v1beta/models/gemini-2.0-flash:generateContent?key="
  +:+ API_KEY.

(** The f-string of [generate_meal_plan]; an [int] is formatted in decimal. *)
Definition prompt (preferences goals : string) (num_meals_per_day : Z) : string :=
  "
    Create a detailed 7-day weekly meal plan, including breakfast, lunch, and dinner (if "
  +:+ pretty num_meals_per_day +:+
  " is 3). Adjust meals based on the specified number of meals per day.
    For each meal, include a recipe name, a list of ingredients, and cooking instructions.
    Finally, provide a consolidated shopping list for the entire week's meal plan.

    Dietary Preferences: "
  +:+ preferences +:+
  "
    Goals: "
  +:+ goals +:+
  "
    Number of meals per day: "
  +:+ pretty num_meals_per_day +:+
  "

    The output MUST be in JSON format, adhering strictly to the following structure.
    Ensure all ingredients mentioned in recipes are included in the shopping_list.
    Provide realistic, diverse, and well-balanced meals.
    ".

(** What [requests.post] is given. *)
Record request := {
  url : string;
  content_type : string;
  contents_text : string;
  responseMimeType : string;
  responseSchema : schema
}.

Record response := { status_code : Z; text : string }.

(** [requests.post] either raises a [RequestException] (connection
    refused, timeout, ...) or returns a response. *)
Inductive post_result :=
| Failed (msg : string)
| Responded (r : response).

(** The headers and the payload of the request. *)
Definition build_request (preferences goals : string) (num_meals_per_day : Z) : request :=
  {| url := api_url;
     content_type := "application/json";
     contents_text := prompt preferences goals num_meals_per_day;
     responseMimeType := "application/json";
     responseSchema := response_schema |}.

(** Everything outside the script: the endpoint's answer to the n-th
    request, the JSON decoder, which returns a value or raises
    ([JSONDecodeError] for a malformed document, [RecursionError] for one
    nested too deep, [ValueError] for an integer over the digit limit),
    and whether the installed requests is 2.27 or later (which decides the
    class of the error of [response.json()]). *)
Record world := {
  http_post : nat → request → post_result;
  json_loads : string → outcome pyval;
  requests_2_27 : bool
}.

(** The state of a run: the page drawn so far and the requests sent. *)
Record app := { drawn : page; sent : list request }.

Definition set_drawn (p : page) (s : app) : app := {| drawn := p; sent := sent s |}.

Abbreviation draw := (St.draw drawn set_drawn).

Section Script.
Variable w : world.

Definition requests_post (rq : request) : exec app response := λ s,
  let s' := {| drawn := drawn s; sent := sent s ++ [rq] |} in
  match http_post w (length (sent s)) rq with
  | Failed msg => (Raise (RequestException msg), s')
  | Responded r => (Ret r, s')
  end.

(** [response.raise_for_status()] *)
Definition raise_for_status (r : response) : outcome unit :=
  if (400 <=? status_code r) && (status_code r <? 600)
  then Raise (HTTPError (status_code r)) else Ret ().

(** [response.json()]: from requests 2.27 on, a [JSONDecodeError] of the
    decoder is raised again as the library's own error; every other
    exception of the decoder passes through as it is. *)
Definition response_json (r : response) : outcome pyval :=
  match json_loads w (text r) with
  | Raise (JSONDecodeError doc) =>
      Raise (if requests_2_27 w then RequestsJSONDecodeError doc else JSONDecodeError doc)
  | o => o
  end.

(** [json.loads(v)] *)
Definition py_json_loads (v : pyval) : outcome pyval :=
  match v with
  | PyStr s => json_loads w s
  | _ => Raise (TypeError ("the JSON object must be str, bytes or bytearray, not "
                           +:+ type_name v))
  end.

(** [result['candidates'][0]] *)
Definition candidate0 (result : pyval) : outcome pyval :=
  c ← py_getitem_str result "candidates"; py_getitem_int c 0.

(** [result['candidates'][0]['content']] *)
Definition content0 (result : pyval) : outcome pyval :=
  c ← candidate0 result; py_getitem_str c "content".

(** [result['candidates'][0]['content']['parts'][0]] *)
Definition part0 (result : pyval) : outcome pyval :=
  c ← content0 result; p ← py_getitem_str c "parts"; py_getitem_int p 0.

(** The condition of the [if] that checks the response envelope. *)
Definition expected_structure (result : pyval) : outcome pyval :=
  py_and (py_and (py_and (py_and
    (Ret result)
    (py_get result "candidates"))
    (c ← candidate0 result; py_get c "content"))
    (c ← content0 result; py_get c "parts"))
    (p ← part0 result; py_get p "text").

(** The three [except] clauses, tried in order.  [response] is the local
    variable of that name, unbound until [requests.post] has returned. *)
Definition handler (response : option response) (e : exn) : exec app pyval :=
  if is_RequestException e then
    draw Main (Error [FLit "Error connecting to Gemini API: "; FExn e]);;
    mret PyNone
  else if is_JSONDecodeError e then
    draw Main (Error [FLit "Error parsing JSON response from Gemini API: "; FExn e]);;
    draw Main (Write [FLit "Raw API response content (might be malformed JSON):"]);;
    match response with
    | Some r => draw Main (Code (text r));; mret PyNone
    | None => lift (Raise (UnboundLocalError "response"))
    end
  else
    draw Main (Error [FLit "An unexpected error occurred: "; FExn e]);;
    mret PyNone.

(** [result['candidates'][0]['content']['parts'][0]['text']] *)
Definition envelope_text (result : pyval) : outcome pyval :=
  p ← part0 result; py_getitem_str p "text".

(** The body of the [try] once [response] is bound. *)
Definition after_post (r : response) : exec app pyval :=
  lift (raise_for_status r);;
  result ← lift (response_json r);
  ok ← lift (expected_structure result);
  if truthy ok then
    json_string ← lift (envelope_text result);
    parsed_json ← lift (py_json_loads json_string);
    mret parsed_json
  else
    draw Main (Error [FLit "Error: Unexpected response format from Gemini API."]);;
    draw Main (Json result);;
    mret PyNone.

Definition generate_meal_plan (preferences goals : string) (num_meals_per_day : Z)
    : exec app pyval := λ s,
  match requests_post (build_request preferences goals num_meals_per_day) s with
  | (Raise e, s') => handler None e s'
  | (Ret r, s') => try_except (after_post r) (handler (Some r)) s'
  end.

(** The widgets of the sidebar, as the user left them. *)
Record inputs := {
  dietary_preferences : string;
  health_goals : string;
  num_meals : Z;
  generate_button : bool
}.

(** One meal of a day, drawn in the day's tab. *)
Definition render_meal (tab : container) (meal : pyval) : exec app unit :=
  ty ← lift (py_getitem_str meal "type");
  recipe_name ← lift (py_getitem_str meal "recipe_name");
  draw tab (Markdown [FLit "**"; FVal ty; FLit ":** "; FVal recipe_name]);;
  draw tab (Markdown [FLit "**Ingredients:**"]);;
  ingredients ← lift (py_getitem_str meal "ingredients" ≫= py_iter);
  for_each ingredients (λ ingredient, draw tab (Write [FLit "- "; FVal ingredient]));;
  draw tab (Markdown [FLit "**Instructions:**"]);;
  instructions ← lift (py_getitem_str meal "instructions");
  draw tab (Markdown [FVal instructions]);;
  draw tab (Markdown [FLit "---"]).

(** The body of [with tabs[i]:]. *)
Definition render_day (tab : container) (day_data : pyval) : exec app unit :=
  day ← lift (py_getitem_str day_data "day");
  draw tab (Subheader [FLit "___"; FVal day; FLit "___"]);;
  meals ← lift (py_getitem_str day_data "meals");
  if truthy meals then
    meals ← lift (py_getitem_str day_data "meals" ≫= py_iter);
    for_each meals (render_meal tab)
  else
    draw tab (Write [FLit "No meals planned for this day."]).

(** The section under the header of the weekly plan. *)
Definition render_week (meal_plan_data : pyval) : exec app unit :=
  days ← lift (py_getitem_str meal_plan_data "weekly_meal_plan" ≫= py_iter);
  tab_titles ← lift (mapM (λ day_data, py_getitem_str day_data "day") days);
  tabs ← st_tabs drawn set_drawn Main tab_titles;
  days ← lift (py_getitem_str meal_plan_data "weekly_meal_plan" ≫= py_iter);
  for_each (enumerate days) (λ '(i, day_data),
    tab ← handle tabs i;
    render_day tab day_data).

(** The section under the header of the shopping list. *)
Definition render_shopping_list (meal_plan_data : pyval) : exec app unit :=
  shopping_list ← lift (py_get_default meal_plan_data "shopping_list" (PyList []));
  if truthy shopping_list then
    cols ← st_columns drawn set_drawn Main 3;
    items ← lift (py_iter shopping_list);
    for_each (enumerate items) (λ '(idx, item),
      col ← handle cols (idx `mod` 3);
      draw col (Checkbox item ("item_" +:+ pretty idx)))
  else
    draw Main (Write [FLit "No shopping list generated."]).

(** What follows a truthy [meal_plan_data]. *)
Definition render (meal_plan_data : pyval) : exec app unit :=
  draw Main (Success "Meal Plan Generated Successfully!");;
  draw Main (Header "Weekly Meal Plan");;
  render_week meal_plan_data;;
  draw Main (Header "Shopping List");;
  render_shopping_list meal_plan_data.

(** The block under [if generate_button:]. *)
Definition on_generate (i : inputs) : exec app unit :=
  if negb (truthy (PyStr (dietary_preferences i))) then
    draw Main (Warning "Please enter your dietary preferences.")
  else
    draw Main (Info "Generating your personalized meal plan... This might take a moment!");;
    meal_plan_data ← generate_meal_plan (dietary_preferences i) (health_goals i) (num_meals i);
    if truthy meal_plan_data then render meal_plan_data else mret ().

(** One run of the script, top to bottom. *)
Definition script (i : inputs) : exec app unit :=
  draw Main (Title "AI Weekly Meal Plan Generator");;
  draw Main (Markdown [FLit "Enter your dietary preferences and health goals to get a personalized weekly meal plan and shopping list!"]);;
  draw Sidebar (Header "Your Preferences");;
  draw Sidebar (Input "Dietary Preferences (e.g., Vegan, Keto, Gluten-Free, allergies like peanuts)");;
  draw Sidebar (Input "Health Goals");;
  draw Sidebar (Input "Meals per day");;
  draw Sidebar (Button "Generate Meal Plan");;
  draw Main (Markdown [FLit "---"]);;
  if generate_button i then on_generate i else mret ().

End Script.

(** *** Observations on a run *)

(** The state after further elements were drawn. *)
Definition extend (evs : page) (s : app) : app := set_drawn (drawn s ++ evs) s.

(** The state after one more request. *)
Definition record_request (rq : request) (s : app) : app :=
  {| drawn := drawn s; sent := sent s ++ [rq] |}.

(** What the script draws before it looks at the button. *)
Definition chrome : page :=
  [(Main, Title "AI Weekly Meal Plan Generator");
   (Main, Markdown [FLit "Enter your dietary preferences and health goals to get a personalized weekly meal plan and shopping list!"]);
   (Sidebar, Header "Your Preferences");
   (Sidebar, Input "Dietary Preferences (e.g., Vegan, Keto, Gluten-Free, allergies like peanuts)");
   (Sidebar, Input "Health Goals");
   (Sidebar, Input "Meals per day");
   (Sidebar, Button "Generate Meal Plan");
   (Main, Markdown [FLit "---"])].

(** A rerun starts from an empty page; the requests of earlier runs stay
    sent. *)
Definition fresh (history : list request) : app := {| drawn := []; sent := history |}.

(** A value of the shape a schema describes: the properties listed as
    required are present, and every listed property that is present has
    the shape of its own schema. *)
Fixpoint conforms (sc : schema) (v : pyval) : bool :=
  match sc, v with
  | STRING, PyStr _ => true
  | ARRAY items, PyList l => forallb (conforms items) l
  | OBJECT properties required, PyDict d =>
      forallb (λ k, bool_decide (is_Some (dict_lookup k d))) required
      && forallb (λ ks, match dict_lookup ks.1 d with
                        | Some x => conforms ks.2 x
                        | None => true
                        end) properties
  | _, _ => false
  end.

(** The schema of a meal and of a day inside [response_schema]. *)
Definition meal_schema : schema :=
  OBJECT
    [("type", STRING); ("recipe_name", STRING);
     ("ingredients", ARRAY STRING); ("instructions", STRING)]
    ["type"; "recipe_name"; "ingredients"; "instructions"].

Definition day_schema : schema :=
  OBJECT [("day", STRING); ("meals", ARRAY meal_schema)] ["day"; "meals"].

(** [day_data['day']] where the key is present, and the heading drawn
    from it. *)
Definition day_label (day_data : pyval) : pyval :=
  match py_getitem_str day_data "day" with
  | Ret v => v
  | Raise _ => PyNone
  end.

Definition day_heading (day_data : pyval) : fstring :=
  [FLit "___"; FVal (day_label day_data); FLit "___"].

(** The checkboxes of the shopping list, the first one numbered [idx]. *)
Fixpoint checkboxes (idx : Z) (items : list pyval) : page :=
  match items with
  | [] => []
  | item :: rest =>
      (Column (Z.to_nat (idx `mod` 3)), Checkbox item ("item_" +:+ pretty idx))
      :: checkboxes (idx + 1) rest
  end.

(** The endpoint answers the request that follows [history] with a status
    outside 400..599 and an envelope whose text is non-empty and decodes to
    [plan]. *)
Definition answers (w : world) (history : list request) (rq : request) (plan : pyval) : Prop :=
  ∃ r result t,
    http_post w (length history) rq = Responded r ∧
    ¬ (400 ≤ status_code r < 600) ∧
    json_loads w (text r) = Ret result ∧
    envelope_text result = Ret (PyStr t) ∧
    t ≠ "" ∧
    json_loads w t = Ret plan.

(** A computation that only draws: it leaves the requests alone. *)
Definition draws_only {A} (m : exec app A) : Prop :=
  ∀ s, ∃ evs, (m s).2 = extend evs s.

(** The headings of the day sections, with the tab each is drawn in. *)
Definition tab_headings (p : page) : list (nat * fstring) :=
  omap (λ ce, match ce with (Tab i, Subheader b) => Some (i, b) | _ => None end) p.

(** The tabs that received an element, in drawing order. *)
Definition tabs_drawn_in (p : page) : list nat :=
  omap (λ ce, match ce with (Tab i, _) => Some i | _ => None end) p.

(** The labels of the checkboxes of the shopping list. *)
Definition checkbox_labels (p : page) : list pyval :=
  omap (λ ce, match ce with (_, Checkbox l _) => Some l | _ => None end) p.

Definition checkbox_keys (p : page) : list string :=
  omap (λ ce, match ce with (_, Checkbox _ k) => Some k | _ => None end) p.

(** The messages shown by [st.error]. *)
Definition errors (p : page) : list fstring :=
  omap (λ ce, match ce with (_, Error b) => Some b | _ => None end) p.

(** [sub in s] *)
Definition contains (sub s : string) : Prop := ∃ a b, s = a +:+ sub +:+ b.

(** Elements of one tab, none of them a heading or a checkbox. *)
Definition body_of (i : nat) (evs : page) : Prop :=
  tab_headings evs = [] ∧ checkbox_labels evs = [] ∧ Forall (λ ce, ce.1 = Tab i) evs.

(** The label of the tab of a day (where [day_data['day']] is a [str]). *)
Definition label_text (day_data : pyval) : string :=
  match day_label day_data with PyStr s => s | _ => "" end.

(** *** Properties of a run named in the theorems *)

(** The parse failure was reported: [None] came back, an error is on the
    page, and so is the raw text of the response. *)
Definition parse_failure_reported (r : response) (res : outcome pyval * app) : Prop :=
  res.1 = Ret PyNone ∧ (∃ b, (Main, Error b) ∈ drawn res.2) ∧
  (Main, Code (text r)) ∈ drawn res.2.

(** The shopping list on the page has no entry twice. *)
Definition shopping_list_deduplicated (res : outcome unit * app) : Prop :=
  NoDup (checkbox_labels (drawn res.2)).

(** The run ended normally and the placeholder of a day without meals is
    in tab [i]. *)
Definition nothing_planned_shown (i : nat) (res : outcome unit * app) : Prop :=
  res.1 = Ret () ∧ (Tab i, Write [FLit "No meals planned for this day."]) ∈ drawn res.2.

(** *** Concrete worlds *)

(** An endpoint that answers every request with status 200 and [body]. *)
Definition serving (body : string) : world :=
  {| http_post := λ _ _, Responded {| status_code := 200; text := body |};
     json_loads := Json.loads;
     requests_2_27 := true |}.

(** An endpoint that cannot be reached. *)
Definition refusing : world :=
  {| http_post := λ _ _, Failed "Connection refused";
     json_loads := Json.loads;
     requests_2_27 := true |}.

(** An endpoint that answers every request with status [status] and
    [body]. *)
Definition serving_status (status : Z) (body : string) : world :=
  {| http_post := λ _ _, Responded {| status_code := status; text := body |};
     json_loads := Json.loads;
     requests_2_27 := true |}.

(** The response envelope around the generated text [t]. *)
Definition envelope_of (t : string) : string :=
  Json.dq "{'candidates':[{'content':{'parts':[{'text':'"
  +:+ Json.escape t +:+ Json.dq "'}]}}]}".

Definition week_text : string :=
  Json.dq "{'weekly_meal_plan':[{'day':'Monday','meals':[{'type':'Breakfast','recipe_name':'Porridge','ingredients':['oats','water'],'instructions':'Boil.'}]},{'day':'Tuesday','meals':[]},{'day':'Wednesday','meals':[]},{'day':'Thursday','meals':[]},{'day':'Friday','meals':[]},{'day':'Saturday','meals':[]},{'day':'Sunday','meals':[]}],'shopping_list':['oats','water']}".

Definition twice_eggs_text : string :=
  Json.dq "{'weekly_meal_plan':[{'day':'Monday','meals':[]}],'shopping_list':['eggs','eggs']}".


(** What a document of the examples decodes to. *)
Definition decoded (doc : string) : pyval :=
  match Json.loads doc with Ret v => v | Raise _ => PyNone end.

(** The values the three texts decode to. *)
Definition week_plan : pyval :=
  Eval vm_compute in decoded week_text.

Definition week_days : list pyval :=
  Eval vm_compute in
    match py_getitem_str week_plan "weekly_meal_plan" with
    | Ret (PyList days) => days
    | _ => []
    end.

Definition twice_eggs_plan : pyval :=
  Eval vm_compute in decoded twice_eggs_text.


(** The envelope the endpoint [serving (envelope_of t)] sends. *)
Definition envelope_value (t : string) : pyval :=
  PyDict [("candidates", PyList [PyDict [("content",
    PyDict [("parts", PyList [PyDict [("text", PyStr t)]])])]])].

Definition vegan : inputs :=
  {| dietary_preferences := "Vegan"; health_goals := "Weight Loss";
     num_meals := 2; generate_button := true |}.

(** A text cut off after [n] opening brackets. *)
Definition nested_arrays (n : N) : string := N.iter n (String "[") "".





End Meal.

(** ** reply.py: the HR email responder *)

Module Reply.
Import Py Exec St.

(** The f-string of [generate_email]. *)
Definition prompt (applicant_text tone format_type name role company : string) : string :=
  "
    You are an HR manager. Write an email response to a job applicant.
    Applicant Name: "
  +:+ name +:+
  "
    Role Applied For: "
  +:+ role +:+
  "
    Company: "
  +:+ company +:+
  "
    Email Format: "
  +:+ format_type +:+
  "
    Tone: "
  +:+ tone +:+
  "
    Applicant Message: "
  +:+ applicant_text +:+
  "
    Please generate a professional email response.
    ".

(** The arguments of [generate_email], in order: applicant_text, tone,
    format_type, name, role, company. *)
Abbreviation args := (string * string * string * string * string * string)%type.

(** Everything outside the script: [response.text] of the n-th call of
    [model.generate_content], or the exception the call or the attribute
    raised.  The text is whatever the model wrote, within Latin-1 or not. *)
Record world := { generate_content : nat → string → outcome text }.

(** The state of the app: the page drawn so far, the prompts sent to the
    model, the store behind [st.cache_data], [st.session_state], and the
    files written, each as the lines of Latin-1 text put into it. *)
Record app := {
  drawn : page;
  sent : list string;
  cache : gmap args text;
  session_state : gmap string text;
  files : gmap string (list string)
}.

Definition set_drawn (p : page) (s : app) : app :=
  {| drawn := p; sent := sent s; cache := cache s;
     session_state := session_state s; files := files s |}.

Definition set_cache (c : gmap args text) (s : app) : app :=
  {| drawn := drawn s; sent := sent s; cache := c;
     session_state := session_state s; files := files s |}.

Definition set_session_state (m : gmap string text) (s : app) : app :=
  {| drawn := drawn s; sent := sent s; cache := cache s;
     session_state := m; files := files s |}.

Definition set_files (f : gmap string (list string)) (s : app) : app :=
  {| drawn := drawn s; sent := sent s; cache := cache s;
     session_state := session_state s; files := f |}.

Abbreviation draw := (St.draw drawn set_drawn).

(** The two buttons; a rerun is triggered by at most one of them, and a
    button returns [True] only in the rerun its click triggered. *)
Inductive button := GenerateEmail | RegenerateEmail.

(** The widgets of the form, as the user left them, and the click that
    triggered the run. *)
Record inputs := {
  name : string;
  role : string;
  company : string;
  applicant_text : string;
  format_type : string;
  tone : string;
  clicked : option button
}.

Definition pressed (b : button) (i : inputs) : bool :=
  match clicked i, b with
  | Some GenerateEmail, GenerateEmail | Some RegenerateEmail, RegenerateEmail => true
  | _, _ => false
  end.

(** [content.split('\n')] *)
Fixpoint split_lines (content : string) : list string :=
  match content with
  | EmptyString => [EmptyString]
  | String c rest =>
      if Ascii.eqb c "010" then EmptyString :: split_lines rest
      else
        match split_lines rest with
        | line :: lines => String c line :: lines
        | [] => [String c EmptyString]
        end
  end.

Definition pdf_path : string := "/tmp/generated_email.pdf".

Section Script.
Variable w : world.

(** [model.generate_content(prompt)] followed by [response.text] *)
Definition model_generate_content (p : string) : exec app text := λ s,
  (generate_content w (length (sent s)) p,
   {| drawn := drawn s; sent := sent s ++ [p]; cache := cache s;
      session_state := session_state s; files := files s |}).

(** The undecorated body of [generate_email]. *)
Definition generate_email_body (a : args) : exec app text :=
  let '(applicant_text, tone, format_type, name, role, company) := a in
  response_text ← model_generate_content
    (prompt applicant_text tone format_type name role company);
  mret (text_strip response_text).

(** [@st.cache_data]: a stored result is returned without running the
    body; a result is stored when the body returns, not when it raises. *)
Definition cache_data (body : args → exec app text) (a : args) : exec app text := λ s,
  match cache s !! a with
  | Some r => (Ret r, s)
  | None =>
      match body a s with
      | (Ret r, s') => (Ret r, set_cache (<[a := r]> (cache s')) s')
      | (Raise e, s') => (Raise e, s')
      end
  end.

Definition generate_email : args → exec app text := cache_data generate_email_body.

(** One [multi_cell] per line, written out to the fixed path.  The font
    set is a core font, which holds Latin-1 only: a code point from 256 on
    makes fpdf raise (in [multi_cell] or in [output], by its version)
    before anything is written to the path. *)
Definition create_pdf (content : text) : exec app string := λ s,
  match encode_latin1 content with
  | Some bytes => (Ret pdf_path, set_files (<[pdf_path := split_lines bytes]> (files s)) s)
  | None => (Raise UnicodeEncodeError, s)
  end.

(** [st.session_state.email_content] *)
Definition get_email_content : exec app text := λ s,
  match session_state s !! "email_content" with
  | Some c => (Ret c, s)
  | None => (Raise (AttributeError "st.session_state has no attribute email_content"), s)
  end.

(** [st.session_state.email_content = c] *)
Definition set_email_content (c : text) : exec app unit := λ s,
  (Ret (), set_session_state (<["email_content" := c]> (session_state s)) s).

(** [open(path, 'rb')] *)
Definition open_rb (path : string) : exec app (list string) := λ s,
  match files s !! path with
  | Some data => (Ret data, s)
  | None => (Raise (ValueError "No such file or directory"), s)
  end.

(** The block under [if submitted:]. *)
Definition on_submit (i : inputs) : exec app unit :=
  if String.eqb (strip (applicant_text i)) "" then
    draw Main (Error [FLit "Please paste the applicant's message."])
  else
    email_content ← generate_email
      (applicant_text i, tone i, format_type i, name i, role i, company i);
    set_email_content email_content.

(** The block under [if st.session_state.email_content:]. *)
Definition show_email (i : inputs) : exec app unit :=
  draw Main (Write [FLit "---"]);;
  draw Main (Subheader [FLit "Generated Email"]);;
  content ← get_email_content;
  draw Main (TextArea "Email Response" content);;
  content ← get_email_content;
  pdf_file_path ← create_pdf content;
  f ← open_rb pdf_file_path;
  draw Main (DownloadButton "Download Email as PDF" "HR_Email_Response.pdf" f);;
  draw Main (Button "Regenerate Email with New Format/Tone");;
  if pressed RegenerateEmail i then
    set_email_content "Thank you for your application."
  else mret ().

(** One run of the script, top to bottom. *)
Definition script (i : inputs) : exec app unit :=
  draw Main (Title "HR Email Reply Generator");;
  draw (Form "email_form") (Write [FLit "### Applicant Details"]);;
  draw (Form "email_form") (Input "Applicant's Name");;
  draw (Form "email_form") (Input "Role Applied For");;
  draw (Form "email_form") (Input "Company Name");;
  draw (Form "email_form") (Input "Paste Applicant's Message");;
  draw (Form "email_form") (Write [FLit "### Email Preferences"]);;
  draw (Form "email_form") (Input "Select Email Format");;
  draw (Form "email_form") (Input "Select Tone");;
  draw (Form "email_form") (Button "Generate Email");;
  (λ s, match session_state s !! "email_content" with
        | None => set_email_content "" s
        | Some _ => (Ret (), s)
        end);;
  (if pressed GenerateEmail i then on_submit i else mret ());;
  content ← get_email_content;
  if text_truthy content then show_email i else mret ().

End Script.

(** *** Observations on a run *)

(** The state after further elements were drawn. *)
Definition extend (evs : page) (s : app) : app := set_drawn (drawn s ++ evs) s.

(** A computation that does not reach the model: it may draw, and write
    session state and files, but it sends nothing and leaves the store of
    [st.cache_data] alone. *)
Definition offline {A} (m : exec app A) : Prop :=
  ∀ s, ∃ evs,
    drawn (m s).2 = drawn s ++ evs ∧ sent (m s).2 = sent s ∧ cache (m s).2 = cache s.

(** A computation that leaves the result stored for [a] in place. *)
Definition keeps_entry (a : args) (r : text) {A} (m : exec app A) : Prop :=
  ∀ s, cache s !! a = Some r → cache (m s).2 !! a = Some r.

(** The stored results are within Latin-1. *)
Definition latin1_cache (s : app) : Prop :=
  ∀ a c, cache s !! a = Some c → is_Some (encode_latin1 c).

(** The draft in session state, if there is one, is within Latin-1. *)
Definition latin1_draft (s : app) : Prop :=
  ∀ c, session_state s !! "email_content" = Some c → is_Some (encode_latin1 c).

(** The state after a series of reruns; each starts from an empty page and
    inherits everything else. *)
Definition reruns (w : world) (runs : list inputs) (s : app) : app :=
  foldl (λ s i, (script w i (set_drawn [] s)).2) s runs.

(** *** Concrete worlds *)

(** A model that answers every prompt with [answer]. *)
Definition replying (answer : text) : world :=
  {| generate_content := λ _ _, Ret answer |}.

(** The app before the first run. *)
Definition initial : app :=
  {| drawn := []; sent := []; cache := ∅; session_state := ∅; files := ∅ |}.

(** The form with its default values and a message [msg]. *)
Definition form (msg : string) (click : option button) : inputs :=
  {| name := "John Doe"; role := "Software Engineer"; company := "Acme Corp";
     applicant_text := msg; format_type := "Acknowledgement"; tone := "Formal";
     clicked := click |}.

(** The app with a draft in session state. *)
Definition with_draft (draft : text) : app :=
  {| drawn := []; sent := []; cache := ∅;
     session_state := {["email_content" := draft]}; files := ∅ |}.

(** What the script draws before it looks at session state. *)
Definition form_widgets : page :=
  [(Main, Title "HR Email Reply Generator");
   (Form "email_form", Write [FLit "### Applicant Details"]);
   (Form "email_form", Input "Applicant's Name");
   (Form "email_form", Input "Role Applied For");
   (Form "email_form", Input "Company Name");
   (Form "email_form", Input "Paste Applicant's Message");
   (Form "email_form", Write [FLit "### Email Preferences"]);
   (Form "email_form", Input "Select Email Format");
   (Form "email_form", Input "Select Tone");
   (Form "email_form", Button "Generate Email")].

(** The state once [email_content] is in session state. *)
Definition initialised (s : app) : app :=
  match session_state s !! "email_content" with
  | None => set_session_state (<["email_content" := latin1 ""]> (session_state s)) s
  | Some _ => s
  end.

(** A model whose n-th answer is numbered n. *)
Definition numbering : world :=
  {| generate_content := λ n _, Ret (latin1 ("Draft " +:+ pretty n)) |}.

(** The arguments [on_submit] passes to [generate_email]. *)
Definition args_of (i : inputs) : args :=
  (applicant_text i, tone i, format_type i, name i, role i, company i).

(** The prompt [on_submit] has [generate_email] build. *)
Definition prompt_of (i : inputs) : string :=
  prompt (applicant_text i) (tone i) (format_type i) (name i) (role i) (company i).

(** What is drawn under [if st.session_state.email_content:] before
    [create_pdf] is called. *)
Definition email_head (c : text) : page :=
  [(Main, Write [FLit "---"]);
   (Main, Subheader [FLit "Generated Email"]);
   (Main, TextArea "Email Response" c)].

(** The five elements under [if st.session_state.email_content:]. *)
Definition email_section (c : string) : page :=
  [(Main, Write [FLit "---"]);
   (Main, Subheader [FLit "Generated Email"]);
   (Main, TextArea "Email Response" c);
   (Main, DownloadButton "Download Email as PDF" "HR_Email_Response.pdf" (split_lines c));
   (Main, Button "Regenerate Email with New Format/Tone")].

(** The same form values in the rerun another click triggers. *)
Definition with_click (click : option button) (i : inputs) : inputs :=
  {| name := name i; role := role i; company := company i;
     applicant_text := applicant_text i; format_type := format_type i; tone := tone i;
     clicked := click |}.

End Reply.

(** ** Facts about the planner *)

Module MealFacts.
Import Py Exec St Meal.

Lemma extend_nil s : extend [] s = s.
Proof. destruct s; unfold extend, set_drawn; simpl. by rewrite app_nil_r. Qed.

Lemma extend_extend a b s : extend b (extend a s) = extend (a ++ b) s.
Proof. unfold extend, set_drawn; simpl. by rewrite app_assoc. Qed.

Lemma sent_extend evs s : sent (extend evs s) = sent s.
Proof. done. Qed.

Lemma drawn_extend evs s : drawn (extend evs s) = drawn s ++ evs.
Proof. done. Qed.

Lemma draw_extend c e s : draw c e s = (Ret (), extend [(c, e)] s).
Proof. done. Qed.

Lemma bind_ret {A B} (m : exec app A) (k : A → exec app B) s a s' :
  m s = (Ret a, s') → (m ≫= k) s = k a s'.
Proof. unfold mbind, exec_bind. by intros ->. Qed.

Lemma bind_raise {A B} (m : exec app A) (k : A → exec app B) s e s' :
  m s = (Raise e, s') → (m ≫= k) s = (Raise e, s').
Proof. unfold mbind, exec_bind. by intros ->. Qed.

Lemma script_chrome w i s :
  script w i s =
  (if generate_button i then on_generate w i else mret ()) (extend chrome s).
Proof.
  unfold script. repeat (erewrite bind_ret; [|apply draw_extend]; rewrite ?extend_extend).
  done.
Qed.

Lemma py_index_0 {A} (l : list A) : py_index l 0 = head l.
Proof. unfold py_index. by destruct l. Qed.

Lemma outcome_bind_Ret {A B} (m : outcome A) (f : A → outcome B) b :
  m ≫= f = Ret b → ∃ a, m = Ret a ∧ f a = Ret b.
Proof. destruct m; simpl; [eauto|done]. Qed.

Lemma py_getitem_str_Ret v k x :
  py_getitem_str v k = Ret x → ∃ d, v = PyDict d ∧ dict_lookup k d = Some x.
Proof.
  destruct v; simpl; try done.
  destruct (dict_lookup k d) eqn:E; intros [=]; subst; eauto.
Qed.

Lemma dict_lookup_truthy k d x : dict_lookup k d = Some x → truthy (PyDict d) = true.
Proof. by destruct d. Qed.

(** A value whose first item is a dictionary is a non-empty list. *)
Lemma first_item_dict v d :
  py_getitem_int v 0 = Ret (PyDict d) → ∃ l, v = PyList (PyDict d :: l).
Proof.
  destruct v; simpl; try done.
  - rewrite py_index_0. unfold chars.
    destruct (String.list_ascii_of_string s); simpl; [done|]. by intros [=].
  - rewrite py_index_0. destruct l as [|x l]; simpl; [done|]. intros [= ->]. eauto.
Qed.

Lemma envelope_shape result v :
  envelope_text result = Ret v →
  ∃ d l1 c0 ct l2 p0,
    result = PyDict d ∧
    dict_lookup "candidates" d = Some (PyList (PyDict c0 :: l1)) ∧
    dict_lookup "content" c0 = Some (PyDict ct) ∧
    dict_lookup "parts" ct = Some (PyList (PyDict p0 :: l2)) ∧
    dict_lookup "text" p0 = Some v.
Proof.
  unfold envelope_text, part0, content0, candidate0. intros H.
  apply outcome_bind_Ret in H as (p & H & Htext).
  apply outcome_bind_Ret in H as (ct & H & Hparts).
  apply outcome_bind_Ret in Hparts as (parts & Hparts & Hp0).
  apply outcome_bind_Ret in H as (c & H & Hcontent).
  apply outcome_bind_Ret in H as (cs & Hcs & Hc0).
  apply py_getitem_str_Ret in Htext as (p0 & -> & Htext).
  apply py_getitem_str_Ret in Hparts as (ctd & -> & Hparts).
  apply py_getitem_str_Ret in Hcontent as (c0 & -> & Hcontent).
  apply py_getitem_str_Ret in Hcs as (d & -> & Hcs).
  apply first_item_dict in Hp0 as (l2 & ->).
  apply first_item_dict in Hc0 as (l1 & ->).
  by exists d, l1, c0, ctd, l2, p0.
Qed.

Lemma envelope_guard result v :
  envelope_text result = Ret v → expected_structure result = Ret v.
Proof.
  intros (d & l1 & c0 & ct & l2 & p0 & -> & Hc & Hct & Hp & Ht)%envelope_shape.
  assert (candidate0 (PyDict d) = Ret (PyDict c0)) as E1.
  { unfold candidate0. simpl. by rewrite Hc. }
  assert (content0 (PyDict d) = Ret (PyDict ct)) as E2.
  { unfold content0. rewrite E1. simpl. by rewrite Hct. }
  assert (part0 (PyDict d) = Ret (PyDict p0)) as E3.
  { unfold part0. rewrite E2. simpl. by rewrite Hp. }
  unfold expected_structure, py_and. rewrite E1, E2, E3.
  pose proof (dict_lookup_truthy _ _ _ Hc) as Td.
  pose proof (dict_lookup_truthy _ _ _ Hp) as Tct.
  unfold py_get, py_get_default.
  do 5 (cbn -[truthy dict_lookup]; rewrite ?Td, ?Tct, ?Hc, ?Hct, ?Hp, ?Ht).
  clear E2 E3 Tct. destruct ct; [discriminate Hp|]. done.
Qed.

Ltac draws :=
  repeat (erewrite bind_ret by apply draw_extend; rewrite ?extend_extend; cbn [Datatypes.app]).

Lemma handler_bound r e s :
  handler (Some r) e s =
  (Ret PyNone,
   extend
     (if is_RequestException e then
        [(Main, Error [FLit "Error connecting to Gemini API: "; FExn e])]
      else if is_JSONDecodeError e then
        [(Main, Error [FLit "Error parsing JSON response from Gemini API: "; FExn e]);
         (Main, Write [FLit "Raw API response content (might be malformed JSON):"]);
         (Main, Code (text r))]
      else [(Main, Error [FLit "An unexpected error occurred: "; FExn e])]) s).
Proof.
  unfold handler.
  destruct (is_RequestException e); [|destruct (is_JSONDecodeError e)]; by draws.
Qed.

Lemma bind_lift {A B} (o : outcome A) (k : A → exec app B) s :
  (lift o ≫= k) s = match o with Ret a => k a s | Raise e => (Raise e, s) end.
Proof. by destruct o. Qed.

Lemma raise_for_status_ok r :
  ¬ (400 ≤ status_code r < 600) → raise_for_status r = Ret ().
Proof.
  intros H. unfold raise_for_status.
  destruct (Z.leb_spec 400 (status_code r)), (Z.ltb_spec (status_code r) 600); simpl;
    try done; lia.
Qed.

Lemma raise_for_status_error r :
  400 ≤ status_code r < 600 → raise_for_status r = Raise (HTTPError (status_code r)).
Proof.
  intros H. unfold raise_for_status.
  destruct (Z.leb_spec 400 (status_code r)), (Z.ltb_spec (status_code r) 600); simpl;
    try done; lia.
Qed.

Lemma raise_for_status_Ret r :
  raise_for_status r = Ret () → ¬ (400 ≤ status_code r < 600).
Proof. intros H Hr. by rewrite (raise_for_status_error r Hr) in H. Qed.

Lemma response_json_Ret w r v : json_loads w (text r) = Ret v → response_json w r = Ret v.
Proof. unfold response_json. by intros ->. Qed.

(** [after_post] as a decision over the pure checks. *)
Lemma after_post_view w r s :
  after_post w r s =
  match raise_for_status r with
  | Raise e => (Raise e, s)
  | Ret _ =>
      match response_json w r with
      | Raise e => (Raise e, s)
      | Ret result =>
          match expected_structure result with
          | Raise e => (Raise e, s)
          | Ret ok =>
              if truthy ok then
                match envelope_text result ≫= py_json_loads w with
                | Raise e => (Raise e, s)
                | Ret v => (Ret v, s)
                end
              else
                (Ret PyNone,
                 extend [(Main, Error [FLit "Error: Unexpected response format from Gemini API."]);
                         (Main, Json result)] s)
          end
      end
  end.
Proof.
  unfold after_post. rewrite bind_lift.
  destruct (raise_for_status r); [|done].
  rewrite bind_lift. destruct (response_json w r) as [result|]; [|done].
  rewrite bind_lift. destruct (expected_structure result) as [ok|]; [|done].
  destruct (truthy ok).
  - rewrite bind_lift. destruct (envelope_text result) as [js|]; [|done].
    simpl. rewrite bind_lift. by destruct (py_json_loads w js).
  - by draws.
Qed.

Lemma generate_view w p g n s :
  generate_meal_plan w p g n s =
  match http_post w (length (sent s)) (build_request p g n) with
  | Failed msg =>
      (Ret PyNone,
       extend [(Main, Error [FLit "Error connecting to Gemini API: ";
                             FExn (RequestException msg)])]
         (record_request (build_request p g n) s))
  | Responded r =>
      try_except (after_post w r) (handler (Some r))
        (record_request (build_request p g n) s)
  end.
Proof.
  unfold generate_meal_plan, requests_post.
  destruct (http_post w _ _); [|done].
  unfold handler. simpl. by draws.
Qed.

Lemma generate_answers w p g n s plan :
  answers w (sent s) (build_request p g n) plan →
  generate_meal_plan w p g n s = (Ret plan, record_request (build_request p g n) s).
Proof.
  intros (r & result & t & Hpost & Hst & Hjs & Henv & Ht & Hplan).
  rewrite generate_view, Hpost. unfold try_except.
  rewrite after_post_view, (raise_for_status_ok _ Hst), (response_json_Ret _ _ _ Hjs).
  rewrite (envelope_guard _ _ Henv), Henv. simpl.
  destruct (String.eqb_spec t ""); [done|]. simpl. by rewrite Hplan.
Qed.

Lemma handler_events_error (r : response) e :
  ∃ b rest,
    (if is_RequestException e then
        [(Main, Error [FLit "Error connecting to Gemini API: "; FExn e])]
      else if is_JSONDecodeError e then
        [(Main, Error [FLit "Error parsing JSON response from Gemini API: "; FExn e]);
         (Main, Write [FLit "Raw API response content (might be malformed JSON):"]);
         (Main, Code (text r))]
      else [(Main, Error [FLit "An unexpected error occurred: "; FExn e])])
    = (Main, Error b) :: rest.
Proof. destruct (is_RequestException e), (is_JSONDecodeError e); eauto. Qed.

Lemma py_json_loads_Ret w js v :
  py_json_loads w js = Ret v → ∃ t, js = PyStr t ∧ json_loads w t = Ret v.
Proof. destruct js; simpl; try done. eauto. Qed.

Lemma response_json_other w r e :
  json_loads w (text r) = Raise e → (∀ doc, e ≠ JSONDecodeError doc) →
  response_json w r = Raise e.
Proof. unfold response_json. intros -> H. destruct e; try done. by destruct (H doc). Qed.

Lemma response_json_inv w r v :
  response_json w r = Ret v → json_loads w (text r) = Ret v.
Proof.
  unfold response_json. destruct (json_loads w (text r)) as [x|e]; [done|]. by destruct e.
Qed.

Lemma truthy_str t : truthy (PyStr t) = true ↔ t ≠ "".
Proof. simpl. destruct (String.eqb_spec t ""); naive_solver. Qed.

(** The [try] block once [response] is bound: it returns the decoded text
    and draws nothing, or it returns [None] and draws an error first. *)
Lemma try_block_cases w r s :
  ∃ v evs,
    try_except (after_post w r) (handler (Some r)) s = (Ret v, extend evs s) ∧
    ((evs = [] ∧ ∃ result t,
        ¬ (400 ≤ status_code r < 600) ∧
        json_loads w (text r) = Ret result ∧
        envelope_text result = Ret (PyStr t) ∧
        t ≠ "" ∧
        json_loads w t = Ret v) ∨
     (v = PyNone ∧ ∃ b rest, evs = (Main, Error b) :: rest)).
Proof.
  unfold try_except. rewrite after_post_view.
  assert (∀ e, ∃ v evs, handler (Some r) e s = (Ret v, extend evs s) ∧
            ((evs = [] ∧ ∃ result t,
                ¬ (400 ≤ status_code r < 600) ∧
                json_loads w (text r) = Ret result ∧
                envelope_text result = Ret (PyStr t) ∧
                t ≠ "" ∧
                json_loads w t = Ret v) ∨
             (v = PyNone ∧ ∃ b rest, evs = (Main, Error b) :: rest))) as Hcaught.
  { intros e. rewrite handler_bound. eexists _, _. split; [done|]. right.
    split; [done|]. apply handler_events_error. }
  destruct (raise_for_status r) as [[]|] eqn:Hst; [|apply Hcaught].
  apply raise_for_status_Ret in Hst.
  destruct (response_json w r) as [result|] eqn:Hjs; [|apply Hcaught].
  apply response_json_inv in Hjs.
  destruct (expected_structure result) as [ok|] eqn:Hok; [|apply Hcaught].
  destruct (truthy ok) eqn:Tok.
  - destruct (envelope_text result) as [js|] eqn:Henv; [|apply Hcaught].
    simpl. destruct (py_json_loads w js) as [v|] eqn:Hv; [|apply Hcaught].
    apply py_json_loads_Ret in Hv as (t & -> & Hv).
    rewrite (envelope_guard _ _ Henv) in Hok. injection Hok as <-.
    apply truthy_str in Tok.
    exists v, []. rewrite extend_nil. split; [done|]. left. split; [done|].
    by exists result, t.
  - eexists _, _. split; [done|]. right. eauto.
Qed.

(** [generate_meal_plan] returns, its request sent once. *)
Lemma generate_returns w p g n s :
  ∃ v evs,
    generate_meal_plan w p g n s
      = (Ret v, extend evs (record_request (build_request p g n) s)).
Proof.
  rewrite generate_view. destruct (http_post w _ _) as [msg|r]; [by eexists _, _|].
  destruct (try_block_cases w r (record_request (build_request p g n) s))
    as (v & evs & H & _). eauto.
Qed.

(** What [generate_meal_plan] does with a status from 400 to 599. *)
Lemma generate_http_error w p g n s r :
  http_post w (length (sent s)) (build_request p g n) = Responded r →
  400 ≤ status_code r < 600 →
  generate_meal_plan w p g n s =
    (Ret PyNone,
     extend [(Main, Error [FLit "Error connecting to Gemini API: ";
                           FExn (HTTPError (status_code r))])]
       (record_request (build_request p g n) s)).
Proof.
  intros Hpost Hst. rewrite generate_view, Hpost. unfold try_except.
  rewrite after_post_view, (raise_for_status_error _ Hst). by rewrite handler_bound.
Qed.

(** C6: [generate_meal_plan] never lets an exception escape and sends
    exactly one request.  Either the endpoint answered with a status
    outside 400..599 and an envelope whose non-empty text decodes, and the
    decoded value is returned with nothing drawn; or [None] is returned
    and the first thing drawn is an [st.error] message.  The second is the
    case for a body that is not JSON, an envelope of another shape, a text
    that does not decode and any other exception; for a refused connection
    and for a status from 400 to 599 the message is the only thing drawn
    and names the exception. *)
Theorem C6_failures_caught w p g n s :
  ∃ v evs,
    generate_meal_plan w p g n s
      = (Ret v, extend evs (record_request (build_request p g n) s)) ∧
    ((answers w (sent s) (build_request p g n) v ∧ evs = []) ∨
     (v = PyNone ∧ ∃ b rest, evs = (Main, Error b) :: rest)) ∧
    (∀ msg,
       http_post w (length (sent s)) (build_request p g n) = Failed msg →
       v = PyNone ∧
       evs = [(Main, Error [FLit "Error connecting to Gemini API: ";
                            FExn (RequestException msg)])]) ∧
    (∀ r,
       http_post w (length (sent s)) (build_request p g n) = Responded r →
       400 ≤ status_code r < 600 →
       v = PyNone ∧
       evs = [(Main, Error [FLit "Error connecting to Gemini API: ";
                            FExn (HTTPError (status_code r))])]).
Proof.
  destruct (http_post w (length (sent s)) (build_request p g n)) as [msg|r] eqn:Hpost.
  - (* the connection failed *)
    rewrite generate_view, Hpost. eexists _, _. split; [done|].
    split; [right; eauto|]. split; [by intros ? [= <-]|done].
  - destruct (decide (400 ≤ status_code r < 600)) as [Hst|Hst].
    + (* an HTTP error status *)
      rewrite (generate_http_error w p g n s r Hpost Hst). eexists _, _. split; [done|].
      split; [right; eauto|]. split; [done|]. by intros ? [= <-] _.
    + (* a response that [raise_for_status] lets through *)
      rewrite generate_view, Hpost.
      destruct (try_block_cases w r (record_request (build_request p g n) s))
        as (v & evs & Hrun & Hcases).
      exists v, evs. split; [done|]. split; [|split; [done|]].
      * destruct Hcases as [(-> & result & t & _ & Hjs & Henv & Ht & Hv)|Hnone];
          [left|by right].
        split; [|done]. unfold answers. rewrite Hpost. by exists r, result, t.
      * intros ? [= <-] Hr. by destruct Hst.
Qed.

(** The failures one by one, each with the request sent once and [None]
    returned. *)
Example connection_refused :
  generate_meal_plan refusing "Vegan" "Weight Loss" 2 (fresh []) =
  (Ret PyNone,
   {| drawn := [(Main, Error [FLit "Error connecting to Gemini API: ";
                              FExn (RequestException "Connection refused")])];
      sent := [build_request "Vegan" "Weight Loss" 2] |}).
Proof. reflexivity. Qed.

Example server_error :
  generate_meal_plan (serving_status 500 "Internal Server Error") "Vegan" "Weight Loss" 2
    (fresh []) =
  (Ret PyNone,
   {| drawn := [(Main, Error [FLit "Error connecting to Gemini API: "; FExn (HTTPError 500)])];
      sent := [build_request "Vegan" "Weight Loss" 2] |}).
Proof. reflexivity. Qed.

Example body_not_json :
  generate_meal_plan (serving "<html>") "Vegan" "Weight Loss" 2 (fresh []) =
  (Ret PyNone,
   {| drawn := [(Main, Error [FLit "Error connecting to Gemini API: ";
                              FExn (RequestsJSONDecodeError "<html>")])];
      sent := [build_request "Vegan" "Weight Loss" 2] |}).
Proof. reflexivity. Qed.

Example no_candidates :
  generate_meal_plan (serving (Json.dq "{'error': 'quota'}")) "Vegan" "Weight Loss" 2
    (fresh []) =
  (Ret PyNone,
   {| drawn := [(Main, Error [FLit "Error: Unexpected response format from Gemini API."]);
                (Main, Json (PyDict [("error", PyStr "quota")]))];
      sent := [build_request "Vegan" "Weight Loss" 2] |}).
Proof. reflexivity. Qed.

Example candidates_not_a_list :
  generate_meal_plan (serving (Json.dq "{'candidates': {'first': 1}}")) "Vegan" "Weight Loss" 2
    (fresh []) =
  (Ret PyNone,
   {| drawn := [(Main, Error [FLit "An unexpected error occurred: ";
                              FExn (KeyError (PyInt 0))])];
      sent := [build_request "Vegan" "Weight Loss" 2] |}).
Proof. reflexivity. Qed.

Example text_not_json :
  generate_meal_plan (serving (envelope_of "{")) "Vegan" "Weight Loss" 2 (fresh []) =
  (Ret PyNone,
   {| drawn := [(Main, Error [FLit "Error parsing JSON response from Gemini API: ";
                              FExn (JSONDecodeError "{")]);
                (Main, Write [FLit "Raw API response content (might be malformed JSON):"]);
                (Main, Code (envelope_of "{"))];
      sent := [build_request "Vegan" "Weight Loss" 2] |}).
Proof. reflexivity. Qed.

(** The envelope was decoded and its text is the string [t]: the run by
    what the guard and the decoder make of [t]. *)
Lemma generate_text_view w p g n s r result t :
  http_post w (length (sent s)) (build_request p g n) = Responded r →
  ¬ (400 ≤ status_code r < 600) →
  json_loads w (text r) = Ret result →
  envelope_text result = Ret (PyStr t) →
  generate_meal_plan w p g n s =
    if String.eqb t "" then
      (Ret PyNone,
       extend [(Main, Error [FLit "Error: Unexpected response format from Gemini API."]);
               (Main, Json result)]
         (record_request (build_request p g n) s))
    else
      match json_loads w t with
      | Ret plan => (Ret plan, record_request (build_request p g n) s)
      | Raise e => handler (Some r) e (record_request (build_request p g n) s)
      end.
Proof.
  intros Hpost Hst Hjs Henv.
  rewrite generate_view, Hpost. unfold try_except.
  rewrite after_post_view, (raise_for_status_ok _ Hst), (response_json_Ret _ _ _ Hjs).
  rewrite (envelope_guard _ _ Henv), Henv. simpl.
  destruct (String.eqb t ""); [done|]. simpl. by destruct (json_loads w t).
Qed.

(** C2 (amended): when the envelope text does not decode, [None] is
    returned after an error message, with the request sent once, and
    nothing is raised.  What is shown with the message depends on the text
    and on the exception of the decoder.  An empty text never reaches the
    decoder: the guard sends it to the branch for an unexpected format,
    which shows the decoded response object.  For a non-empty text the
    [except] clauses are tried in order: a [JSONDecodeError] is taken by
    the second, which shows the parse error, a caption and the raw text of
    the response; an exception of another kind, such as the
    [RecursionError] of a text nested too deep, is taken by the last,
    which shows the message alone. *)
Theorem C2_parse_failure w p g n s r result t e :
  http_post w (length (sent s)) (build_request p g n) = Responded r →
  ¬ (400 ≤ status_code r < 600) →
  json_loads w (text r) = Ret result →
  envelope_text result = Ret (PyStr t) →
  json_loads w t = Raise e →
  (generate_meal_plan w p g n s).1 = Ret PyNone ∧
  sent (generate_meal_plan w p g n s).2 = sent s ++ [build_request p g n] ∧
  drawn (generate_meal_plan w p g n s).2 =
    drawn s ++
    (if String.eqb t "" then
       [(Main, Error [FLit "Error: Unexpected response format from Gemini API."]);
        (Main, Json result)]
     else if is_RequestException e then
       [(Main, Error [FLit "Error connecting to Gemini API: "; FExn e])]
     else if is_JSONDecodeError e then
       [(Main, Error [FLit "Error parsing JSON response from Gemini API: "; FExn e]);
        (Main, Write [FLit "Raw API response content (might be malformed JSON):"]);
        (Main, Code (text r))]
     else [(Main, Error [FLit "An unexpected error occurred: "; FExn e])]) ∧
  (t ≠ "" → e = JSONDecodeError t →
     parse_failure_reported r (generate_meal_plan w p g n s)).
Proof.
  intros Hpost Hst Hjs Henv Hbad.
  rewrite (generate_text_view _ _ _ _ _ _ _ _ Hpost Hst Hjs Henv), Hbad, handler_bound.
  destruct (String.eqb_spec t "") as [->|Hne].
  - by repeat split.
  - split; [done|]. split; [done|]. split; [done|].
    intros _ ->. split; [done|]. cbn [snd is_RequestException is_JSONDecodeError].
    split; [eexists|]; cbn [drawn extend set_drawn record_request];
      rewrite elem_of_app, !elem_of_cons; eauto.
Qed.

(** C2 (amended), at the envelope text [{]. *)
Lemma C2_parse_failure_witness :
  (generate_meal_plan (serving (envelope_of "{")) "Vegan" "Weight Loss" 2 (fresh [])).1
    = Ret PyNone ∧
  sent (generate_meal_plan (serving (envelope_of "{")) "Vegan" "Weight Loss" 2 (fresh [])).2
    = [] ++ [build_request "Vegan" "Weight Loss" 2] ∧
  drawn (generate_meal_plan (serving (envelope_of "{")) "Vegan" "Weight Loss" 2 (fresh [])).2
    = [] ++
      [(Main, Error [FLit "Error parsing JSON response from Gemini API: ";
                     FExn (JSONDecodeError "{")]);
       (Main, Write [FLit "Raw API response content (might be malformed JSON):"]);
       (Main, Code (envelope_of "{"))] ∧
  ("{" ≠ "" → JSONDecodeError "{" = JSONDecodeError "{" →
   parse_failure_reported {| status_code := 200; text := envelope_of "{" |}
     (generate_meal_plan (serving (envelope_of "{")) "Vegan" "Weight Loss" 2 (fresh []))).
Proof.
  apply (C2_parse_failure (serving (envelope_of "{")) "Vegan" "Weight Loss" 2
    (fresh []) {| status_code := 200; text := envelope_of "{" |}
    (envelope_value "{") "{" (JSONDecodeError "{")); try reflexivity.
  simpl. lia.
Defined.

(** C2 as stated fails for a text cut off after 12000 opening brackets:
    it does not decode, the decoder gives up with [RecursionError], and
    the page gets the message of the last [except] clause alone; neither
    the raw text of the response nor the decoded response is shown. *)
Lemma C2_deep_nesting_counterexample :
  let t := nested_arrays 12000 in
  let w := serving (envelope_of t) in
  let r := {| status_code := 200; text := envelope_of t |} in
  http_post w 0%nat (build_request "Vegan" "Weight Loss" 2) = Responded r ∧
  json_loads w (text r) = Ret (envelope_value t) ∧
  envelope_text (envelope_value t) = Ret (PyStr t) ∧
  t ≠ "" ∧
  json_loads w t = Raise RecursionError ∧
  generate_meal_plan w "Vegan" "Weight Loss" 2 (fresh []) =
    (Ret PyNone,
     {| drawn := [(Main, Error [FLit "An unexpected error occurred: "; FExn RecursionError])];
        sent := [build_request "Vegan" "Weight Loss" 2] |}) ∧
  ¬ parse_failure_reported r (generate_meal_plan w "Vegan" "Weight Loss" 2 (fresh [])).
Proof.
  cbv zeta.
  assert (Json.loads (envelope_of (nested_arrays 12000))
          = Ret (envelope_value (nested_arrays 12000))) as Hjs by (vm_compute; reflexivity).
  assert (Json.loads (nested_arrays 12000) = Raise RecursionError) as Hbad
    by (vm_compute; reflexivity).
  assert (nested_arrays 12000 ≠ "") as Hne by (vm_compute; discriminate).
  revert Hjs Hbad Hne. generalize (nested_arrays 12000). intros t Hjs Hbad Hne.
  assert (generate_meal_plan (serving (envelope_of t)) "Vegan" "Weight Loss" 2 (fresh []) =
    (Ret PyNone,
     {| drawn := [(Main, Error [FLit "An unexpected error occurred: "; FExn RecursionError])];
        sent := [build_request "Vegan" "Weight Loss" 2] |})) as Hrun.
  { rewrite (generate_text_view (serving (envelope_of t)) _ _ _ _
               {| status_code := 200; text := envelope_of t |} (envelope_value t) t).
    - destruct (String.eqb_spec t "") as [|_]; [by destruct Hne|].
      change (json_loads (serving (envelope_of t)) t) with (Json.loads t).
      rewrite Hbad. reflexivity.
    - reflexivity.
    - cbn [status_code]. lia.
    - exact Hjs.
    - reflexivity. }
  split; [reflexivity|]. split; [exact Hjs|]. split; [reflexivity|]. split; [exact Hne|].
  split; [exact Hbad|]. split; [exact Hrun|].
  intros (_ & _ & Hcode). rewrite Hrun in Hcode.
  cbn [snd drawn] in Hcode. apply list_elem_of_singleton in Hcode. discriminate.
Qed.

Lemma append_assoc (a b c : string) : (a +:+ b) +:+ c = a +:+ b +:+ c.
Proof.
  induction a as [|x a IH]; [done|].
  change (String x ((a +:+ b) +:+ c) = String x (a +:+ b +:+ c)). by rewrite IH.
Qed.

Lemma contains_here x b : contains x (x +:+ b).
Proof. by exists "", b. Qed.

Lemma contains_skip x a s : contains x s → contains x (a +:+ s).
Proof. intros (l & r & ->). exists (a +:+ l), r. by rewrite append_assoc. Qed.

Lemma prompt_contains p g n :
  contains p (prompt p g n) ∧ contains g (prompt p g n) ∧
  contains (pretty n) (prompt p g n).
Proof.
  unfold prompt. repeat split.
  - do 3 apply contains_skip. apply contains_here.
  - do 5 apply contains_skip. apply contains_here.
  - apply contains_skip, contains_here.
Qed.

(** C7: the prompt for Vegan, Weight Loss and 2 contains these three
    texts; for all inputs the prompt contains the preferences, the goal and
    the decimal numeral of the number of meals; and this prompt is the
    text of the one request [generate_meal_plan] sends. *)
Theorem C7_prompt_interpolates :
  (contains "Vegan" (prompt "Vegan" "Weight Loss" 2) ∧
   contains "Weight Loss" (prompt "Vegan" "Weight Loss" 2) ∧
   contains "2" (prompt "Vegan" "Weight Loss" 2)) ∧
  (∀ p g n,
     contains p (prompt p g n) ∧ contains g (prompt p g n) ∧
     contains (pretty n) (prompt p g n)) ∧
  (∀ w p g n s,
     sent (generate_meal_plan w p g n s).2 = sent s ++ [build_request p g n] ∧
     contents_text (build_request p g n) = prompt p g n).
Proof.
  split; [|split].
  - apply (prompt_contains "Vegan" "Weight Loss" 2).
  - apply prompt_contains.
  - intros w p g n s. split; [|done].
    by destruct (generate_returns w p g n s) as (v & evs & ->).
Qed.

Lemma response_schema_parts :
  response_schema =
  OBJECT [("weekly_meal_plan", ARRAY day_schema); ("shopping_list", ARRAY STRING)]
         ["weekly_meal_plan"; "shopping_list"].
Proof. reflexivity. Qed.

Lemma handle_ret (hs : list container) i h s :
  py_index hs i = Some h → handle (S:=app) hs i s = (Ret h, s).
Proof. unfold handle. by intros ->. Qed.

Lemma py_index_nat {A} (l : list A) (k : nat) x :
  l !! k = Some x → py_index l (Z.of_nat k) = Some x.
Proof.
  intros H. unfold py_index.
  apply lookup_lt_Some in H as Hlt.
  destruct (Z.leb_spec 0 (Z.of_nat k)); [|lia].
  destruct (Z.ltb_spec (Z.of_nat k) (Z.of_nat (length l))); [|lia].
  simpl. by rewrite Nat2Z.id.
Qed.

Lemma tab_handle n k s :
  (k < n)%nat → handle (S:=app) (Tab <$> seq 0%nat n) (Z.of_nat k) s = (Ret (Tab k), s).
Proof.
  intros H. apply handle_ret, py_index_nat.
  rewrite list_lookup_fmap, lookup_seq_lt by done. done.
Qed.

Lemma column_handle idx s :
  handle (S:=app) (Column <$> seq 0%nat 3) (idx `mod` 3) s
  = (Ret (Column (Z.to_nat (idx `mod` 3))), s).
Proof.
  pose proof (Z.mod_pos_bound idx 3 eq_refl) as Hb.
  rewrite <-(Z2Nat.id (idx `mod` 3)) at 1 by lia.
  apply handle_ret, py_index_nat.
  rewrite list_lookup_fmap, lookup_seq_lt by lia. done.
Qed.

Lemma checkboxes_loop items idx s :
  for_each (enumerate_from idx items) (λ '(idx, item),
      col ← handle (Column <$> seq 0%nat 3) (idx `mod` 3);
      draw col (Checkbox item ("item_" +:+ pretty idx))) s
  = (Ret (), extend (checkboxes idx items) s).
Proof.
  revert idx s. induction items as [|item items IH]; intros idx s.
  - by rewrite extend_nil.
  - simpl. erewrite bind_ret; [|erewrite bind_ret; [apply draw_extend|apply column_handle]].
    rewrite IH, extend_extend. done.
Qed.

Lemma render_shopping_list_view plan s :
  render_shopping_list plan s =
  match py_get_default plan "shopping_list" (PyList []) with
  | Raise e => (Raise e, s)
  | Ret shopping_list =>
      if truthy shopping_list then
        match py_iter shopping_list with
        | Raise e => (Raise e, extend [(Main, Columns 3)] s)
        | Ret items => (Ret (), extend ((Main, Columns 3) :: checkboxes 0 items) s)
        end
      else (Ret (), extend [(Main, Write [FLit "No shopping list generated."])] s)
  end.
Proof.
  unfold render_shopping_list. rewrite bind_lift.
  destruct (py_get_default _ _ _) as [sl|]; [|done].
  destruct (truthy sl); [|done].
  unfold st_columns. erewrite bind_ret; [|erewrite bind_ret; [|apply draw_extend]; done].
  rewrite bind_lift. destruct (py_iter sl) as [items|]; [|done].
  unfold enumerate. by rewrite checkboxes_loop, extend_extend.
Qed.

Lemma checkbox_labels_checkboxes idx items : checkbox_labels (checkboxes idx items) = items.
Proof.
  revert idx. induction items as [|x items IH]; intros idx; [done|].
  unfold checkbox_labels in *. simpl. by rewrite IH.
Qed.

Lemma checkbox_keys_checkboxes idx items :
  checkbox_keys (checkboxes idx items) =
  (λ j : nat, "item_" +:+ pretty (idx + Z.of_nat j)) <$> seq 0%nat (length items).
Proof.
  revert idx. induction items as [|x items IH]; intros idx; [done|].
  unfold checkbox_keys in *. simpl. rewrite IH, Z.add_0_r. f_equal.
  rewrite <-fmap_S_seq, <-list_fmap_compose. apply list_fmap_ext.
  intros _ j _. simpl. do 2 f_equal. lia.
Qed.

Lemma checkbox_keys_NoDup idx items : NoDup (checkbox_keys (checkboxes idx items)).
Proof.
  rewrite checkbox_keys_checkboxes. apply NoDup_fmap_2; [|apply NoDup_seq].
  intros i j H. apply (inj (String.app "item_")), (inj pretty) in H. lia.
Qed.

Lemma for_each_draws {A} (P : page → Prop) (l : list A) (body : A → exec app unit) :
  P [] → (∀ a b, P a → P b → P (a ++ b)) →
  (∀ x, x ∈ l → ∀ s, ∃ evs, body x s = (Ret (), extend evs s) ∧ P evs) →
  ∀ s, ∃ evs, for_each l body s = (Ret (), extend evs s) ∧ P evs.
Proof.
  intros Hnil Happ. induction l as [|x l IH]; intros Hbody s.
  - exists []. by rewrite extend_nil.
  - destruct (Hbody x (list_elem_of_here _ _) s) as (e1 & H1 & P1).
    destruct (IH (λ y Hy, Hbody y (list_elem_of_further _ _ _ Hy)) (extend e1 s))
      as (e2 & H2 & P2).
    exists (e1 ++ e2). simpl. erewrite bind_ret by exact H1.
    rewrite H2, extend_extend. auto.
Qed.

Lemma body_of_nil i : body_of i [].
Proof. by split. Qed.

Lemma body_of_app i a b : body_of i a → body_of i b → body_of i (a ++ b).
Proof.
  intros (Ha & Ca & Fa) (Hb & Cb & Fb). split; [|split; [|by apply Forall_app]].
  - unfold tab_headings in *. by rewrite omap_app, Ha, Hb.
  - unfold checkbox_labels in *. by rewrite omap_app, Ca, Cb.
Qed.

Lemma body_of_cons i e evs :
  (∀ b, e ≠ Subheader b) → (∀ l k, e ≠ Checkbox l k) →
  body_of i evs → body_of i ((Tab i, e) :: evs).
Proof.
  intros He Hc (Hh & Hl & Hf). split; [|split; [|by constructor]].
  - unfold tab_headings in *. destruct e; simpl; rewrite ?Hh; try done.
    by destruct (He body).
  - unfold checkbox_labels in *. destruct e; simpl; rewrite ?Hl; try done.
    by destruct (Hc label key).
Qed.

Ltac body_of :=
  repeat first
    [ assumption | apply body_of_nil | apply body_of_app
    | apply body_of_cons; [done|done|] ].

Lemma conforms_object props req v :
  conforms (OBJECT props req) v = true →
  ∃ d, v = PyDict d ∧
    (∀ k, k ∈ req → is_Some (dict_lookup k d)) ∧
    (∀ k sc x, (k, sc) ∈ props → dict_lookup k d = Some x → conforms sc x = true).
Proof.
  destruct v; simpl; try done.
  intros [Hreq Hprops]%andb_true_iff. exists d. split; [done|]. split.
  - intros k Hk. rewrite forallb_forall in Hreq.
    apply list_elem_of_In, Hreq in Hk. by apply bool_decide_eq_true in Hk.
  - intros k sc x Hk Hx. rewrite forallb_forall in Hprops.
    apply list_elem_of_In, Hprops in Hk. simpl in Hk. by rewrite Hx in Hk.
Qed.

Lemma conforms_field props req v k sc :
  conforms (OBJECT props req) v = true → k ∈ req → (k, sc) ∈ props →
  ∃ x, py_getitem_str v k = Ret x ∧ conforms sc x = true.
Proof.
  intros (d & -> & Hreq & Hprops)%conforms_object Hk Hsc.
  destruct (Hreq k Hk) as [x Hx]. exists x. simpl. rewrite Hx.
  split; [done|]. by eapply Hprops.
Qed.

Lemma conforms_string v : conforms STRING v = true → ∃ s, v = PyStr s.
Proof. destruct v; simpl; try done. eauto. Qed.

Lemma conforms_array sc v :
  conforms (ARRAY sc) v = true → ∃ l, v = PyList l ∧ Forall (λ x, conforms sc x = true) l.
Proof.
  destruct v; simpl; try done. intros H. exists l. split; [done|].
  rewrite forallb_forall in H. apply Forall_forall. intros x Hx.
  by apply H, list_elem_of_In.
Qed.

Lemma render_meal_conforming i meal s :
  conforms meal_schema meal = true →
  ∃ evs, render_meal (Tab i) meal s = (Ret (), extend evs s) ∧ body_of i evs.
Proof.
  intros Hc. unfold meal_schema in Hc.
  destruct (conforms_field _ _ _ "type" STRING Hc) as (ty & Hty & _); [set_solver..|].
  destruct (conforms_field _ _ _ "recipe_name" STRING Hc) as (nm & Hnm & _); [set_solver..|].
  destruct (conforms_field _ _ _ "ingredients" (ARRAY STRING) Hc) as (ing & Hing & Ci);
    [set_solver..|].
  destruct (conforms_field _ _ _ "instructions" STRING Hc) as (ins & Hins & _); [set_solver..|].
  apply conforms_array in Ci as (ings & -> & _).
  unfold render_meal.
  rewrite bind_lift, Hty, bind_lift, Hnm. draws.
  rewrite bind_lift, Hing. simpl.
  destruct (for_each_draws (body_of i) ings
    (λ ingredient, draw (Tab i) (Write [FLit "- "; FVal ingredient]))
    (body_of_nil i) (body_of_app i)) with
    (s := extend
      [(Tab i, Markdown [FLit "**"; FVal ty; FLit ":** "; FVal nm]);
       (Tab i, Markdown [FLit "**Ingredients:**"])] s) as (e1 & H1 & P1).
  { intros x _ s'. eexists. split; [apply draw_extend|]. split; [done|].
    by repeat constructor. }
  erewrite bind_ret by exact H1. rewrite extend_extend. draws.
  rewrite bind_lift, Hins. draws. rewrite draw_extend, extend_extend.
  eexists. split; [done|]. body_of.
Qed.


Lemma render_day_missing_meals tab d day s :
  dict_lookup "day" d = Some day →
  dict_lookup "meals" d = None →
  render_day tab (PyDict d) s =
    (Raise (KeyError (PyStr "meals")),
     extend [(tab, Subheader [FLit "___"; FVal day; FLit "___"])] s).
Proof.
  intros Hd Hm. unfold render_day. rewrite bind_lift. simpl. rewrite Hd. draws.
  rewrite bind_lift. simpl. by rewrite Hm.
Qed.

Lemma render_day_conforming i day_data s :
  conforms day_schema day_data = true →
  ∃ evs, render_day (Tab i) day_data s
         = (Ret (), extend ((Tab i, Subheader (day_heading day_data)) :: evs) s) ∧
         body_of i evs.
Proof.
  intros Hc. unfold day_schema in Hc.
  destruct (conforms_field _ _ _ "day" STRING Hc) as (day & Hday & _); [set_solver..|].
  destruct (conforms_field _ _ _ "meals" (ARRAY meal_schema) Hc) as (ms & Hms & Cm);
    [set_solver..|].
  apply conforms_array in Cm as (meals & -> & Cm).
  unfold render_day, day_heading, day_label.
  rewrite bind_lift, Hday. draws. rewrite bind_lift, Hms.
  destruct meals as [|m meals].
  { simpl. rewrite draw_extend, extend_extend. eexists. split; [done|]. body_of. }
  change (truthy (PyList (m :: meals))) with true. cbv iota.
  rewrite bind_lift, ?Hms. cbn [mbind outcome_bind py_iter].
  destruct (for_each_draws (body_of i) (m :: meals) (render_meal (Tab i))
    (body_of_nil i) (body_of_app i)) with
    (s := extend [(Tab i, Subheader [FLit "___"; FVal day; FLit "___"])] s)
    as (e1 & H1 & P1).
  { intros x Hx s'. apply render_meal_conforming.
    rewrite Forall_forall in Cm. by apply Cm. }
  rewrite H1, extend_extend. eauto.
Qed.

Lemma enumerate_from_succ {A} (k : nat) (x : A) l :
  enumerate_from (Z.of_nat k) (x :: l) = (Z.of_nat k, x) :: enumerate_from (Z.of_nat (S k)) l.
Proof. simpl. do 2 f_equal. lia. Qed.

Lemma tab_headings_app a b : tab_headings (a ++ b) = tab_headings a ++ tab_headings b.
Proof. apply omap_app. Qed.

Lemma tabs_drawn_in_app a b : tabs_drawn_in (a ++ b) = tabs_drawn_in a ++ tabs_drawn_in b.
Proof. apply omap_app. Qed.

Lemma checkbox_labels_app a b :
  checkbox_labels (a ++ b) = checkbox_labels a ++ checkbox_labels b.
Proof. apply omap_app. Qed.

Lemma checkbox_keys_app a b : checkbox_keys (a ++ b) = checkbox_keys a ++ checkbox_keys b.
Proof. apply omap_app. Qed.

(** Where no checkbox has a label, none has a key. *)
Lemma checkbox_keys_none evs : checkbox_labels evs = [] → checkbox_keys evs = [].
Proof.
  induction evs as [|[c e] evs IH]; [done|].
  unfold checkbox_labels, checkbox_keys in *. destruct e; simpl; auto. done.
Qed.

Lemma body_of_tabs i evs : body_of i evs → Forall (λ j, j = i) (tabs_drawn_in evs).
Proof.
  intros (_ & _ & H). induction H as [|[c e] evs Hc _ IH]; [constructor|].
  simpl in Hc. subst c. by constructor.
Qed.

(** The loop over the days, from day [k] on, with [n] tabs at hand. *)
Lemma render_days_conforming n days k s :
  Forall (λ d, conforms day_schema d = true) days →
  (k + length days ≤ n)%nat →
  ∃ evs,
    for_each (enumerate_from (Z.of_nat k) days) (λ '(i, day_data),
        tab ← handle (Tab <$> seq 0%nat n) i;
        render_day tab day_data) s
    = (Ret (), extend evs s) ∧
    tab_headings evs = zip (seq k (length days)) (day_heading <$> days) ∧
    checkbox_labels evs = [] ∧
    Forall (λ j, (j < n)%nat) (tabs_drawn_in evs).
Proof.
  intros Hc. revert k s. induction Hc as [|d days Hd _ IH]; intros k s Hk.
  - exists []. by rewrite extend_nil.
  - simpl length in Hk. rewrite enumerate_from_succ.
    destruct (render_day_conforming k d s Hd) as (e1 & H1 & P1).
    destruct (IH (S k) (extend ((Tab k, Subheader (day_heading d)) :: e1) s))
      as (e2 & H2 & T2 & C2 & F2); [lia|].
    eexists. split; [|split; [|split]].
    + cbn [for_each]. erewrite bind_ret;
        [|erewrite bind_ret; [exact H1|apply tab_handle; lia]].
      rewrite H2, extend_extend. done.
    + destruct P1 as [P1 _].
      rewrite tab_headings_app, T2.
      change (tab_headings ((Tab k, Subheader (day_heading d)) :: e1))
        with ((k, day_heading d) :: tab_headings e1).
      by rewrite P1.
    + destruct P1 as (_ & P1 & _).
      rewrite checkbox_labels_app, C2.
      change (checkbox_labels ((Tab k, Subheader (day_heading d)) :: e1))
        with (checkbox_labels e1).
      by rewrite P1.
    + rewrite tabs_drawn_in_app. apply Forall_app. split; [|done].
      simpl. constructor; [lia|].
      eapply Forall_impl; [by apply body_of_tabs|]. simpl. lia.
Qed.

Lemma day_titles days :
  Forall (λ d, conforms day_schema d = true) days →
  mapM (λ day_data, py_getitem_str day_data "day") days = Ret (day_label <$> days) ∧
  mapM as_label (day_label <$> days) = Some (label_text <$> days).
Proof.
  induction 1 as [|d days Hd _ [IH1 IH2]]; [done|].
  unfold day_schema in Hd.
  destruct (conforms_field _ _ _ "day" STRING Hd) as (day & Hday & [t ->]%conforms_string);
    [set_solver..|].
  assert (day_label d = PyStr t) as Hl by (unfold day_label; by rewrite Hday).
  split.
  - cbn [mapM]. rewrite Hday. cbn [mbind outcome_bind]. rewrite IH1. simpl. by rewrite Hl.
  - cbn [fmap list_fmap mapM]. rewrite Hl. cbn [as_label mbind option_bind].
    rewrite IH2. unfold label_text at 2. by rewrite Hl.
Qed.

Lemma render_week_conforming plan days s :
  py_getitem_str plan "weekly_meal_plan" = Ret (PyList days) →
  Forall (λ d, conforms day_schema d = true) days →
  days ≠ [] →
  ∃ evs,
    render_week plan s
      = (Ret (), extend ((Main, Tabs (label_text <$> days)) :: evs) s) ∧
    tab_headings evs = zip (seq 0%nat (length days)) (day_heading <$> days) ∧
    checkbox_labels evs = [] ∧
    Forall (λ j, (j < length days)%nat) (tabs_drawn_in evs).
Proof.
  intros Hw Hc Hne. destruct (day_titles days Hc) as [Ht1 Ht2].
  unfold render_week. rewrite bind_lift, Hw. cbn [mbind outcome_bind py_iter].
  rewrite bind_lift, Ht1.
  assert (st_tabs drawn set_drawn Main (day_label <$> days) s
          = (Ret (Tab <$> seq 0%nat (length days)),
             extend [(Main, Tabs (label_text <$> days))] s)) as Htabs.
  { unfold st_tabs. rewrite Ht2, length_fmap. destruct days as [|d days]; [done|].
    cbn [fmap list_fmap]. by erewrite bind_ret by apply draw_extend. }
  erewrite bind_ret by exact Htabs. rewrite bind_lift, ?Hw. cbn [mbind outcome_bind py_iter].
  destruct (render_days_conforming (length days) days 0
    (extend [(Main, Tabs (label_text <$> days))] s) Hc) as (evs & H & T & C & F); [lia|].
  unfold enumerate. change 0 with (Z.of_nat 0). rewrite H, extend_extend. eauto.
Qed.

Lemma checkboxes_no_tabs idx items :
  tab_headings (checkboxes idx items) = [] ∧ tabs_drawn_in (checkboxes idx items) = [].
Proof. revert idx. induction items as [|x items IH]; intros idx; [done|]. apply IH. Qed.

Lemma tab_headings_main e evs : tab_headings ((Main, e) :: evs) = tab_headings evs.
Proof. done. Qed.

Lemma tabs_drawn_in_main e evs : tabs_drawn_in ((Main, e) :: evs) = tabs_drawn_in evs.
Proof. done. Qed.

Lemma render_conforming plan days s :
  conforms response_schema plan = true →
  py_getitem_str plan "weekly_meal_plan" = Ret (PyList days) →
  days ≠ [] →
  ∃ evs items,
    render plan s = (Ret (), extend evs s) ∧
    py_getitem_str plan "shopping_list" = Ret (PyList items) ∧
    (Main, Tabs (label_text <$> days)) ∈ evs ∧
    tab_headings evs = zip (seq 0%nat (length days)) (day_heading <$> days) ∧
    Forall (λ j, (j < length days)%nat) (tabs_drawn_in evs) ∧
    checkbox_labels evs = items ∧
    checkbox_keys evs = checkbox_keys (checkboxes 0 items).
Proof.
  intros Hc Hw Hne. rewrite response_schema_parts in Hc.
  destruct (conforms_field _ _ _ "weekly_meal_plan" (ARRAY day_schema) Hc)
    as (x & Hx & Cx); [set_solver..|].
  rewrite Hw in Hx. injection Hx as <-.
  apply conforms_array in Cx as (? & [= <-] & Cdays).
  destruct (conforms_field _ _ _ "shopping_list" (ARRAY STRING) Hc)
    as (sl & Hsl & Csl); [set_solver..|].
  apply conforms_array in Csl as (items & -> & _).
  assert (py_get_default plan "shopping_list" (PyList []) = Ret (PyList items)) as Hget.
  { destruct plan; try done. simpl in *. by destruct (dict_lookup "shopping_list" d) as [?|];
      simplify_eq. }
  unfold render. draws.
  destruct (render_week_conforming plan days
    (extend [(Main, Success "Meal Plan Generated Successfully!");
             (Main, Header "Weekly Meal Plan")] s) Hw Cdays Hne)
    as (e1 & H1 & T1 & L1 & F1).
  pose proof (checkbox_keys_none _ L1) as K1.
  erewrite bind_ret by exact H1. rewrite extend_extend. draws.
  rewrite render_shopping_list_view, Hget.
  destruct (checkboxes_no_tabs 0 items) as [C1 C2].
  pose proof (checkbox_labels_checkboxes 0 items) as L2.
  set (shop := if truthy (PyList items)
               then (Main, Columns 3) :: checkboxes 0 items
               else [(Main, Write [FLit "No shopping list generated."])]).
  assert (tab_headings shop = [] ∧ tabs_drawn_in shop = [] ∧
          checkbox_labels shop = items ∧
          checkbox_keys shop = checkbox_keys (checkboxes 0 items)) as (S1 & S2 & S3 & S4).
  { unfold shop. by destruct items. }
  exists ([(Main, Success "Meal Plan Generated Successfully!");
           (Main, Header "Weekly Meal Plan")] ++
          ((Main, Tabs (label_text <$> days)) :: e1) ++ [(Main, Header "Shopping List")] ++ shop),
    items.
  split.
  { unfold shop. destruct items; cbn [truthy py_iter]; rewrite extend_extend;
      cbn [Datatypes.app]; by rewrite <-?app_assoc. }
  split; [done|]. split; [set_solver|].
  rewrite !tab_headings_app, !tabs_drawn_in_app, !checkbox_labels_app, !checkbox_keys_app.
  rewrite S1, S2, S3, S4.
  change (tab_headings ((Main, Tabs (label_text <$> days)) :: e1)) with (tab_headings e1).
  change (tabs_drawn_in ((Main, Tabs (label_text <$> days)) :: e1)) with (tabs_drawn_in e1).
  change (checkbox_labels ((Main, Tabs (label_text <$> days)) :: e1)) with (checkbox_labels e1).
  change (checkbox_keys ((Main, Tabs (label_text <$> days)) :: e1)) with (checkbox_keys e1).
  rewrite T1, L1, K1. simpl. by rewrite !app_nil_r.
Qed.

(** *** Rendering only draws *)

Lemma draws_only_ret {A} (a : A) : draws_only (mret a).
Proof. intros s. exists []. by rewrite extend_nil. Qed.

Lemma draws_only_lift {A} (o : outcome A) : draws_only (lift o).
Proof. intros s. exists []. by rewrite extend_nil. Qed.

Lemma draws_only_draw c e : draws_only (draw c e).
Proof. intros s. by exists [(c, e)]. Qed.

Lemma draws_only_bind {A B} (m : exec app A) (k : A → exec app B) :
  draws_only m → (∀ a, draws_only (k a)) → draws_only (m ≫= k).
Proof.
  intros Hm Hk s. destruct (Hm s) as (e1 & H1).
  unfold mbind, exec_bind. destruct (m s) as [[a|e] s1]; simpl in H1; subst s1.
  - destruct (Hk a (extend e1 s)) as (e2 & H2). exists (e1 ++ e2).
    by rewrite H2, extend_extend.
  - by exists e1.
Qed.

Lemma draws_only_for_each {A} (l : list A) (body : A → exec app unit) :
  (∀ x, draws_only (body x)) → draws_only (for_each l body).
Proof.
  intros Hb. induction l as [|x l IH]; [apply draws_only_ret|].
  apply draws_only_bind; auto.
Qed.

Lemma draws_only_handle hs i : draws_only (handle (S:=app) hs i).
Proof. unfold handle. destruct (py_index hs i); [apply draws_only_ret|apply draws_only_lift]. Qed.

Lemma draws_only_st_tabs c labels : draws_only (st_tabs drawn set_drawn c labels).
Proof.
  unfold st_tabs. destruct labels; [apply draws_only_lift|].
  destruct (mapM _ _); [|apply draws_only_lift].
  apply draws_only_bind; [apply draws_only_draw|intros; apply draws_only_ret].
Qed.

Lemma draws_only_st_columns c n : draws_only (st_columns drawn set_drawn c n).
Proof.
  apply draws_only_bind; [apply draws_only_draw|intros; apply draws_only_ret].
Qed.

Ltac draws_only :=
  repeat first
    [ apply draws_only_ret | apply draws_only_lift | apply draws_only_draw
    | apply draws_only_handle | apply draws_only_st_tabs | apply draws_only_st_columns
    | apply draws_only_for_each; intros
    | apply draws_only_bind; [|intros]
    | match goal with
      | |- draws_only (if ?b then _ else _) => destruct b
      | |- draws_only (let '(_, _) := ?p in _) => destruct p
      end ].

Lemma draws_only_render_meal tab meal : draws_only (render_meal tab meal).
Proof. unfold render_meal. draws_only. Qed.

Lemma draws_only_render_day tab day_data : draws_only (render_day tab day_data).
Proof. unfold render_day. draws_only. Qed.

Lemma draws_only_render plan : draws_only (render plan).
Proof.
  unfold render, render_week, render_shopping_list. draws_only.
Qed.

Lemma on_generate_empty w i s :
  dietary_preferences i = "" →
  on_generate w i s = (Ret (), extend [(Main, Warning "Please enter your dietary preferences.")] s).
Proof. intros H. unfold on_generate. by rewrite H. Qed.

Lemma on_generate_nonempty w i s :
  dietary_preferences i ≠ "" →
  on_generate w i s =
  (generate_meal_plan w (dietary_preferences i) (health_goals i) (num_meals i) ≫=
     λ meal_plan_data, if truthy meal_plan_data then render meal_plan_data else mret ())
    (extend [(Main, Info "Generating your personalized meal plan... This might take a moment!")] s).
Proof.
  intros H%truthy_str. unfold on_generate. rewrite H. simpl negb. cbv iota. by draws.
Qed.

(** A run with the button pressed and non-empty preferences shows the
    notice that generation has started and sends exactly one request,
    whatever comes back and however rendering ends. *)
Lemma script_validation_passes w i s :
  generate_button i = true → dietary_preferences i ≠ "" →
  (∃ evs, drawn (script w i s).2 =
     drawn s ++ chrome ++
     [(Main, Info "Generating your personalized meal plan... This might take a moment!")] ++ evs) ∧
  sent (script w i s).2
  = sent s ++ [build_request (dietary_preferences i) (health_goals i) (num_meals i)].
Proof.
  intros Hb Hp. rewrite script_chrome, Hb, on_generate_nonempty, extend_extend by done.
  destruct (generate_returns w (dietary_preferences i) (health_goals i) (num_meals i)
    (extend (chrome ++ [(Main, Info "Generating your personalized meal plan... This might take a moment!")]) s))
    as (v & evs & Hg).
  erewrite bind_ret by exact Hg.
  assert (draws_only (if truthy v then render v else mret ())) as Hd.
  { destruct (truthy v); [apply draws_only_render|apply draws_only_ret]. }
  destruct (Hd (extend evs (record_request
    (build_request (dietary_preferences i) (health_goals i) (num_meals i))
    (extend (chrome ++ [(Main, Info "Generating your personalized meal plan... This might take a moment!")]) s))))
    as (e2 & ->).
  split; [|done]. exists (evs ++ e2). simpl. by rewrite <-!app_assoc.
Qed.

Lemma script_empty_preferences w i s :
  dietary_preferences i = "" →
  script w i s =
    (Ret (), extend (chrome ++ if generate_button i
                               then [(Main, Warning "Please enter your dietary preferences.")]
                               else []) s).
Proof.
  intros Hp. rewrite script_chrome. destruct (generate_button i).
  - rewrite on_generate_empty, extend_extend by done. done.
  - by rewrite app_nil_r.
Qed.

(** A plan of the shape of the schema is a non-empty dictionary. *)
Lemma conforming_truthy plan :
  conforms response_schema plan = true → truthy plan = true.
Proof.
  rewrite response_schema_parts. intros Hc.
  destruct (conforms_field _ _ _ "weekly_meal_plan" (ARRAY day_schema) Hc)
    as (x & Hx & _); [set_solver..|].
  apply py_getitem_str_Ret in Hx as (d & -> & Hx). by eapply dict_lookup_truthy.
Qed.

(** A run that receives a plan of the shape of the schema with at least
    one day: what it draws. *)
Lemma script_conforming w i s plan days :
  generate_button i = true →
  dietary_preferences i ≠ "" →
  answers w (sent s)
    (build_request (dietary_preferences i) (health_goals i) (num_meals i)) plan →
  conforms response_schema plan = true →
  py_getitem_str plan "weekly_meal_plan" = Ret (PyList days) →
  days ≠ [] →
  ∃ evs items,
    (script w i s).1 = Ret () ∧
    drawn (script w i s).2 = drawn s ++ evs ∧
    py_getitem_str plan "shopping_list" = Ret (PyList items) ∧
    (Main, Tabs (label_text <$> days)) ∈ evs ∧
    tab_headings evs = zip (seq 0%nat (length days)) (day_heading <$> days) ∧
    Forall (λ j, (j < length days)%nat) (tabs_drawn_in evs) ∧
    checkbox_labels evs = items ∧
    checkbox_keys evs = checkbox_keys (checkboxes 0 items).
Proof.
  intros Hb Hp Hans Hc Hw Hne.
  rewrite script_chrome, Hb, on_generate_nonempty, extend_extend by done.
  erewrite bind_ret by (apply generate_answers; exact Hans).
  rewrite (conforming_truthy _ Hc).
  set (pre := chrome ++ [(Main, Info "Generating your personalized meal plan... This might take a moment!")]) in *.
  destruct (render_conforming plan days
    (record_request (build_request (dietary_preferences i) (health_goals i) (num_meals i))
      (extend pre s)) Hc Hw Hne)
    as (evs & items & Hr & Hsl & Htabs & Hheads & Hin & Hlabels & Hkeys).
  rewrite Hr. exists (pre ++ evs), items.
  split; [done|]. split; [simpl; by rewrite <-app_assoc|]. split; [done|].
  split; [set_solver|].
  rewrite tab_headings_app, tabs_drawn_in_app, checkbox_labels_app, checkbox_keys_app.
  by rewrite Hheads, Hlabels, Hkeys.
Qed.

(** C3: when the button is pressed with non-empty preferences and the
    endpoint answers with a plan that has the shape of [response_schema]
    and seven entries under [weekly_meal_plan], the run ends normally,
    [st.tabs] is given the seven day labels in order, exactly seven day
    headings are drawn, the k-th in tab k with the label of the k-th entry,
    and no element goes into a tab beyond the seventh. *)
Theorem C3_seven_day_sections w i s plan days :
  generate_button i = true →
  dietary_preferences i ≠ "" →
  answers w (sent s)
    (build_request (dietary_preferences i) (health_goals i) (num_meals i)) plan →
  conforms response_schema plan = true →
  py_getitem_str plan "weekly_meal_plan" = Ret (PyList days) →
  length days = 7%nat →
  ∃ evs,
    (script w i s).1 = Ret () ∧
    drawn (script w i s).2 = drawn s ++ evs ∧
    (Main, Tabs (label_text <$> days)) ∈ evs ∧
    tab_headings evs = zip [0; 1; 2; 3; 4; 5; 6]%nat (day_heading <$> days) ∧
    length (tab_headings evs) = 7%nat ∧
    Forall (λ j, (j < 7)%nat) (tabs_drawn_in evs).
Proof.
  intros Hb Hp Hans Hc Hw Hlen.
  destruct (script_conforming w i s plan days Hb Hp Hans Hc Hw)
    as (evs & items & Hret & Hd & _ & Htabs & Hheads & Hin & _).
  { intros ->. done. }
  rewrite Hlen in *. exists evs. split_and!; try done.
  rewrite Hheads, length_zip_with, length_seq, length_fmap, Hlen. done.
Qed.

(** C3, at a week whose Monday has one meal. *)
Lemma C3_seven_day_sections_witness :
  ∃ evs,
    (script (serving (envelope_of week_text)) vegan (fresh [])).1 = Ret () ∧
    drawn (script (serving (envelope_of week_text)) vegan (fresh [])).2 = [] ++ evs ∧
    (Main, Tabs (label_text <$> week_days)) ∈ evs ∧
    tab_headings evs = zip [0; 1; 2; 3; 4; 5; 6]%nat (day_heading <$> week_days) ∧
    length (tab_headings evs) = 7%nat ∧
    Forall (λ j, (j < 7)%nat) (tabs_drawn_in evs).
Proof.
  apply (C3_seven_day_sections (serving (envelope_of week_text)) vegan (fresh [])
           week_plan week_days); try reflexivity.
  - discriminate.
  - exists {| status_code := 200; text := envelope_of week_text |},
      (envelope_value week_text), week_text.
    split_and!; try reflexivity; [simpl; lia|discriminate].
Defined.

(** The endpoint [serving (envelope_of t)] answers with what [t] decodes to. *)
Lemma serving_answers t plan :
  t ≠ "" →
  Json.loads (envelope_of t) = Ret (envelope_value t) →
  Json.loads t = Ret plan →
  ∀ history rq, answers (serving (envelope_of t)) history rq plan.
Proof.
  intros Ht Henv Hplan history rq.
  exists {| status_code := 200; text := envelope_of t |}, (envelope_value t), t.
  split_and!; try done. simpl. lia.
Qed.

(** C5 (amended): the shopping list is drawn as received.  When
    [shopping_list] is a list, its entries become the labels of the
    checkboxes, one checkbox per entry and in the order of the list,
    repeated entries included; the widget keys are pairwise distinct; so
    the list on the page is free of duplicates exactly when the list in
    the response is.  In a run that receives a plan of the shape of the
    schema these are the only checkboxes on the page. *)
Theorem C5_shopping_list_as_received :
  (∀ plan items s,
     py_get_default plan "shopping_list" (PyList []) = Ret (PyList items) →
     ∃ evs,
       render_shopping_list plan s = (Ret (), extend evs s) ∧
       checkbox_labels evs = items ∧
       NoDup (checkbox_keys evs) ∧
       (NoDup (checkbox_labels evs) ↔ NoDup items)) ∧
  (∀ w i s plan days,
     generate_button i = true →
     dietary_preferences i ≠ "" →
     answers w (sent s)
       (build_request (dietary_preferences i) (health_goals i) (num_meals i)) plan →
     conforms response_schema plan = true →
     py_getitem_str plan "weekly_meal_plan" = Ret (PyList days) →
     days ≠ [] →
     ∃ evs items,
       (script w i s).1 = Ret () ∧
       drawn (script w i s).2 = drawn s ++ evs ∧
       py_getitem_str plan "shopping_list" = Ret (PyList items) ∧
       checkbox_labels evs = items ∧
       NoDup (checkbox_keys evs) ∧
       (NoDup (checkbox_labels evs) ↔ NoDup items)).
Proof.
  split.
  - intros plan items s Hget. rewrite render_shopping_list_view, Hget.
    destruct items as [|item items].
    + eexists. split; [done|]. split; [done|]. split; [constructor|done].
    + eexists. split; [done|].
      change (checkbox_labels ((Main, Columns 3) :: checkboxes 0 (item :: items)))
        with (checkbox_labels (checkboxes 0 (item :: items))).
      change (checkbox_keys ((Main, Columns 3) :: checkboxes 0 (item :: items)))
        with (checkbox_keys (checkboxes 0 (item :: items))).
      rewrite checkbox_labels_checkboxes. split; [done|].
      split; [apply checkbox_keys_NoDup|done].
  - intros w i s plan days Hb Hp Hans Hc Hw Hne.
    destruct (script_conforming w i s plan days Hb Hp Hans Hc Hw Hne)
      as (evs & items & Hret & Hd & Hsl & _ & _ & _ & Hlabels & Hkeys).
    exists evs, items. split_and!; try done.
    + rewrite Hkeys. apply checkbox_keys_NoDup.
    + by rewrite Hlabels.
Qed.

(** C5 (amended), at a list that names eggs twice, alone and in a run. *)
Lemma C5_shopping_list_as_received_witness :
  (∃ evs,
     render_shopping_list twice_eggs_plan (fresh []) = (Ret (), extend evs (fresh [])) ∧
     checkbox_labels evs = [PyStr "eggs"; PyStr "eggs"] ∧
     NoDup (checkbox_keys evs) ∧
     (NoDup (checkbox_labels evs) ↔ NoDup [PyStr "eggs"; PyStr "eggs"])) ∧
  (∃ evs items,
     (script (serving (envelope_of twice_eggs_text)) vegan (fresh [])).1 = Ret () ∧
     drawn (script (serving (envelope_of twice_eggs_text)) vegan (fresh [])).2 = [] ++ evs ∧
     py_getitem_str twice_eggs_plan "shopping_list" = Ret (PyList items) ∧
     checkbox_labels evs = items ∧
     NoDup (checkbox_keys evs) ∧
     (NoDup (checkbox_labels evs) ↔ NoDup items)).
Proof.
  split.
  - apply (proj1 C5_shopping_list_as_received twice_eggs_plan
             [PyStr "eggs"; PyStr "eggs"] (fresh [])).
    reflexivity.
  - apply (proj2 C5_shopping_list_as_received (serving (envelope_of twice_eggs_text))
             vegan (fresh []) twice_eggs_plan
             [PyDict [("day", PyStr "Monday"); ("meals", PyList [])]]).
    + reflexivity.
    + discriminate.
    + exists {| status_code := 200; text := envelope_of twice_eggs_text |},
        (envelope_value twice_eggs_text), twice_eggs_text.
      split_and!; try reflexivity; [simpl; lia|discriminate].
    + reflexivity.
    + reflexivity.
    + discriminate.
Defined.

(** C5 as stated fails: a response of the shape of the schema that lists
    eggs twice puts two checkboxes labelled eggs on the page. *)
Lemma C5_duplicates_counterexample :
  conforms response_schema twice_eggs_plan = true ∧
  answers (serving (envelope_of twice_eggs_text)) []
    (build_request "Vegan" "Weight Loss" 2) twice_eggs_plan ∧
  (script (serving (envelope_of twice_eggs_text)) vegan (fresh [])).1 = Ret () ∧
  ¬ shopping_list_deduplicated (script (serving (envelope_of twice_eggs_text)) vegan (fresh [])).
Proof.
  split; [reflexivity|]. split; [by apply serving_answers|]. split; [by vm_compute|].
  unfold shopping_list_deduplicated.
  assert (checkbox_labels (drawn (script (serving (envelope_of twice_eggs_text)) vegan (fresh [])).2)
          = [PyStr "eggs"; PyStr "eggs"]) as -> by (by vm_compute).
  rewrite NoDup_cons. intros [Hnot _]. apply Hnot. by left.
Qed.

(** *** Weeks with days without meals *)









(** In the run for the week of the examples the six days without meals
    show the placeholder, each in its own tab. *)
Example week_without_meals :
  Forall (λ k, nothing_planned_shown k
                 (script (serving (envelope_of week_text)) vegan (fresh [])))
    [1; 2; 3; 4; 5; 6]%nat.
Proof.
  repeat constructor; apply list_elem_of_In; vm_compute; tauto.
Qed.

End MealFacts.

(** ** Facts about the responder *)

Module ReplyFacts.
Import Py Exec St Reply.

(** *** Latin-1 texts among the texts *)

Lemma latin1_cons a b : latin1 (String a b) = N_of_ascii a :: latin1 b.
Proof. done. Qed.

Lemma encode_latin1_latin1 (b : string) : encode_latin1 (latin1 b) = Some b.
Proof.
  unfold encode_latin1.
  assert (mapM (λ n, if (n <? 256)%N then Some (ascii_of_N n) else None) (latin1 b)
          = Some (String.list_ascii_of_string b)) as ->.
  { induction b as [|a b IH]; [done|].
    rewrite latin1_cons. cbn [mapM String.list_ascii_of_string].
    pose proof (N_ascii_bounded a) as Ha. apply N.ltb_lt in Ha. rewrite Ha, IH.
    simpl. by rewrite ascii_N_embedding. }
  simpl. by rewrite String.string_of_list_ascii_of_string.
Qed.

Lemma encode_latin1_Some c b : encode_latin1 c = Some b → c = latin1 b.
Proof.
  unfold encode_latin1. intros (l & Hl & ->)%fmap_Some.
  unfold latin1. rewrite String.list_ascii_of_string_of_list_ascii.
  revert l Hl. induction c as [|n c IH]; intros l.
  - by intros [= <-].
  - cbn [mapM]. destruct (N.ltb_spec n 256) as [Hn|]; [|done]. simpl.
    destruct (mapM _ c) as [l'|] eqn:E; [|done]. simpl. intros [= <-].
    cbn [fmap list_fmap]. rewrite (N_ascii_embedding _ Hn). f_equal. by apply IH.
Qed.

Lemma latin1_empty b : latin1 b = [] ↔ b = "".
Proof. by destruct b. Qed.

Lemma text_truthy_latin1 b : text_truthy (latin1 b) = negb (String.eqb b "").
Proof. by destruct b. Qed.

Lemma text_isspace_latin1 a : text_isspace (N_of_ascii a) = isspace a.
Proof.
  unfold isspace, text_isspace. pose proof (N_ascii_bounded a) as Ha.
  set (n := N_of_ascii a) in *.
  repeat match goal with
  | |- context [(n =? ?k)%N] =>
      lazymatch k with
      | 133%N => fail | 160%N => fail
      | _ => destruct (N.eqb_spec n k); [lia|]
      end
  end.
  destruct (N.leb_spec 8192 n); [lia|].
  by rewrite !orb_false_r.
Qed.

Lemma text_lstrip_latin1 s : text_lstrip (latin1 s) = latin1 (lstrip s).
Proof.
  induction s as [|a s IH]; [done|].
  rewrite latin1_cons. cbn [text_lstrip lstrip]. rewrite text_isspace_latin1.
  by destruct (isspace a).
Qed.

Lemma text_rstrip_latin1 s : text_rstrip (latin1 s) = latin1 (rstrip s).
Proof.
  induction s as [|a s IH]; [done|].
  rewrite latin1_cons. cbn [text_rstrip rstrip]. rewrite IH, text_isspace_latin1.
  destruct (rstrip s); [by destruct (isspace a)|done].
Qed.

Lemma text_strip_latin1 s : text_strip (latin1 s) = latin1 (strip s).
Proof. unfold text_strip, strip. by rewrite text_lstrip_latin1, text_rstrip_latin1. Qed.

(** *** Computations that do not reach the model *)

Lemma offline_ret {A} (a : A) : offline (mret a).
Proof. intros s. exists []. by rewrite app_nil_r. Qed.

Lemma offline_draw c e : offline (draw c e).
Proof. intros s. by exists [(c, e)]. Qed.

Lemma offline_bind {A B} (m : exec app A) (k : A → exec app B) :
  offline m → (∀ a, offline (k a)) → offline (m ≫= k).
Proof.
  intros Hm Hk s. destruct (Hm s) as (e1 & D1 & S1 & C1).
  unfold mbind, exec_bind. destruct (m s) as [[a|e] s1]; simpl in *.
  - destruct (Hk a s1) as (e2 & D2 & S2 & C2). exists (e1 ++ e2).
    rewrite D2, S2, C2, D1, S1, C1. by rewrite app_assoc.
  - by exists e1.
Qed.

Lemma offline_get_email_content : offline get_email_content.
Proof.
  intros s. exists []. unfold get_email_content.
  destruct (session_state s !! "email_content"); by rewrite app_nil_r.
Qed.

Lemma offline_set_email_content c : offline (set_email_content c).
Proof. intros s. exists []. simpl. by rewrite app_nil_r. Qed.

Lemma offline_create_pdf c : offline (create_pdf c).
Proof.
  intros s. exists []. unfold create_pdf. destruct (encode_latin1 c); simpl;
    by rewrite app_nil_r.
Qed.

Lemma offline_open_rb p : offline (open_rb p).
Proof.
  intros s. exists []. unfold open_rb. destruct (files s !! p); by rewrite app_nil_r.
Qed.

Lemma offline_init_email_content :
  offline (λ s, match session_state s !! "email_content" with
                | None => set_email_content "" s
                | Some _ => (Ret (), s)
                end).
Proof.
  intros s. exists []. destruct (session_state s !! "email_content"); by rewrite app_nil_r.
Qed.

Ltac offline :=
  repeat first
    [ apply offline_ret | apply offline_draw | apply offline_get_email_content
    | apply offline_set_email_content | apply offline_create_pdf | apply offline_open_rb
    | apply offline_init_email_content
    | apply offline_bind; [|intros]
    | match goal with |- offline (if ?b then _ else _) => destruct b end ].

Lemma offline_show_email i : offline (show_email i).
Proof. unfold show_email. offline. Qed.

Lemma offline_on_submit_blank w i :
  strip (applicant_text i) = "" → offline (on_submit w i).
Proof. intros H. unfold on_submit. rewrite H. simpl. offline. Qed.

Lemma reply_bind_ret {A B} (m : exec app A) (k : A → exec app B) s a s' :
  m s = (Ret a, s') → (m ≫= k) s = k a s'.
Proof. unfold mbind, exec_bind. by intros ->. Qed.

Lemma reply_bind_raise {A B} (m : exec app A) (k : A → exec app B) s e s' :
  m s = (Raise e, s') → (m ≫= k) s = (Raise e, s').
Proof. unfold mbind, exec_bind. by intros ->. Qed.

Lemma reply_draw c e s : draw c e s = (Ret (), extend [(c, e)] s).
Proof. done. Qed.

Lemma reply_extend_extend a b s : extend b (extend a s) = extend (a ++ b) s.
Proof. unfold extend, set_drawn; simpl. by rewrite app_assoc. Qed.

Ltac reply_draws :=
  repeat (erewrite reply_bind_ret by apply reply_draw;
          rewrite ?reply_extend_extend; cbn [Datatypes.app]).

Lemma get_email_content_ret s c :
  session_state s !! "email_content" = Some c → get_email_content s = (Ret c, s).
Proof. unfold get_email_content. by intros ->. Qed.

(** What [show_email] leaves behind when the stored draft is within
    Latin-1. *)
Lemma show_email_view i s (c : string) :
  session_state s !! "email_content" = Some (latin1 c) →
  show_email i s =
  (Ret (),
   {| drawn := drawn s ++
        [(Main, Write [FLit "---"]);
         (Main, Subheader [FLit "Generated Email"]);
         (Main, TextArea "Email Response" c);
         (Main, DownloadButton "Download Email as PDF" "HR_Email_Response.pdf" (split_lines c));
         (Main, Button "Regenerate Email with New Format/Tone")];
      sent := sent s;
      cache := cache s;
      session_state :=
        if pressed RegenerateEmail i
        then <["email_content" := latin1 "Thank you for your application."]> (session_state s)
        else session_state s;
      files := <[pdf_path := split_lines c]> (files s) |}).
Proof.
  intros Hc. unfold show_email. reply_draws.
  erewrite reply_bind_ret by (by apply get_email_content_ret).
  reply_draws.
  erewrite reply_bind_ret by (by apply get_email_content_ret).
  erewrite reply_bind_ret by (unfold create_pdf; by rewrite encode_latin1_latin1).
  erewrite reply_bind_ret.
  2:{ unfold open_rb. simpl. by rewrite lookup_insert_eq. }
  unfold mbind, exec_bind, draw, St.draw. simpl.
  destruct (pressed RegenerateEmail i); simpl; unfold set_session_state, set_files, set_drawn;
    simpl; by rewrite <-!app_assoc.
Qed.

(** What [show_email] leaves behind when the stored draft is not: the
    run ends in [create_pdf], after the text area. *)
Lemma show_email_wide i s c :
  session_state s !! "email_content" = Some c →
  encode_latin1 c = None →
  show_email i s =
  (Raise UnicodeEncodeError,
   extend [(Main, Write [FLit "---"]);
           (Main, Subheader [FLit "Generated Email"]);
           (Main, TextArea "Email Response" c)] s).
Proof.
  intros Hc Hwide. unfold show_email. reply_draws.
  erewrite reply_bind_ret by (by apply get_email_content_ret).
  reply_draws.
  erewrite reply_bind_ret by (by apply get_email_content_ret).
  erewrite reply_bind_raise; [done|]. unfold create_pdf. by rewrite Hwide.
Qed.

Lemma reply_script_view w i s :
  script w i s =
  ((if pressed GenerateEmail i then on_submit w i else mret ());;
   content ← get_email_content;
   if text_truthy content then show_email i else mret ())
    (initialised (extend form_widgets s)).
Proof.
  unfold script. reply_draws.
  erewrite reply_bind_ret; [done|].
  unfold initialised. by destruct (session_state _ !! "email_content").
Qed.

Lemma initialised_has s : is_Some (session_state (initialised s) !! "email_content").
Proof.
  unfold initialised. destruct (session_state s !! "email_content") eqn:E.
  - by rewrite E.
  - simpl. by rewrite lookup_insert_eq.
Qed.

Lemma initialised_quiet s :
  drawn (initialised s) = drawn s ∧ sent (initialised s) = sent s ∧
  cache (initialised s) = cache s.
Proof. unfold initialised. by destruct (session_state s !! "email_content"). Qed.

Lemma initialised_latin1 s :
  latin1_draft s → latin1_draft (initialised s).
Proof.
  unfold latin1_draft, initialised. intros H c.
  destruct (session_state s !! "email_content") as [c0|] eqn:E.
  - rewrite E. intros [= <-]. by apply H.
  - simpl. rewrite lookup_insert_eq. intros [= <-]. by exists "".
Qed.

(** The part of the script after the submit block: it only draws, and
    with a draft within Latin-1 it ends normally. *)
Lemma display_view i s c :
  session_state s !! "email_content" = Some c →
  ∃ o evs s',
    (content ← get_email_content;
     if text_truthy content then show_email i else mret ()) s = (o, s') ∧
    drawn s' = drawn s ++ evs ∧ sent s' = sent s ∧ cache s' = cache s ∧
    (is_Some (encode_latin1 c) →
     o = Ret () ∧
     session_state s' !! "email_content" =
       Some (if text_truthy c && pressed RegenerateEmail i
             then latin1 "Thank you for your application." else c)).
Proof.
  intros Hc. erewrite reply_bind_ret by (by apply get_email_content_ret).
  destruct (text_truthy c) eqn:Ht.
  - destruct (encode_latin1 c) as [b|] eqn:Hb.
    + apply encode_latin1_Some in Hb as ->.
      rewrite (show_email_view i s b Hc). eexists _, _, _. split; [done|]. simpl.
      split; [done|]. split; [done|]. split; [done|]. intros _. split; [done|].
      destruct (pressed RegenerateEmail i); [by rewrite lookup_insert_eq|done].
    + rewrite (show_email_wide i s c Hc Hb). eexists _, _, _. split; [done|].
      split; [done|]. split; [done|]. split; [done|]. by intros [??].
  - exists (Ret ()), [], s. rewrite app_nil_r. by repeat split.
Qed.

Lemma reply_blank_run w i s :
  strip (applicant_text i) = "" →
  (latin1_draft s → (script w i s).1 = Ret ()) ∧
  sent (script w i s).2 = sent s ∧
  cache (script w i s).2 = cache s ∧
  (clicked i = Some GenerateEmail →
   (Main, Error [FLit "Please paste the applicant's message."]) ∈ drawn (script w i s).2).
Proof.
  intros Hblank. rewrite reply_script_view.
  destruct (initialised_quiet (extend form_widgets s)) as (D0 & S0 & C0).
  destruct (initialised_has (extend form_widgets s)) as [c Hc].
  pose proof (initialised_latin1 (extend form_widgets s)) as L0.
  set (s0 := initialised (extend form_widgets s)) in *.
  destruct (pressed GenerateEmail i) eqn:Hp.
  - unfold on_submit. rewrite Hblank. simpl String.eqb. cbv iota.
    erewrite reply_bind_ret by apply reply_draw.
    destruct (display_view i (extend [(Main, Error [FLit "Please paste the applicant's message."])] s0) c)
      as (o & evs & s' & -> & D & S & C & E); [done|].
    simpl. rewrite D, S, C. split; [|split; [done|split; [done|]]].
    + intros L. apply E. by eapply L0.
    + intros _. simpl. rewrite !elem_of_app, elem_of_cons. tauto.
  - erewrite reply_bind_ret by reflexivity.
    destruct (display_view i s0 c Hc) as (o & evs & s' & -> & D & S & C & E).
    simpl. rewrite S, C. split; [|split; [done|split; [done|]]].
    + intros L. apply E. by eapply L0.
    + intros Hclick. unfold pressed in Hp. by rewrite Hclick in Hp.
Qed.

(** C4: in the rerun a click on the regenerate button triggers, with a
    non-empty draft in session state, the run ends normally, the draft
    stored under [email_content] becomes the fixed text
    "Thank you for your application.", no prompt is sent to the model and
    the store of cached results is unchanged.  The draft is within
    Latin-1: the button is drawn after [create_pdf] has returned, so it can
    be clicked for no other. *)
Theorem C4_regenerate_resets_draft w i s (c : string) :
  clicked i = Some RegenerateEmail →
  session_state s !! "email_content" = Some (latin1 c) →
  c ≠ "" →
  (script w i s).1 = Ret () ∧
  session_state (script w i s).2 !! "email_content"
    = Some (latin1 "Thank you for your application.") ∧
  sent (script w i s).2 = sent s ∧
  cache (script w i s).2 = cache s.
Proof.
  intros Hclick Hc Hne. rewrite reply_script_view.
  assert (initialised (extend form_widgets s) = extend form_widgets s) as ->.
  { unfold initialised. simpl. by rewrite Hc. }
  assert (pressed GenerateEmail i = false) as -> by (unfold pressed; by rewrite Hclick).
  assert (pressed RegenerateEmail i = true) as Hp by (unfold pressed; by rewrite Hclick).
  erewrite reply_bind_ret by reflexivity.
  destruct (display_view i (extend form_widgets s) (latin1 c) Hc)
    as (o & evs & s' & -> & D & S & C & E).
  destruct E as [-> E]; [by rewrite encode_latin1_latin1|].
  assert (text_truthy (latin1 c) = true) as Ht.
  { rewrite text_truthy_latin1. by destruct (String.eqb_spec c ""). }
  rewrite Ht, Hp in E. cbn [fst snd]. by rewrite E, S, C.
Qed.

(** C4, with the draft "Dear John". *)
Lemma C4_regenerate_resets_draft_witness :
  (script (replying "unused") (form "Hello" (Some RegenerateEmail)) (with_draft "Dear John")).1
    = Ret () ∧
  session_state
    (script (replying "unused") (form "Hello" (Some RegenerateEmail)) (with_draft "Dear John")).2
    !! "email_content" = Some (latin1 "Thank you for your application.") ∧
  sent (script (replying "unused") (form "Hello" (Some RegenerateEmail)) (with_draft "Dear John")).2
    = sent (with_draft "Dear John") ∧
  cache (script (replying "unused") (form "Hello" (Some RegenerateEmail)) (with_draft "Dear John")).2
    = cache (with_draft "Dear John").
Proof.
  apply (C4_regenerate_resets_draft (replying "unused") (form "Hello" (Some RegenerateEmail))
           (with_draft "Dear John") "Dear John").
  - reflexivity.
  - reflexivity.
  - discriminate.
Defined.

Lemma generate_email_hit w a s r :
  cache s !! a = Some r → generate_email w a s = (Ret r, s).
Proof. unfold generate_email, cache_data. by intros ->. Qed.

Lemma generate_email_body_cache w a s : cache (generate_email_body w a s).2 = cache s.
Proof.
  destruct a as [[[[[x1 x2] x3] x4] x5] x6]. unfold generate_email_body.
  unfold mbind, exec_bind, model_generate_content.
  by destruct (generate_content w _ _).
Qed.

Lemma generate_email_stores w a s r s1 :
  generate_email w a s = (Ret r, s1) → cache s1 !! a = Some r.
Proof.
  unfold generate_email, cache_data.
  destruct (cache s !! a) as [r0|] eqn:E.
  - by intros [= <- <-].
  - destruct (generate_email_body w a s) as [[r0|e] s']; [|done].
    intros [= <- <-]. simpl. by rewrite lookup_insert_eq.
Qed.

Lemma generate_email_keeps w a r b : keeps_entry a r (generate_email w b).
Proof.
  intros s Ha. unfold generate_email, cache_data.
  destruct (cache s !! b) as [r0|] eqn:E; [done|].
  pose proof (generate_email_body_cache w b s) as Hc.
  destruct (generate_email_body w b s) as [[r0|e] s']; simpl in *.
  - rewrite Hc. rewrite lookup_insert_ne; [done|]. intros ->. congruence.
  - by rewrite Hc.
Qed.

Lemma offline_keeps {A} (m : exec app A) a r : offline m → keeps_entry a r m.
Proof. intros Hm s Ha. destruct (Hm s) as (evs & _ & _ & ->). done. Qed.

Lemma keeps_bind {A B} (m : exec app A) (k : A → exec app B) a r :
  keeps_entry a r m → (∀ x, keeps_entry a r (k x)) → keeps_entry a r (m ≫= k).
Proof.
  intros Hm Hk s Ha. specialize (Hm s Ha).
  unfold mbind, exec_bind. destruct (m s) as [[x|e] s1]; simpl in *; [|done].
  by apply Hk.
Qed.

Lemma script_keeps w i a r : keeps_entry a r (script w i).
Proof.
  unfold script.
  repeat (apply keeps_bind; [apply offline_keeps; solve [offline]|intros]).
  apply keeps_bind; [|intros; apply keeps_bind; [apply offline_keeps; solve [offline]|intros]].
  - destruct (pressed GenerateEmail i); [|apply offline_keeps; solve [offline]].
    unfold on_submit. destruct (String.eqb _ _); [apply offline_keeps; solve [offline]|].
    apply keeps_bind; [apply generate_email_keeps|intros; apply offline_keeps; solve [offline]].
  - destruct (text_truthy _); apply offline_keeps; [apply offline_show_email|solve [offline]].
Qed.

Lemma reruns_keep w runs a r s :
  cache s !! a = Some r → cache (reruns w runs s) !! a = Some r.
Proof.
  revert s. induction runs as [|i runs IH]; intros s Ha; [done|].
  apply IH. by apply script_keeps.
Qed.

(** C9: once [generate_email] has returned [r] for the arguments [a],
    then after any series of reruns of the script, with any inputs and
    clicks, [generate_email] called with [a] returns [r] again and leaves
    the state as it is; in particular no further prompt is sent. *)
Theorem C9_result_cached w a s r s1 runs :
  generate_email w a s = (Ret r, s1) →
  generate_email w a (reruns w runs s1) = (Ret r, reruns w runs s1) ∧
  sent (generate_email w a (reruns w runs s1)).2 = sent (reruns w runs s1).
Proof.
  intros H%generate_email_stores.
  rewrite (generate_email_hit w a (reruns w runs s1) r); [done|].
  by apply reruns_keep.
Qed.

(** C9, with a model that numbers its answers and one other submission
    in between: the second call still returns the first answer. *)
Lemma C9_result_cached_witness :
  generate_email numbering (args_of (form "Hello" (Some GenerateEmail)))
    (reruns numbering [form "Another message" (Some GenerateEmail)]
       (generate_email numbering (args_of (form "Hello" (Some GenerateEmail))) initial).2)
  = (Ret (latin1 "Draft 0"),
     reruns numbering [form "Another message" (Some GenerateEmail)]
       (generate_email numbering (args_of (form "Hello" (Some GenerateEmail))) initial).2) ∧
  sent (generate_email numbering (args_of (form "Hello" (Some GenerateEmail)))
    (reruns numbering [form "Another message" (Some GenerateEmail)]
       (generate_email numbering (args_of (form "Hello" (Some GenerateEmail))) initial).2)).2
  = sent (reruns numbering [form "Another message" (Some GenerateEmail)]
       (generate_email numbering (args_of (form "Hello" (Some GenerateEmail))) initial).2).
Proof.
  apply (C9_result_cached numbering (args_of (form "Hello" (Some GenerateEmail))) initial
           (latin1 "Draft 0") _ [form "Another message" (Some GenerateEmail)]).
  reflexivity.
Defined.

End ReplyFacts.

(** ** Input validation in the two scripts *)

Module Validation.
Import Py Exec St.

(** C1: a run of the planner with empty preferences ends normally and
    sends no request, and shows the warning when the button was pressed;
    a run of the responder whose applicant message is empty after
    [strip()] sends no prompt and stores no result, shows the error when
    the form was submitted, and ends normally when the draft it finds in
    session state, if any, is within Latin-1 (the draft is drawn again,
    and with it the PDF is made again). *)
Theorem C1_empty_field_no_api_call :
  (∀ w i s,
     Meal.dietary_preferences i = "" →
     (Meal.script w i s).1 = Ret () ∧
     Meal.sent (Meal.script w i s).2 = Meal.sent s ∧
     (Meal.generate_button i = true →
      (Main, Warning "Please enter your dietary preferences.")
        ∈ Meal.drawn (Meal.script w i s).2)) ∧
  (∀ w i s,
     strip (Reply.applicant_text i) = "" →
     (Reply.latin1_draft s → (Reply.script w i s).1 = Ret ()) ∧
     Reply.sent (Reply.script w i s).2 = Reply.sent s ∧
     Reply.cache (Reply.script w i s).2 = Reply.cache s ∧
     (Reply.clicked i = Some Reply.GenerateEmail →
      (Main, Error [FLit "Please paste the applicant's message."])
        ∈ Reply.drawn (Reply.script w i s).2)).
Proof.
  split.
  - intros w i s Hp. rewrite (MealFacts.script_empty_preferences w i s Hp).
    split; [done|]. split; [done|]. intros ->. simpl. set_solver.
  - intros w i s Hblank. by apply ReplyFacts.reply_blank_run.
Qed.

(** C1, at the empty preferences with the button pressed, and at a
    submitted message of three blanks. *)
Lemma C1_empty_field_no_api_call_witness :
  ((Meal.script (Meal.serving "")
      {| Meal.dietary_preferences := ""; Meal.health_goals := "Weight Loss";
         Meal.num_meals := 3; Meal.generate_button := true |} (Meal.fresh [])).1 = Ret () ∧
   Meal.sent (Meal.script (Meal.serving "")
      {| Meal.dietary_preferences := ""; Meal.health_goals := "Weight Loss";
         Meal.num_meals := 3; Meal.generate_button := true |} (Meal.fresh [])).2 = [] ∧
   (true = true →
    (Main, Warning "Please enter your dietary preferences.")
      ∈ Meal.drawn (Meal.script (Meal.serving "")
          {| Meal.dietary_preferences := ""; Meal.health_goals := "Weight Loss";
             Meal.num_meals := 3; Meal.generate_button := true |} (Meal.fresh [])).2)) ∧
  ((Reply.script Reply.numbering (Reply.form "   " (Some Reply.GenerateEmail)) Reply.initial).1
     = Ret () ∧
   Reply.sent
     (Reply.script Reply.numbering (Reply.form "   " (Some Reply.GenerateEmail)) Reply.initial).2
     = [] ∧
   Reply.cache
     (Reply.script Reply.numbering (Reply.form "   " (Some Reply.GenerateEmail)) Reply.initial).2
     = ∅ ∧
   (Some Reply.GenerateEmail = Some Reply.GenerateEmail →
    (Main, Error [FLit "Please paste the applicant's message."])
      ∈ Reply.drawn
          (Reply.script Reply.numbering (Reply.form "   " (Some Reply.GenerateEmail))
             Reply.initial).2)).
Proof.
  split.
  - apply (proj1 C1_empty_field_no_api_call (Meal.serving "")
      {| Meal.dietary_preferences := ""; Meal.health_goals := "Weight Loss";
         Meal.num_meals := 3; Meal.generate_button := true |} (Meal.fresh [])).
    reflexivity.
  - destruct (proj2 C1_empty_field_no_api_call Reply.numbering
      (Reply.form "   " (Some Reply.GenerateEmail)) Reply.initial) as (Hret & Hrest).
    + reflexivity.
    + split; [|exact Hrest]. apply Hret. intros c Hc. discriminate Hc.
Defined.

(** C10: the planner turns away the empty string only.  With the button
    pressed, no request is sent exactly when the preferences are the empty
    string.  For preferences made of whitespace alone the notice that
    generation has started is shown and the request is sent, with the
    whitespace in its prompt; the same text submitted to the responder as
    the applicant's message is turned away with the error and no prompt is
    sent. *)
Theorem C10_whitespace_only_preferences :
  (∀ w i s,
     Meal.generate_button i = true →
     (Meal.sent (Meal.script w i s).2 = Meal.sent s ↔ Meal.dietary_preferences i = "")) ∧
  (∀ ws, ws ≠ "" → strip ws = "" →
     (∀ w i s,
        Meal.dietary_preferences i = ws →
        Meal.generate_button i = true →
        (Main, Info "Generating your personalized meal plan... This might take a moment!")
          ∈ Meal.drawn (Meal.script w i s).2 ∧
        Meal.sent (Meal.script w i s).2 =
          Meal.sent s ++ [Meal.build_request ws (Meal.health_goals i) (Meal.num_meals i)]) ∧
     (∀ w i s,
        Reply.applicant_text i = ws →
        Reply.clicked i = Some Reply.GenerateEmail →
        (Main, Error [FLit "Please paste the applicant's message."])
          ∈ Reply.drawn (Reply.script w i s).2 ∧
        Reply.sent (Reply.script w i s).2 = Reply.sent s)).
Proof.
  split.
  - intros w i s Hb. split.
    + intros Hsent. destruct (decide (Meal.dietary_preferences i = "")) as [|Hne]; [done|].
      destruct (MealFacts.script_validation_passes w i s Hb Hne) as [_ Hs].
      rewrite Hs in Hsent. apply (f_equal length) in Hsent.
      rewrite length_app in Hsent. simpl in Hsent. lia.
    + intros Hp. by rewrite (MealFacts.script_empty_preferences w i s Hp).
  - intros ws Hne Hblank. split.
    + intros w i s Hp Hb. subst ws.
      destruct (MealFacts.script_validation_passes w i s Hb Hne) as [(evs & Hd) Hs].
      split; [|done]. rewrite Hd. set_solver.
    + intros w i s Ht Hc. subst ws.
      destruct (ReplyFacts.reply_blank_run w i s Hblank) as (_ & Hs & _ & He). auto.
Qed.

(** C10, at preferences and a message of three blanks. *)
Lemma C10_whitespace_only_preferences_witness :
  ((Main, Info "Generating your personalized meal plan... This might take a moment!")
     ∈ Meal.drawn (Meal.script (Meal.serving (Meal.envelope_of Meal.week_text))
         {| Meal.dietary_preferences := "   "; Meal.health_goals := "Weight Loss";
            Meal.num_meals := 3; Meal.generate_button := true |} (Meal.fresh [])).2 ∧
   Meal.sent (Meal.script (Meal.serving (Meal.envelope_of Meal.week_text))
       {| Meal.dietary_preferences := "   "; Meal.health_goals := "Weight Loss";
          Meal.num_meals := 3; Meal.generate_button := true |} (Meal.fresh [])).2 =
     [] ++ [Meal.build_request "   " "Weight Loss" 3]) ∧
  ((Main, Error [FLit "Please paste the applicant's message."])
     ∈ Reply.drawn
         (Reply.script Reply.numbering (Reply.form "   " (Some Reply.GenerateEmail))
            Reply.initial).2 ∧
   Reply.sent
     (Reply.script Reply.numbering (Reply.form "   " (Some Reply.GenerateEmail)) Reply.initial).2
     = []).
Proof.
  assert ("   " ≠ "") as Hne by discriminate.
  assert (strip "   " = "") as Hblank by reflexivity.
  split.
  - apply (proj1 (proj2 C10_whitespace_only_preferences "   " Hne Hblank)
      (Meal.serving (Meal.envelope_of Meal.week_text))
      {| Meal.dietary_preferences := "   "; Meal.health_goals := "Weight Loss";
         Meal.num_meals := 3; Meal.generate_button := true |} (Meal.fresh []));
      reflexivity.
  - apply (proj2 (proj2 C10_whitespace_only_preferences "   " Hne Hblank)
      Reply.numbering (Reply.form "   " (Some Reply.GenerateEmail)) Reply.initial);
      reflexivity.
Defined.

End Validation.

(** ** Further facts about the planner: failures of the request, the
    request count, and the drawing of the week, the meals and the shopping
    list *)

Module MealMore.
Import Py Exec St Meal MealFacts.

(** X1: a connection failure and an HTTP status from 400 to 599 are both
    reported by the first [except] clause: [None] is returned and the one
    thing drawn is the message that the API could not be reached; the body
    of the response is not decoded and not shown. *)
Theorem transport_failures_reported w p g n s :
  (∀ msg,
     http_post w (length (sent s)) (build_request p g n) = Failed msg →
     generate_meal_plan w p g n s =
       (Ret PyNone,
        extend [(Main, Error [FLit "Error connecting to Gemini API: ";
                              FExn (RequestException msg)])]
          (record_request (build_request p g n) s))) ∧
  (∀ r,
     http_post w (length (sent s)) (build_request p g n) = Responded r →
     400 ≤ status_code r < 600 →
     generate_meal_plan w p g n s =
       (Ret PyNone,
        extend [(Main, Error [FLit "Error connecting to Gemini API: ";
                              FExn (HTTPError (status_code r))])]
          (record_request (build_request p g n) s))).
Proof.
  split.
  - intros msg Hpost. by rewrite generate_view, Hpost.
  - intros r Hpost [Hlo Hhi]. rewrite generate_view, Hpost. unfold try_except.
    rewrite after_post_view. unfold raise_for_status.
    destruct (Z.leb_spec 400 (status_code r)); [|lia].
    destruct (Z.ltb_spec (status_code r) 600); [|lia].
    simpl. by rewrite handler_bound.
Qed.

Lemma transport_failures_reported_witness :
  generate_meal_plan refusing "Vegan" "Weight Loss" 2 (fresh []) =
    (Ret PyNone,
     extend [(Main, Error [FLit "Error connecting to Gemini API: ";
                           FExn (RequestException "Connection refused")])]
       (record_request (build_request "Vegan" "Weight Loss" 2) (fresh []))) ∧
  generate_meal_plan (serving_status 404 "Not Found") "Vegan" "Weight Loss" 2 (fresh []) =
    (Ret PyNone,
     extend [(Main, Error [FLit "Error connecting to Gemini API: "; FExn (HTTPError 404)])]
       (record_request (build_request "Vegan" "Weight Loss" 2) (fresh []))).
Proof.
  split.
  - apply (proj1 (transport_failures_reported refusing "Vegan" "Weight Loss" 2 (fresh []))
             "Connection refused").
    reflexivity.
  - apply (proj2 (transport_failures_reported (serving_status 404 "Not Found")
                    "Vegan" "Weight Loss" 2 (fresh []))
             {| status_code := 404; text := "Not Found" |}).
    + reflexivity.
    + simpl. lia.
Defined.

(** X2: a body the decoder does not decode.  What [response.json()]
    raises and which [except] clause takes it depends on the exception of
    the decoder and on the requests version.  A [JSONDecodeError] is, from
    requests 2.27 on, raised again as an error that is a
    [RequestException], so the first clause takes it: the message speaks of
    a connection error and the raw body is not shown; with an older
    requests the second clause takes it and the raw body is shown.  An
    exception that is neither, such as the [RecursionError] of a body
    nested too deep, passes through and is taken by the last clause, which
    shows the message alone.  [None] is returned in every case. *)
Theorem body_not_json_reported w p g n s r :
  http_post w (length (sent s)) (build_request p g n) = Responded r →
  ¬ (400 ≤ status_code r < 600) →
  (∀ doc,
     json_loads w (text r) = Raise (JSONDecodeError doc) →
     generate_meal_plan w p g n s =
       (Ret PyNone,
        extend
          (if requests_2_27 w then
             [(Main, Error [FLit "Error connecting to Gemini API: ";
                            FExn (RequestsJSONDecodeError doc)])]
           else
             [(Main, Error [FLit "Error parsing JSON response from Gemini API: ";
                            FExn (JSONDecodeError doc)]);
              (Main, Write [FLit "Raw API response content (might be malformed JSON):"]);
              (Main, Code (text r))])
          (record_request (build_request p g n) s))) ∧
  (∀ e,
     json_loads w (text r) = Raise e →
     is_RequestException e = false →
     is_JSONDecodeError e = false →
     generate_meal_plan w p g n s =
       (Ret PyNone,
        extend [(Main, Error [FLit "An unexpected error occurred: "; FExn e])]
          (record_request (build_request p g n) s))).
Proof.
  intros Hpost Hst. split.
  - intros doc Hjs. rewrite generate_view, Hpost. unfold try_except.
    rewrite after_post_view, (raise_for_status_ok _ Hst). unfold response_json. rewrite Hjs.
    rewrite handler_bound. by destruct (requests_2_27 w).
  - intros e Hjs Hre Hje. rewrite generate_view, Hpost. unfold try_except.
    rewrite after_post_view, (raise_for_status_ok _ Hst).
    rewrite (response_json_other w r e Hjs) by (intros doc ->; discriminate Hje).
    by rewrite handler_bound, Hre, Hje.
Qed.

Lemma body_not_json_reported_witness :
  generate_meal_plan
    {| http_post := λ _ _, Responded {| status_code := 200; text := "<html>" |};
       json_loads := Json.loads; requests_2_27 := false |}
    "Vegan" "Weight Loss" 2 (fresh []) =
  (Ret PyNone,
   extend
     [(Main, Error [FLit "Error parsing JSON response from Gemini API: ";
                    FExn (JSONDecodeError "<html>")]);
      (Main, Write [FLit "Raw API response content (might be malformed JSON):"]);
      (Main, Code "<html>")]
     (record_request (build_request "Vegan" "Weight Loss" 2) (fresh []))) ∧
  generate_meal_plan (serving (nested_arrays 12000)) "Vegan" "Weight Loss" 2 (fresh []) =
  (Ret PyNone,
   extend [(Main, Error [FLit "An unexpected error occurred: "; FExn RecursionError])]
     (record_request (build_request "Vegan" "Weight Loss" 2) (fresh []))).
Proof.
  split.
  - apply (proj1 (body_not_json_reported
      {| http_post := λ _ _, Responded {| status_code := 200; text := "<html>" |};
         json_loads := Json.loads; requests_2_27 := false |}
      "Vegan" "Weight Loss" 2 (fresh []) {| status_code := 200; text := "<html>" |}
      eq_refl ltac:(simpl; lia)) "<html>").
    reflexivity.
  - apply (proj2 (body_not_json_reported (serving (nested_arrays 12000))
      "Vegan" "Weight Loss" 2 (fresh [])
      {| status_code := 200; text := nested_arrays 12000 |}
      eq_refl ltac:(simpl; lia)) RecursionError).
    + vm_compute. reflexivity.
    + reflexivity.
    + reflexivity.
Defined.

(** X3: a decoded response without usable candidates.  When the response
    object is falsy, or is a dictionary whose [candidates] entry is absent
    or falsy (null, an empty list), the envelope check fails without
    raising: [None] is returned with the message about an unexpected
    format and the response object itself. *)
Theorem no_candidates_reported w p g n s r result :
  http_post w (length (sent s)) (build_request p g n) = Responded r →
  raise_for_status r = Ret () →
  json_loads w (text r) = Ret result →
  (truthy result = false ∨
   ∃ d, result = PyDict d ∧ truthy (default PyNone (dict_lookup "candidates" d)) = false) →
  generate_meal_plan w p g n s =
    (Ret PyNone,
     extend [(Main, Error [FLit "Error: Unexpected response format from Gemini API."]);
             (Main, Json result)]
       (record_request (build_request p g n) s)).
Proof.
  intros Hpost Hst Hjs Hshape. rewrite generate_view, Hpost. unfold try_except.
  rewrite after_post_view, Hst, (response_json_Ret _ _ _ Hjs).
  assert (∃ ok, expected_structure result = Ret ok ∧ truthy ok = false) as (ok & -> & ->).
  { unfold expected_structure, py_and. destruct Hshape as [Hf|(d & -> & Hf)].
    - exists result. by repeat (progress cbn [mbind outcome_bind] || rewrite Hf).
    - destruct (truthy (PyDict d)) eqn:Td.
      + exists (default PyNone (dict_lookup "candidates" d)).
        by repeat (progress cbn [mbind outcome_bind py_get py_get_default]
                   || rewrite Td || rewrite Hf).
      + exists (PyDict d). by repeat (progress cbn [mbind outcome_bind] || rewrite Td). }
  done.
Qed.

Lemma no_candidates_reported_witness :
  generate_meal_plan (serving (Json.dq "{'candidates': []}")) "Vegan" "Weight Loss" 2 (fresh []) =
  (Ret PyNone,
   extend [(Main, Error [FLit "Error: Unexpected response format from Gemini API."]);
           (Main, Json (PyDict [("candidates", PyList [])]))]
     (record_request (build_request "Vegan" "Weight Loss" 2) (fresh []))).
Proof.
  apply (no_candidates_reported (serving (Json.dq "{'candidates': []}"))
           "Vegan" "Weight Loss" 2 (fresh [])
           {| status_code := 200; text := Json.dq "{'candidates': []}" |}
           (PyDict [("candidates", PyList [])])); try reflexivity.
  right. exists [("candidates", PyList [])]. split; reflexivity.
Defined.

(** X4: an envelope whose text is there and truthy but is not a string
    (a number, a list, an object).  [json.loads] refuses it with a
    [TypeError], which only the last [except] clause takes: [None] is
    returned with the message about an unexpected error, and neither the
    response object nor its raw text is shown. *)
Theorem text_not_a_string_reported w p g n s r result v :
  http_post w (length (sent s)) (build_request p g n) = Responded r →
  raise_for_status r = Ret () →
  json_loads w (text r) = Ret result →
  envelope_text result = Ret v →
  truthy v = true →
  (∀ t, v ≠ PyStr t) →
  generate_meal_plan w p g n s =
    (Ret PyNone,
     extend [(Main, Error [FLit "An unexpected error occurred: ";
                           FExn (TypeError
                             ("the JSON object must be str, bytes or bytearray, not "
                              +:+ type_name v))])]
       (record_request (build_request p g n) s)).
Proof.
  intros Hpost Hst Hjs Henv Hv Hns. rewrite generate_view, Hpost. unfold try_except.
  rewrite after_post_view, Hst, (response_json_Ret _ _ _ Hjs).
  rewrite (envelope_guard _ _ Henv), Hv, Henv. cbn [mbind outcome_bind].
  destruct v as [|b|z|f|t|l|d]; try (by destruct (Hns t)); simpl; by rewrite handler_bound.
Qed.

Lemma text_not_a_string_reported_witness :
  generate_meal_plan
    (serving (Json.dq "{'candidates':[{'content':{'parts':[{'text':{'shopping_list':[]}}]}}]}"))
    "Vegan" "Weight Loss" 2 (fresh []) =
  (Ret PyNone,
   extend [(Main, Error [FLit "An unexpected error occurred: ";
                         FExn (TypeError
                           "the JSON object must be str, bytes or bytearray, not dict")])]
     (record_request (build_request "Vegan" "Weight Loss" 2) (fresh []))).
Proof.
  apply (text_not_a_string_reported
    (serving (Json.dq "{'candidates':[{'content':{'parts':[{'text':{'shopping_list':[]}}]}}]}"))
    "Vegan" "Weight Loss" 2 (fresh [])
    {| status_code := 200;
       text := Json.dq "{'candidates':[{'content':{'parts':[{'text':{'shopping_list':[]}}]}}]}" |}
    (PyDict [("candidates", PyList [PyDict [("content",
       PyDict [("parts", PyList [PyDict [("text", PyDict [("shopping_list", PyList [])])]])])]])])
    (PyDict [("shopping_list", PyList [])])); try reflexivity.
  intros t. discriminate.
Defined.

(** X5: a run sends one request when the button was pressed with
    non-empty preferences, and none otherwise; rendering, however it ends,
    sends nothing. *)
Theorem one_request_per_run w i s :
  sent (script w i s).2 =
  sent s ++
  (if generate_button i && negb (String.eqb (dietary_preferences i) "")
   then [build_request (dietary_preferences i) (health_goals i) (num_meals i)]
   else []).
Proof.
  destruct (String.eqb_spec (dietary_preferences i) "") as [Hp|Hp].
  - rewrite (script_empty_preferences w i s Hp), andb_false_r. simpl. by rewrite app_nil_r.
  - destruct (generate_button i) eqn:Hb.
    + by destruct (script_validation_passes w i s Hb Hp) as [_ ->].
    + rewrite script_chrome, Hb. simpl. by rewrite app_nil_r.
Qed.

(** X6: when the text of the envelope decodes to a falsy value (an empty
    object or list, null, zero, an empty string), the run ends normally
    after the notice that generation has started: no success message, no
    plan, and no error or warning either. *)
Theorem falsy_plan_shows_nothing w i s plan :
  generate_button i = true →
  dietary_preferences i ≠ "" →
  answers w (sent s)
    (build_request (dietary_preferences i) (health_goals i) (num_meals i)) plan →
  truthy plan = false →
  script w i s =
    (Ret (),
     record_request (build_request (dietary_preferences i) (health_goals i) (num_meals i))
       (extend (chrome ++
          [(Main, Info "Generating your personalized meal plan... This might take a moment!")])
          s)).
Proof.
  intros Hb Hp Hans Hf.
  rewrite script_chrome, Hb, on_generate_nonempty, extend_extend by done.
  erewrite bind_ret by (apply generate_answers; exact Hans).
  by rewrite Hf.
Qed.

Lemma falsy_plan_shows_nothing_witness :
  script (serving (envelope_of "{}")) vegan (fresh []) =
    (Ret (),
     record_request (build_request "Vegan" "Weight Loss" 2)
       (extend (chrome ++
          [(Main, Info "Generating your personalized meal plan... This might take a moment!")])
          (fresh []))).
Proof.
  apply (falsy_plan_shows_nothing (serving (envelope_of "{}")) vegan (fresh []) (PyDict [])).
  - reflexivity.
  - discriminate.
  - exists {| status_code := 200; text := envelope_of "{}" |}, (envelope_value "{}"), "{}".
    split_and!; try reflexivity; [simpl; lia|discriminate].
  - reflexivity.
Defined.

(** X7: the day sections follow the entries of the week, whatever their
    number.  For a plan of the shape of the schema with at least one day,
    the run ends normally, [st.tabs] gets one label per entry, and one
    heading per entry is drawn, the k-th in tab k; nothing is drawn in a
    tab that has no entry. *)
Theorem day_sections_follow_entries w i s plan days :
  generate_button i = true →
  dietary_preferences i ≠ "" →
  answers w (sent s)
    (build_request (dietary_preferences i) (health_goals i) (num_meals i)) plan →
  conforms response_schema plan = true →
  py_getitem_str plan "weekly_meal_plan" = Ret (PyList days) →
  days ≠ [] →
  ∃ evs,
    (script w i s).1 = Ret () ∧
    drawn (script w i s).2 = drawn s ++ evs ∧
    (Main, Tabs (label_text <$> days)) ∈ evs ∧
    tab_headings evs = zip (seq 0%nat (length days)) (day_heading <$> days) ∧
    Forall (λ j, (j < length days)%nat) (tabs_drawn_in evs).
Proof.
  intros Hb Hp Hans Hc Hw Hne.
  destruct (script_conforming w i s plan days Hb Hp Hans Hc Hw Hne)
    as (evs & items & H1 & H2 & _ & H3 & H4 & H5 & _).
  by exists evs.
Qed.

Lemma day_sections_follow_entries_witness :
  ∃ evs,
    (script (serving (envelope_of twice_eggs_text)) vegan (fresh [])).1 = Ret () ∧
    drawn (script (serving (envelope_of twice_eggs_text)) vegan (fresh [])).2 = [] ++ evs ∧
    (Main, Tabs (label_text <$> [PyDict [("day", PyStr "Monday"); ("meals", PyList [])]])) ∈ evs ∧
    tab_headings evs =
      zip (seq 0%nat 1) (day_heading <$> [PyDict [("day", PyStr "Monday"); ("meals", PyList [])]]) ∧
    Forall (λ j, (j < 1)%nat) (tabs_drawn_in evs).
Proof.
  apply (day_sections_follow_entries (serving (envelope_of twice_eggs_text)) vegan (fresh [])
           twice_eggs_plan [PyDict [("day", PyStr "Monday"); ("meals", PyList [])]]);
    try reflexivity; try discriminate.
  exists {| status_code := 200; text := envelope_of twice_eggs_text |},
    (envelope_value twice_eggs_text), twice_eggs_text.
  split_and!; try reflexivity; [simpl; lia|discriminate].
Defined.

Lemma render_view plan s :
  render plan s =
  (render_week plan ≫= λ _,
     draw Main (Header "Shopping List") ≫= λ _, render_shopping_list plan)
    (extend [(Main, Success "Meal Plan Generated Successfully!");
             (Main, Header "Weekly Meal Plan")] s).
Proof. unfold render. by draws. Qed.

(** X8: a week without entries.  [st.tabs] refuses an empty list of
    labels, so for a plan whose [weekly_meal_plan] is an empty array the
    run ends in a [StreamlitAPIException] right after the header of the
    weekly plan; the shopping list of that plan is not drawn. *)
Theorem empty_week_raises w i s plan :
  generate_button i = true →
  dietary_preferences i ≠ "" →
  answers w (sent s)
    (build_request (dietary_preferences i) (health_goals i) (num_meals i)) plan →
  py_getitem_str plan "weekly_meal_plan" = Ret (PyList []) →
  script w i s =
    (Raise (StreamlitAPIException
       "The input argument to st.tabs must contain at least one tab label."),
     record_request (build_request (dietary_preferences i) (health_goals i) (num_meals i))
       (extend (chrome ++
          [(Main, Info "Generating your personalized meal plan... This might take a moment!");
           (Main, Success "Meal Plan Generated Successfully!");
           (Main, Header "Weekly Meal Plan")])
          s)).
Proof.
  intros Hb Hp Hans Hw.
  rewrite script_chrome, Hb, on_generate_nonempty, extend_extend by done.
  erewrite bind_ret by (apply generate_answers; exact Hans).
  assert (truthy plan = true) as ->.
  { apply py_getitem_str_Ret in Hw as (d & -> & Hd). by eapply dict_lookup_truthy. }
  rewrite render_view. unfold render_week.
  erewrite bind_raise.
  2:{ rewrite bind_lift, Hw. cbn [mbind outcome_bind py_iter]. by rewrite bind_lift. }
  unfold record_request, extend, set_drawn. simpl. by rewrite <-!app_assoc.
Qed.

Lemma empty_week_raises_witness :
  script (serving (envelope_of (Json.dq "{'weekly_meal_plan':[],'shopping_list':['oats']}")))
    vegan (fresh []) =
    (Raise (StreamlitAPIException
       "The input argument to st.tabs must contain at least one tab label."),
     record_request (build_request "Vegan" "Weight Loss" 2)
       (extend (chrome ++
          [(Main, Info "Generating your personalized meal plan... This might take a moment!");
           (Main, Success "Meal Plan Generated Successfully!");
           (Main, Header "Weekly Meal Plan")])
          (fresh []))).
Proof.
  apply (empty_week_raises
    (serving (envelope_of (Json.dq "{'weekly_meal_plan':[],'shopping_list':['oats']}")))
    vegan (fresh [])
    (PyDict [("weekly_meal_plan", PyList []); ("shopping_list", PyList [PyStr "oats"])])).
  - reflexivity.
  - discriminate.
  - exists {| status_code := 200;
              text := envelope_of (Json.dq "{'weekly_meal_plan':[],'shopping_list':['oats']}") |},
      (envelope_value (Json.dq "{'weekly_meal_plan':[],'shopping_list':['oats']}")),
      (Json.dq "{'weekly_meal_plan':[],'shopping_list':['oats']}").
    split_and!; try reflexivity; [simpl; lia|discriminate].
  - reflexivity.
Defined.

Lemma titles_stop_at_first_failure good d rest e :
  Forall (λ x, ∃ v, py_getitem_str x "day" = Ret v) good →
  py_getitem_str d "day" = Raise e →
  mapM (λ day_data, py_getitem_str day_data "day") (good ++ d :: rest) = Raise e.
Proof.
  intros Hgood Hd. induction Hgood as [|x good [v Hx] _ IH].
  - cbn [Datatypes.app mapM]. by rewrite Hd.
  - cbn [Datatypes.app mapM]. rewrite Hx. cbn [mbind outcome_bind].
    by rewrite IH.
Qed.

(** X9: the labels of all days are read before any tab is made.  When
    reading [day_data['day']] fails for some entry (the key is absent, or
    the entry is not an object), the run ends in that exception right
    after the header of the weekly plan: no tab is drawn, not even for the
    entries before the failing one, and no shopping list. *)
Theorem bad_day_leaves_week_undrawn w i s plan good d rest e :
  generate_button i = true →
  dietary_preferences i ≠ "" →
  answers w (sent s)
    (build_request (dietary_preferences i) (health_goals i) (num_meals i)) plan →
  py_getitem_str plan "weekly_meal_plan" = Ret (PyList (good ++ d :: rest)) →
  Forall (λ x, ∃ v, py_getitem_str x "day" = Ret v) good →
  py_getitem_str d "day" = Raise e →
  script w i s =
    (Raise e,
     record_request (build_request (dietary_preferences i) (health_goals i) (num_meals i))
       (extend (chrome ++
          [(Main, Info "Generating your personalized meal plan... This might take a moment!");
           (Main, Success "Meal Plan Generated Successfully!");
           (Main, Header "Weekly Meal Plan")])
          s)).
Proof.
  intros Hb Hp Hans Hw Hgood Hd.
  rewrite script_chrome, Hb, on_generate_nonempty, extend_extend by done.
  erewrite bind_ret by (apply generate_answers; exact Hans).
  assert (truthy plan = true) as ->.
  { apply py_getitem_str_Ret in Hw as (dd & -> & Hdd). by eapply dict_lookup_truthy. }
  rewrite render_view. unfold render_week.
  erewrite bind_raise.
  2:{ rewrite bind_lift, Hw. cbn [mbind outcome_bind py_iter].
      by rewrite bind_lift, (titles_stop_at_first_failure good d rest e Hgood Hd). }
  unfold record_request, extend, set_drawn. simpl. by rewrite <-!app_assoc.
Qed.

Lemma bad_day_leaves_week_undrawn_witness :
  script
    (serving (envelope_of (Json.dq
       "{'weekly_meal_plan':[{'day':'Monday','meals':[]},{'meals':[]}],'shopping_list':[]}")))
    vegan (fresh []) =
    (Raise (KeyError (PyStr "day")),
     record_request (build_request "Vegan" "Weight Loss" 2)
       (extend (chrome ++
          [(Main, Info "Generating your personalized meal plan... This might take a moment!");
           (Main, Success "Meal Plan Generated Successfully!");
           (Main, Header "Weekly Meal Plan")])
          (fresh []))).
Proof.
  apply (bad_day_leaves_week_undrawn
    (serving (envelope_of (Json.dq
       "{'weekly_meal_plan':[{'day':'Monday','meals':[]},{'meals':[]}],'shopping_list':[]}")))
    vegan (fresh [])
    (PyDict [("weekly_meal_plan",
              PyList [PyDict [("day", PyStr "Monday"); ("meals", PyList [])];
                      PyDict [("meals", PyList [])]]);
             ("shopping_list", PyList [])])
    [PyDict [("day", PyStr "Monday"); ("meals", PyList [])]]
    (PyDict [("meals", PyList [])]) [] (KeyError (PyStr "day"))).
  - reflexivity.
  - discriminate.
  - eexists {| status_code := 200; text := _ |}, (envelope_value _), _.
    split_and!; try reflexivity; [simpl; lia|discriminate].
  - reflexivity.
  - repeat constructor. by eexists.
  - reflexivity.
Defined.

Lemma checkboxes_lookup items idx (k : nat) item :
  items !! k = Some item →
  checkboxes idx items !! k =
    Some (Column (Z.to_nat ((idx + Z.of_nat k) `mod` 3)),
          Checkbox item ("item_" +:+ pretty (idx + Z.of_nat k))).
Proof.
  revert idx k. induction items as [|x items IH]; intros idx k H; [done|].
  destruct k as [|k].
  - injection H as ->. cbn [checkboxes lookup list_lookup]. by rewrite Z.add_0_r.
  - change (checkboxes idx (x :: items) !! S k) with (checkboxes (idx + 1) items !! k).
    rewrite (IH (idx + 1) k H).
    by replace (idx + 1 + Z.of_nat k) with (idx + Z.of_nat (S k)) by lia.
Qed.

Lemma checkboxes_length idx items : length (checkboxes idx items) = length items.
Proof. revert idx. induction items as [|x items IH]; intros idx; simpl; [done|]. by rewrite IH. Qed.

(** X10: the shopping list is dealt out over three columns in turn.  For
    a non-empty list, [st.columns(3)] is drawn once, followed by one
    checkbox per entry; the k-th entry (counting from 0) goes to column
    k mod 3 and gets the key item_k. *)
Theorem shopping_list_round_robin plan items s :
  py_get_default plan "shopping_list" (PyList []) = Ret (PyList items) →
  items ≠ [] →
  ∃ boxes,
    render_shopping_list plan s = (Ret (), extend ((Main, Columns 3) :: boxes) s) ∧
    length boxes = length items ∧
    ∀ (k : nat) item,
      items !! k = Some item →
      boxes !! k = Some (Column (k `mod` 3)%nat,
                         Checkbox item ("item_" +:+ pretty (Z.of_nat k))).
Proof.
  intros Hget Hne. exists (checkboxes 0 items).
  rewrite render_shopping_list_view, Hget.
  split; [by destruct items|]. split; [apply checkboxes_length|].
  intros k item Hk. etrans; [exact (checkboxes_lookup items 0 k item Hk)|]. rewrite Z.add_0_l.
  do 3 f_equal. change 3 with (Z.of_nat 3). by rewrite <-Nat2Z.inj_mod, Nat2Z.id.
Qed.

Lemma shopping_list_round_robin_witness :
  ∃ boxes,
    render_shopping_list
      (PyDict [("shopping_list",
                PyList [PyStr "oats"; PyStr "rice"; PyStr "kale"; PyStr "tofu"])]) (fresh [])
      = (Ret (), extend ((Main, Columns 3) :: boxes) (fresh [])) ∧
    length boxes = 4%nat ∧
    ∀ (k : nat) item,
      [PyStr "oats"; PyStr "rice"; PyStr "kale"; PyStr "tofu"] !! k = Some item →
      boxes !! k = Some (Column (k `mod` 3)%nat,
                         Checkbox item ("item_" +:+ pretty (Z.of_nat k))).
Proof.
  apply (shopping_list_round_robin
    (PyDict [("shopping_list",
              PyList [PyStr "oats"; PyStr "rice"; PyStr "kale"; PyStr "tofu"])])
    [PyStr "oats"; PyStr "rice"; PyStr "kale"; PyStr "tofu"] (fresh [])).
  - reflexivity.
  - discriminate.
Defined.

Lemma for_each_bullets tab (items : list pyval) s :
  for_each items (λ ingredient, draw tab (Write [FLit "- "; FVal ingredient])) s =
  (Ret (), extend ((λ ingredient, (tab, Write [FLit "- "; FVal ingredient])) <$> items) s).
Proof.
  revert s. induction items as [|x items IH]; intros s.
  - by rewrite extend_nil.
  - cbn [for_each]. erewrite bind_ret by apply draw_extend.
    by rewrite IH, extend_extend.
Qed.

(** One meal whose four fields are there. *)
Lemma render_meal_view tab meal ty recipe_name ingredients items instructions s :
  py_getitem_str meal "type" = Ret ty →
  py_getitem_str meal "recipe_name" = Ret recipe_name →
  py_getitem_str meal "ingredients" = Ret ingredients →
  py_iter ingredients = Ret items →
  py_getitem_str meal "instructions" = Ret instructions →
  render_meal tab meal s =
  (Ret (),
   extend
     ([(tab, Markdown [FLit "**"; FVal ty; FLit ":** "; FVal recipe_name]);
       (tab, Markdown [FLit "**Ingredients:**"])] ++
      ((λ ingredient, (tab, Write [FLit "- "; FVal ingredient])) <$> items) ++
      [(tab, Markdown [FLit "**Instructions:**"]);
       (tab, Markdown [FVal instructions]);
       (tab, Markdown [FLit "---"])])
     s).
Proof.
  intros Hty Hname Hing Hitems Hins. unfold render_meal.
  rewrite bind_lift, Hty, bind_lift, Hname. draws.
  rewrite bind_lift, Hing. cbn [mbind outcome_bind]. rewrite Hitems.
  erewrite bind_ret by apply for_each_bullets. rewrite extend_extend.
  draws. rewrite bind_lift, Hins. draws.
  rewrite draw_extend, extend_extend. f_equal. f_equal.
  cbn [Datatypes.app]. by rewrite <-!app_assoc.
Qed.

(** X11: a meal is drawn in full and in order.  For a meal with its four
    fields and a list of ingredients, the tab receives the line with type
    and recipe name, the heading of the ingredients, one bullet per
    ingredient in the order of the list, the heading of the instructions,
    the instructions and a rule: five elements and one per ingredient. *)
Theorem meal_drawn_in_order tab meal ty recipe_name items instructions s :
  py_getitem_str meal "type" = Ret ty →
  py_getitem_str meal "recipe_name" = Ret recipe_name →
  py_getitem_str meal "ingredients" = Ret (PyList items) →
  py_getitem_str meal "instructions" = Ret instructions →
  ∃ evs,
    render_meal tab meal s = (Ret (), extend evs s) ∧
    evs =
      [(tab, Markdown [FLit "**"; FVal ty; FLit ":** "; FVal recipe_name]);
       (tab, Markdown [FLit "**Ingredients:**"])] ++
      ((λ ingredient, (tab, Write [FLit "- "; FVal ingredient])) <$> items) ++
      [(tab, Markdown [FLit "**Instructions:**"]);
       (tab, Markdown [FVal instructions]);
       (tab, Markdown [FLit "---"])] ∧
    length evs = (5 + length items)%nat.
Proof.
  intros Hty Hname Hing Hins. eexists. split.
  - by apply (render_meal_view tab meal ty recipe_name (PyList items) items instructions).
  - split; [done|]. rewrite !length_app, length_fmap. simpl. lia.
Qed.

Lemma meal_drawn_in_order_witness :
  ∃ evs,
    render_meal (Tab 0)
      (PyDict [("type", PyStr "Lunch"); ("recipe_name", PyStr "Dal");
               ("ingredients", PyList [PyStr "lentils"; PyStr "rice"]);
               ("instructions", PyStr "Boil.")]) (fresh [])
      = (Ret (), extend evs (fresh [])) ∧
    evs =
      [(Tab 0, Markdown [FLit "**"; FVal (PyStr "Lunch"); FLit ":** "; FVal (PyStr "Dal")]);
       (Tab 0, Markdown [FLit "**Ingredients:**"])] ++
      ((λ ingredient, (Tab 0, Write [FLit "- "; FVal ingredient]))
         <$> [PyStr "lentils"; PyStr "rice"]) ++
      [(Tab 0, Markdown [FLit "**Instructions:**"]);
       (Tab 0, Markdown [FVal (PyStr "Boil.")]);
       (Tab 0, Markdown [FLit "---"])] ∧
    length evs = (5 + length [PyStr "lentils"; PyStr "rice"])%nat.
Proof.
  apply (meal_drawn_in_order (Tab 0)
           (PyDict [("type", PyStr "Lunch"); ("recipe_name", PyStr "Dal");
                    ("ingredients", PyList [PyStr "lentils"; PyStr "rice"]);
                    ("instructions", PyStr "Boil.")])
           (PyStr "Lunch") (PyStr "Dal") [PyStr "lentils"; PyStr "rice"] (PyStr "Boil.")
           (fresh [])); reflexivity.
Defined.

(** X12: ingredients given as one string are listed character by
    character: the loop over a [str] visits its characters, so the meal
    gets one bullet for each of them. *)
Theorem string_ingredients_by_character tab meal ty recipe_name text instructions s :
  py_getitem_str meal "type" = Ret ty →
  py_getitem_str meal "recipe_name" = Ret recipe_name →
  py_getitem_str meal "ingredients" = Ret (PyStr text) →
  py_getitem_str meal "instructions" = Ret instructions →
  render_meal tab meal s =
  (Ret (),
   extend
     ([(tab, Markdown [FLit "**"; FVal ty; FLit ":** "; FVal recipe_name]);
       (tab, Markdown [FLit "**Ingredients:**"])] ++
      ((λ c, (tab, Write [FLit "- "; FVal (PyStr (String c ""))]))
         <$> String.list_ascii_of_string text) ++
      [(tab, Markdown [FLit "**Instructions:**"]);
       (tab, Markdown [FVal instructions]);
       (tab, Markdown [FLit "---"])])
     s).
Proof.
  intros Hty Hname Hing Hins.
  rewrite (render_meal_view tab meal ty recipe_name (PyStr text) (chars text) instructions)
    by done.
  unfold chars. by rewrite <-list_fmap_compose.
Qed.

Lemma string_ingredients_by_character_witness :
  render_meal (Tab 0)
    (PyDict [("type", PyStr "Lunch"); ("recipe_name", PyStr "Dal");
             ("ingredients", PyStr "rice"); ("instructions", PyStr "Boil.")]) (fresh []) =
  (Ret (),
   extend
     ([(Tab 0, Markdown [FLit "**"; FVal (PyStr "Lunch"); FLit ":** "; FVal (PyStr "Dal")]);
       (Tab 0, Markdown [FLit "**Ingredients:**"])] ++
      ((λ c, (Tab 0, Write [FLit "- "; FVal (PyStr (String c ""))]))
         <$> String.list_ascii_of_string "rice") ++
      [(Tab 0, Markdown [FLit "**Instructions:**"]);
       (Tab 0, Markdown [FVal (PyStr "Boil.")]);
       (Tab 0, Markdown [FLit "---"])])
     (fresh [])).
Proof.
  apply (string_ingredients_by_character (Tab 0)
           (PyDict [("type", PyStr "Lunch"); ("recipe_name", PyStr "Dal");
                    ("ingredients", PyStr "rice"); ("instructions", PyStr "Boil.")])
           (PyStr "Lunch") (PyStr "Dal") "rice" (PyStr "Boil.") (fresh [])); reflexivity.
Defined.

End MealMore.

(** ** Further facts about the responder: the cached call of the model,
    the PDF, and the runs of the script *)

Module ReplyMore.
Import Py Exec St Reply ReplyFacts.

(** The state after one more prompt went to the model. *)
Lemma generate_email_miss_view w t tn f n r c s :
  cache s !! (t, tn, f, n, r, c) = None →
  generate_email w (t, tn, f, n, r, c) s =
  match generate_content w (length (sent s)) (prompt t tn f n r c) with
  | Ret answer =>
      (Ret (text_strip answer),
       {| drawn := drawn s; sent := sent s ++ [prompt t tn f n r c];
          cache := <[(t, tn, f, n, r, c) := text_strip answer]> (cache s);
          session_state := session_state s; files := files s |})
  | Raise e =>
      (Raise e,
       {| drawn := drawn s; sent := sent s ++ [prompt t tn f n r c];
          cache := cache s; session_state := session_state s; files := files s |})
  end.
Proof.
  intros Hmiss. unfold generate_email, cache_data. rewrite Hmiss.
  unfold generate_email_body, mbind, exec_bind, model_generate_content.
  by destruct (generate_content w _ _).
Qed.

(** X13: the prompt of the responder carries all six inputs: the
    applicant's name, the role, the company, the format, the tone and the
    applicant's message each occur in it. *)
Theorem reply_prompt_interpolates t tn f n r c :
  Meal.contains n (prompt t tn f n r c) ∧
  Meal.contains r (prompt t tn f n r c) ∧
  Meal.contains c (prompt t tn f n r c) ∧
  Meal.contains f (prompt t tn f n r c) ∧
  Meal.contains tn (prompt t tn f n r c) ∧
  Meal.contains t (prompt t tn f n r c).
Proof.
  unfold prompt. repeat split.
  - apply MealFacts.contains_skip, MealFacts.contains_here.
  - do 3 apply MealFacts.contains_skip. apply MealFacts.contains_here.
  - do 5 apply MealFacts.contains_skip. apply MealFacts.contains_here.
  - do 7 apply MealFacts.contains_skip. apply MealFacts.contains_here.
  - do 9 apply MealFacts.contains_skip. apply MealFacts.contains_here.
  - do 11 apply MealFacts.contains_skip. apply MealFacts.contains_here.
Qed.

(** X14: a call of [generate_email] with arguments that have no stored
    result sends exactly one prompt, the one built from these arguments;
    when the model answers, the answer is returned with the whitespace at
    both ends removed and is stored under the arguments, and nothing else
    in the store changes. *)
Theorem generate_email_miss w t tn f n r c s answer :
  cache s !! (t, tn, f, n, r, c) = None →
  generate_content w (length (sent s)) (prompt t tn f n r c) = Ret answer →
  (generate_email w (t, tn, f, n, r, c) s).1 = Ret (text_strip answer) ∧
  sent (generate_email w (t, tn, f, n, r, c) s).2 = sent s ++ [prompt t tn f n r c] ∧
  cache (generate_email w (t, tn, f, n, r, c) s).2
    = <[(t, tn, f, n, r, c) := text_strip answer]> (cache s) ∧
  (∀ b, b ≠ (t, tn, f, n, r, c) →
     cache (generate_email w (t, tn, f, n, r, c) s).2 !! b = cache s !! b).
Proof.
  intros Hmiss Hans. rewrite (generate_email_miss_view _ _ _ _ _ _ _ _ Hmiss), Hans.
  simpl. repeat split. intros b Hb. by rewrite lookup_insert_ne.
Qed.

Lemma generate_email_miss_witness :
  (generate_email numbering ("Hello", "Formal", "Rejection", "Ann", "Clerk", "Acme") initial).1
    = Ret (text_strip (latin1 "Draft 0")) ∧
  sent (generate_email numbering ("Hello", "Formal", "Rejection", "Ann", "Clerk", "Acme")
          initial).2
    = [] ++ [prompt "Hello" "Formal" "Rejection" "Ann" "Clerk" "Acme"] ∧
  cache (generate_email numbering ("Hello", "Formal", "Rejection", "Ann", "Clerk", "Acme")
           initial).2
    = <[("Hello", "Formal", "Rejection", "Ann", "Clerk", "Acme")
        := text_strip (latin1 "Draft 0")]> ∅ ∧
  (∀ b, b ≠ ("Hello", "Formal", "Rejection", "Ann", "Clerk", "Acme") →
     cache (generate_email numbering ("Hello", "Formal", "Rejection", "Ann", "Clerk", "Acme")
              initial).2 !! b = (∅ : gmap args text) !! b).
Proof.
  apply (generate_email_miss numbering "Hello" "Formal" "Rejection" "Ann" "Clerk" "Acme"
           initial (latin1 "Draft 0")); reflexivity.
Defined.

(** X15: a failure of the model is not stored.  When the call of the
    model raises, [generate_email] raises the same exception after the
    prompt was sent and leaves the store as it was; the next call with the
    same arguments therefore goes to the model again. *)
Theorem generate_email_failure_not_cached w t tn f n r c s e :
  cache s !! (t, tn, f, n, r, c) = None →
  generate_content w (length (sent s)) (prompt t tn f n r c) = Raise e →
  (generate_email w (t, tn, f, n, r, c) s).1 = Raise e ∧
  cache (generate_email w (t, tn, f, n, r, c) s).2 = cache s ∧
  sent (generate_email w (t, tn, f, n, r, c) s).2 = sent s ++ [prompt t tn f n r c] ∧
  sent (generate_email w (t, tn, f, n, r, c)
          (generate_email w (t, tn, f, n, r, c) s).2).2
    = sent s ++ [prompt t tn f n r c; prompt t tn f n r c].
Proof.
  intros Hmiss Hfail. rewrite (generate_email_miss_view _ _ _ _ _ _ _ _ Hmiss), Hfail.
  cbn [fst snd cache sent]. split; [done|]. split; [done|]. split; [done|].
  rewrite generate_email_miss_view by exact Hmiss. simpl.
  match goal with |- context [generate_content w ?x ?y] =>
    destruct (generate_content w x y) end; simpl; by rewrite <-app_assoc.
Qed.

Lemma generate_email_failure_not_cached_witness :
  let w := {| generate_content := λ _ _, Raise (ValueError "blocked") |} in
  let a := ("Hello", "Formal", "Rejection", "Ann", "Clerk", "Acme") in
  (generate_email w a initial).1 = Raise (ValueError "blocked") ∧
  cache (generate_email w a initial).2 = cache initial ∧
  sent (generate_email w a initial).2
    = sent initial ++ [prompt "Hello" "Formal" "Rejection" "Ann" "Clerk" "Acme"] ∧
  sent (generate_email w a (generate_email w a initial).2).2
    = sent initial ++ [prompt "Hello" "Formal" "Rejection" "Ann" "Clerk" "Acme";
                       prompt "Hello" "Formal" "Rejection" "Ann" "Clerk" "Acme"].
Proof.
  intros w a.
  apply (generate_email_failure_not_cached w "Hello" "Formal" "Rejection" "Ann" "Clerk" "Acme"
           initial (ValueError "blocked")); reflexivity.
Defined.

Lemma text_lstrip_head t x rest : text_lstrip t = x :: rest → text_isspace x = false.
Proof.
  induction t as [|n t IH]; [done|]. simpl.
  destruct (text_isspace n) eqn:E; [done|]. by intros [= <- <-].
Qed.

Lemma text_rstrip_keeps_head x t :
  text_isspace x = false → ∃ r, text_rstrip (x :: t) = x :: r.
Proof. intros H. simpl. destruct (text_rstrip t); rewrite ?H; eauto. Qed.

Lemma text_rstrip_last t pre x : text_rstrip t = pre ++ [x] → text_isspace x = false.
Proof.
  revert pre. induction t as [|n t IH]; intros pre.
  - by destruct pre.
  - simpl. destruct (text_rstrip t) as [|y r] eqn:E.
    + destruct (text_isspace n) eqn:En; [by destruct pre|].
      destruct pre as [|p pre]; [by intros [= <-]|]. by destruct pre.
    + destruct pre as [|p pre]; [done|].
      intros [= <- H]. by apply (IH pre).
Qed.

(** X16: the email [generate_email] gets from the model comes back
    without whitespace at either end: its first and its last code point,
    if it has any, are not whitespace. *)
Theorem generated_email_is_stripped w t tn f n r c s answer email :
  cache s !! (t, tn, f, n, r, c) = None →
  generate_content w (length (sent s)) (prompt t tn f n r c) = Ret answer →
  (generate_email w (t, tn, f, n, r, c) s).1 = Ret email →
  (∀ x rest, email = x :: rest → text_isspace x = false) ∧
  (∀ pre x, email = pre ++ [x] → text_isspace x = false).
Proof.
  intros Hmiss Hans. rewrite (generate_email_miss_view _ _ _ _ _ _ _ _ Hmiss), Hans.
  cbn [fst]. intros [= <-]. unfold text_strip. split.
  - intros x rest. destruct (text_lstrip answer) as [|y l] eqn:E; [done|].
    pose proof (text_lstrip_head _ _ _ E) as Hy.
    destruct (text_rstrip_keeps_head y l Hy) as [r' ->]. by intros [= <- _].
  - intros pre x. apply text_rstrip_last.
Qed.

(** X16, at an answer between an em space and an ideographic space. *)
Lemma generated_email_is_stripped_witness :
  (∀ x rest, latin1 "Dear Ann" = x :: rest → text_isspace x = false) ∧
  (∀ pre x, latin1 "Dear Ann" = pre ++ [x] → text_isspace x = false).
Proof.
  apply (generated_email_is_stripped
           (replying ([8195%N] ++ latin1 "Dear Ann" ++ [12288%N]))
           "Hello" "Formal" "Rejection" "Ann" "Clerk" "Acme"
           initial ([8195%N] ++ latin1 "Dear Ann" ++ [12288%N]) (latin1 "Dear Ann"));
    reflexivity.
Defined.

Lemma split_lines_nonempty c : split_lines c ≠ [].
Proof.
  destruct c as [|x c]; [done|]. simpl.
  repeat case_match; done.
Qed.

Lemma split_lines_no_newline content :
  Forall (λ line, ∀ a b, line ≠ a +:+ String "010"%char b) (split_lines content).
Proof.
  induction content as [|x c IH]; simpl.
  - constructor; [|constructor]. intros a b. by destruct a.
  - destruct (Ascii.eqb_spec x "010"%char) as [->|Hx].
    + constructor; [|done]. intros a b. by destruct a.
    + pose proof (split_lines_nonempty c) as Hne.
      destruct (split_lines c) as [|line lines]; [done|].
      inversion IH as [|?? Hline Hlines]; subst.
      constructor; [|done]. intros a b. destruct a as [|y a]; simpl.
      * intros [= -> _]. done.
      * intros [= _ ->]. by apply (Hline a b).
Qed.

Lemma split_lines_joined content :
  String.concat (String "010"%char "") (split_lines content) = content.
Proof.
  induction content as [|x c IH]; [done|]. simpl.
  destruct (Ascii.eqb_spec x "010"%char) as [->|Hx].
  - pose proof (split_lines_nonempty c) as Hne.
    destruct (split_lines c) as [|line lines] eqn:E; [done|].
    simpl in *. by rewrite IH.
  - pose proof (split_lines_nonempty c) as Hne.
    destruct (split_lines c) as [|line lines] eqn:E; [done|].
    simpl in *. destruct lines; simpl in *; by rewrite <-IH.
Qed.

Lemma encode_latin1_narrow content :
  Forall (λ n, (n < 256)%N) content → is_Some (encode_latin1 content).
Proof.
  intros H. unfold encode_latin1. apply fmap_is_Some.
  induction H as [|n c Hn _ [l IH]]; [by exists []|].
  cbn [mapM]. apply N.ltb_lt in Hn. rewrite Hn, IH. by eexists.
Qed.

Lemma encode_latin1_wide content :
  Exists (λ n, (256 ≤ n)%N) content → encode_latin1 content = None.
Proof.
  intros H. unfold encode_latin1.
  assert (mapM (λ n, if (n <? 256)%N then Some (ascii_of_N n) else None) content = None)
    as -> by (induction H as [n c Hn|n c _ IH]; cbn [mapM];
              [apply N.ltb_ge in Hn; by rewrite Hn
              |rewrite IH; by destruct (n <? 256)%N]).
  done.
Qed.

(** X17: what [create_pdf] does with a text.  When every code point is
    below 256 it returns the fixed path, and the lines it wrote there are
    the pieces of the content between its newlines: there is at least one
    line, no line holds a newline, and the lines joined by newlines, read
    as Latin-1, are the content again.  When some code point is not, it
    raises [UnicodeEncodeError] and writes nothing. *)
Theorem pdf_lines_round_trip content s :
  (Forall (λ n, (n < 256)%N) content →
     (create_pdf content s).1 = Ret pdf_path ∧
     ∃ lines,
       files (create_pdf content s).2 !! pdf_path = Some lines ∧
       lines ≠ [] ∧
       Forall (λ line, ∀ a b, line ≠ a +:+ String "010"%char b) lines ∧
       latin1 (String.concat (String "010"%char "") lines) = content) ∧
  (Exists (λ n, (256 ≤ n)%N) content →
     create_pdf content s = (Raise UnicodeEncodeError, s)).
Proof.
  split.
  - intros [b Hb]%encode_latin1_narrow. unfold create_pdf. rewrite Hb.
    split; [done|]. exists (split_lines b). cbn [snd files set_files].
    rewrite lookup_insert_eq. split; [done|]. split; [apply split_lines_nonempty|].
    split; [apply split_lines_no_newline|].
    rewrite split_lines_joined. symmetry. by apply encode_latin1_Some.
  - intros Hwide%encode_latin1_wide. unfold create_pdf. by rewrite Hwide.
Qed.

Lemma text_truthy_draft (c : string) : c ≠ "" → text_truthy (latin1 c) = true.
Proof. intros H. rewrite text_truthy_latin1. by destruct (String.eqb_spec c ""). Qed.

Lemma wide_truthy c : encode_latin1 c = None → text_truthy c = true.
Proof. by destruct c. Qed.

(** The state at the first look at session state. *)
Lemma initialised_view s :
  initialised (extend form_widgets s) =
  {| drawn := drawn s ++ form_widgets; sent := sent s; cache := cache s;
     session_state := session_state (initialised s); files := files s |}.
Proof. unfold initialised. simpl. by destruct (session_state s !! "email_content"). Qed.

Lemma initialised_draft s :
  session_state (initialised s) !! "email_content"
  = Some (default (latin1 "") (session_state s !! "email_content")).
Proof.
  unfold initialised. destruct (session_state s !! "email_content") eqn:E; simpl.
  - by rewrite E.
  - by rewrite lookup_insert_eq.
Qed.

(** The tail of the script, from the second look at session state on. *)
Lemma display_exact i s c :
  session_state s !! "email_content" = Some c →
  (content ← get_email_content;
   if text_truthy content then show_email i else mret ()) s =
  match encode_latin1 c with
  | Some b =>
      (Ret (),
       if text_truthy c then
         {| drawn := drawn s ++ email_section b; sent := sent s; cache := cache s;
            session_state :=
              if pressed RegenerateEmail i
              then <["email_content" := latin1 "Thank you for your application."]>
                     (session_state s)
              else session_state s;
            files := <[pdf_path := split_lines b]> (files s) |}
       else s)
  | None => (Raise UnicodeEncodeError, extend (email_head c) s)
  end.
Proof.
  intros Hc. erewrite reply_bind_ret by (by apply get_email_content_ret).
  destruct (encode_latin1 c) as [b|] eqn:Hb.
  - destruct (text_truthy c); [|done].
    apply encode_latin1_Some in Hb as ->. by rewrite (show_email_view i s b Hc).
  - rewrite (wide_truthy c Hb). by rewrite (show_email_wide i s c Hc Hb).
Qed.

Lemma on_submit_view w i s :
  strip (applicant_text i) ≠ "" →
  cache s !! args_of i = None →
  on_submit w i s =
  match generate_content w (length (sent s)) (prompt_of i) with
  | Ret answer =>
      (Ret (),
       {| drawn := drawn s; sent := sent s ++ [prompt_of i];
          cache := <[args_of i := text_strip answer]> (cache s);
          session_state := <["email_content" := text_strip answer]> (session_state s);
          files := files s |})
  | Raise e =>
      (Raise e,
       {| drawn := drawn s; sent := sent s ++ [prompt_of i];
          cache := cache s; session_state := session_state s; files := files s |})
  end.
Proof.
  intros Hmsg Hmiss. unfold on_submit.
  destruct (String.eqb_spec (strip (applicant_text i)) ""); [done|].
  unfold mbind at 1, exec_bind. unfold args_of in Hmiss.
  rewrite (generate_email_miss_view _ _ _ _ _ _ _ _ Hmiss).
  unfold prompt_of, args_of. by destruct (generate_content w _ _).
Qed.

Lemma on_submit_hit w i s r :
  strip (applicant_text i) ≠ "" →
  cache s !! args_of i = Some r →
  on_submit w i s =
  (Ret (), set_session_state (<["email_content" := r]> (session_state s)) s).
Proof.
  intros Hmsg Hhit. unfold on_submit.
  destruct (String.eqb_spec (strip (applicant_text i)) ""); [done|].
  unfold mbind at 1, exec_bind. unfold args_of in Hhit.
  by rewrite (generate_email_hit _ _ _ _ Hhit).
Qed.

(** A run the submit button did not trigger. *)
Lemma quiet_run_view w i s :
  pressed GenerateEmail i = false →
  let c := default (latin1 "") (session_state s !! "email_content") in
  script w i s =
  match encode_latin1 c with
  | Some b =>
      (Ret (),
       if text_truthy c then
         {| drawn := drawn s ++ form_widgets ++ email_section b;
            sent := sent s; cache := cache s;
            session_state :=
              if pressed RegenerateEmail i
              then <["email_content" := latin1 "Thank you for your application."]>
                     (session_state (initialised s))
              else session_state (initialised s);
            files := <[pdf_path := split_lines b]> (files s) |}
       else
         {| drawn := drawn s ++ form_widgets; sent := sent s; cache := cache s;
            session_state := session_state (initialised s); files := files s |})
  | None =>
      (Raise UnicodeEncodeError,
       {| drawn := drawn s ++ form_widgets ++ email_head c;
          sent := sent s; cache := cache s;
          session_state := session_state (initialised s); files := files s |})
  end.
Proof.
  intros Hp c. rewrite reply_script_view, initialised_view, Hp.
  unfold mbind at 1, exec_bind. cbn [mret exec_ret].
  rewrite (display_exact i _ c) by apply initialised_draft.
  destruct (encode_latin1 c); [destruct (text_truthy c)|];
    unfold extend, set_drawn; cbn [drawn sent cache session_state files]; try done;
    by rewrite <-app_assoc.
Qed.

(** A submission whose inputs have no stored result, answered by the
    model. *)
Lemma submit_miss_view w i s answer :
  clicked i = Some GenerateEmail →
  strip (applicant_text i) ≠ "" →
  cache s !! args_of i = None →
  generate_content w (length (sent s)) (prompt_of i) = Ret answer →
  script w i s =
  match encode_latin1 (text_strip answer) with
  | Some b =>
      (Ret (),
       if text_truthy (text_strip answer) then
         {| drawn := drawn s ++ form_widgets ++ email_section b;
            sent := sent s ++ [prompt_of i];
            cache := <[args_of i := text_strip answer]> (cache s);
            session_state :=
              <["email_content" := text_strip answer]> (session_state (initialised s));
            files := <[pdf_path := split_lines b]> (files s) |}
       else
         {| drawn := drawn s ++ form_widgets; sent := sent s ++ [prompt_of i];
            cache := <[args_of i := text_strip answer]> (cache s);
            session_state :=
              <["email_content" := text_strip answer]> (session_state (initialised s));
            files := files s |})
  | None =>
      (Raise UnicodeEncodeError,
       {| drawn := drawn s ++ form_widgets ++ email_head (text_strip answer);
          sent := sent s ++ [prompt_of i];
          cache := <[args_of i := text_strip answer]> (cache s);
          session_state :=
            <["email_content" := text_strip answer]> (session_state (initialised s));
          files := files s |})
  end.
Proof.
  intros Hclick Hmsg Hmiss Hans.
  assert (pressed GenerateEmail i = true) as Hp by (unfold pressed; by rewrite Hclick).
  assert (pressed RegenerateEmail i = false) as Hr by (unfold pressed; by rewrite Hclick).
  rewrite reply_script_view, initialised_view, Hp.
  unfold mbind at 1, exec_bind. rewrite on_submit_view by done. cbn [sent]. rewrite Hans.
  rewrite (display_exact i _ (text_strip answer)) by (simpl; by rewrite lookup_insert_eq).
  rewrite Hr. destruct (encode_latin1 (text_strip answer));
    [destruct (text_truthy (text_strip answer))|];
    unfold extend, set_drawn; cbn [drawn sent cache session_state files]; try done;
    by rewrite <-app_assoc.
Qed.

(** A submission whose inputs have a stored result. *)
Lemma submit_hit_view w i s r :
  clicked i = Some GenerateEmail →
  strip (applicant_text i) ≠ "" →
  cache s !! args_of i = Some r →
  script w i s =
  match encode_latin1 r with
  | Some b =>
      (Ret (),
       if text_truthy r then
         {| drawn := drawn s ++ form_widgets ++ email_section b;
            sent := sent s; cache := cache s;
            session_state := <["email_content" := r]> (session_state (initialised s));
            files := <[pdf_path := split_lines b]> (files s) |}
       else
         {| drawn := drawn s ++ form_widgets; sent := sent s; cache := cache s;
            session_state := <["email_content" := r]> (session_state (initialised s));
            files := files s |})
  | None =>
      (Raise UnicodeEncodeError,
       {| drawn := drawn s ++ form_widgets ++ email_head r;
          sent := sent s; cache := cache s;
          session_state := <["email_content" := r]> (session_state (initialised s));
          files := files s |})
  end.
Proof.
  intros Hclick Hmsg Hhit.
  assert (pressed GenerateEmail i = true) as Hp by (unfold pressed; by rewrite Hclick).
  assert (pressed RegenerateEmail i = false) as Hr by (unfold pressed; by rewrite Hclick).
  rewrite reply_script_view, initialised_view, Hp.
  unfold mbind at 1, exec_bind. rewrite (on_submit_hit w i _ r) by done.
  rewrite (display_exact i _ r) by (simpl; by rewrite lookup_insert_eq).
  rewrite Hr. destruct (encode_latin1 r); [destruct (text_truthy r)|];
    unfold extend, set_drawn, set_session_state;
    cbn [drawn sent cache session_state files]; try done; by rewrite <-app_assoc.
Qed.

(** X18: a submission the model answers within Latin-1.  With a message
    that is not blank, no stored result for the inputs and an answer that,
    stripped, is the non-empty Latin-1 text [draft], the run ends normally,
    sends the one prompt built from the inputs, stores the draft both under
    the inputs and in session state, and draws, below the form, the draft
    in the text area and the download of the PDF made from its lines. *)
Theorem submission_shows_draft w i s answer (draft : string) :
  clicked i = Some GenerateEmail →
  strip (applicant_text i) ≠ "" →
  cache s !! args_of i = None →
  generate_content w (length (sent s)) (prompt_of i) = Ret answer →
  text_strip answer = latin1 draft →
  draft ≠ "" →
  (script w i s).1 = Ret () ∧
  drawn (script w i s).2 = drawn s ++ form_widgets ++ email_section draft ∧
  sent (script w i s).2 = sent s ++ [prompt_of i] ∧
  cache (script w i s).2 = <[args_of i := latin1 draft]> (cache s) ∧
  session_state (script w i s).2 !! "email_content" = Some (latin1 draft) ∧
  files (script w i s).2 !! pdf_path = Some (split_lines draft).
Proof.
  intros Hclick Hmsg Hmiss Hans Hdraft Hne.
  rewrite (submit_miss_view w i s answer) by done.
  rewrite Hdraft, encode_latin1_latin1, (text_truthy_draft _ Hne).
  cbn [fst snd drawn sent cache session_state files].
  by rewrite !lookup_insert_eq.
Qed.

Lemma submission_shows_draft_witness :
  let w := replying (latin1 "  Dear John, thank you.  ") in
  let i := form "Hello" (Some GenerateEmail) in
  (script w i initial).1 = Ret () ∧
  drawn (script w i initial).2 = [] ++ form_widgets ++ email_section "Dear John, thank you." ∧
  sent (script w i initial).2 = [] ++ [prompt_of i] ∧
  cache (script w i initial).2 = <[args_of i := latin1 "Dear John, thank you."]> ∅ ∧
  session_state (script w i initial).2 !! "email_content"
    = Some (latin1 "Dear John, thank you.") ∧
  files (script w i initial).2 !! pdf_path = Some (split_lines "Dear John, thank you.").
Proof.
  intros w i.
  apply (submission_shows_draft w i initial (latin1 "  Dear John, thank you.  ")
           "Dear John, thank you."); try reflexivity; discriminate.
Defined.

(** X19: a blank answer is stored like any other.  When the model's
    answer is empty after [strip()], the run ends normally with the form
    alone on the page, neither a draft nor a message; the empty string is
    the draft and the stored result, so submitting the same inputs again
    draws the form alone again and does not ask the model. *)
Theorem blank_answer_shows_nothing w i s answer :
  clicked i = Some GenerateEmail →
  strip (applicant_text i) ≠ "" →
  cache s !! args_of i = None →
  generate_content w (length (sent s)) (prompt_of i) = Ret answer →
  text_strip answer = latin1 "" →
  (script w i s).1 = Ret () ∧
  drawn (script w i s).2 = drawn s ++ form_widgets ∧
  session_state (script w i s).2 !! "email_content" = Some (latin1 "") ∧
  cache (script w i s).2 !! args_of i = Some (latin1 "") ∧
  (script w i (set_drawn [] (script w i s).2)).1 = Ret () ∧
  drawn (script w i (set_drawn [] (script w i s).2)).2 = form_widgets ∧
  sent (script w i (set_drawn [] (script w i s).2)).2 = sent s ++ [prompt_of i].
Proof.
  intros Hclick Hmsg Hmiss Hans Hblank.
  rewrite (submit_miss_view w i s answer) by done. rewrite Hblank.
  cbn [encode_latin1 latin1 fmap list_fmap String.list_ascii_of_string mapM mret option_ret
       option_fmap option_map text_truthy fst snd drawn sent cache session_state].
  rewrite !lookup_insert_eq. do 4 (split; [done|]).
  match goal with |- context [script w i ?s1] =>
    rewrite (submit_hit_view w i s1 (latin1 ""))
      by (done || (cbn [set_drawn cache]; by rewrite lookup_insert_eq))
  end.
  done.
Qed.

Lemma blank_answer_shows_nothing_witness :
  let w := replying (latin1 "   ") in
  let i := form "Hello" (Some GenerateEmail) in
  (script w i initial).1 = Ret () ∧
  drawn (script w i initial).2 = [] ++ form_widgets ∧
  session_state (script w i initial).2 !! "email_content" = Some (latin1 "") ∧
  cache (script w i initial).2 !! args_of i = Some (latin1 "") ∧
  (script w i (set_drawn [] (script w i initial).2)).1 = Ret () ∧
  drawn (script w i (set_drawn [] (script w i initial).2)).2 = form_widgets ∧
  sent (script w i (set_drawn [] (script w i initial).2)).2 = [] ++ [prompt_of i].
Proof.
  intros w i.
  apply (blank_answer_shows_nothing w i initial (latin1 "   ")); try reflexivity; discriminate.
Defined.

(** X20: nothing catches a failure of the model.  When the call raises,
    the run ends in that exception right after the form: no message is
    drawn for it, the draft in session state is the one from before the
    submission, and nothing is stored. *)
Theorem model_failure_ends_run w i s e :
  clicked i = Some GenerateEmail →
  strip (applicant_text i) ≠ "" →
  cache s !! args_of i = None →
  generate_content w (length (sent s)) (prompt_of i) = Raise e →
  script w i s =
  (Raise e,
   {| drawn := drawn s ++ form_widgets; sent := sent s ++ [prompt_of i];
      cache := cache s; session_state := session_state (initialised s);
      files := files s |}).
Proof.
  intros Hclick Hmsg Hmiss Hfail. rewrite reply_script_view, initialised_view.
  assert (pressed GenerateEmail i = true) as -> by (unfold pressed; by rewrite Hclick).
  unfold mbind at 1, exec_bind. rewrite on_submit_view by done. cbn [sent]. by rewrite Hfail.
Qed.

Lemma model_failure_ends_run_witness :
  let w := {| generate_content := λ _ _, Raise (ValueError "blocked") |} in
  let i := form "Hello" (Some GenerateEmail) in
  script w i (with_draft "Dear John") =
  (Raise (ValueError "blocked"),
   {| drawn := [] ++ form_widgets; sent := [] ++ [prompt_of i];
      cache := ∅; session_state := session_state (initialised (with_draft "Dear John"));
      files := ∅ |}).
Proof.
  intros w i.
  apply (model_failure_ends_run w i (with_draft "Dear John") (ValueError "blocked"));
    try reflexivity; discriminate.
Defined.

(** X21: a run that no button triggered.  It sends nothing and stores
    nothing, and [email_content] is created empty when it is missing and
    is kept otherwise.  With a draft within Latin-1 the run ends normally;
    below the form the draft is drawn when it is not empty, and then the
    PDF is written again from it.  With a draft that is not, the run ends
    in the [UnicodeEncodeError] of [create_pdf] after the text area, and
    no file is written. *)
Theorem idle_run w i s :
  clicked i = None →
  let c := default (latin1 "") (session_state s !! "email_content") in
  script w i s =
  match encode_latin1 c with
  | Some b =>
      (Ret (),
       {| drawn := drawn s ++ form_widgets ++
                   (if String.eqb b "" then [] else email_section b);
          sent := sent s; cache := cache s;
          session_state := session_state (initialised s);
          files := if String.eqb b "" then files s
                   else <[pdf_path := split_lines b]> (files s) |})
  | None =>
      (Raise UnicodeEncodeError,
       {| drawn := drawn s ++ form_widgets ++ email_head c;
          sent := sent s; cache := cache s;
          session_state := session_state (initialised s);
          files := files s |})
  end.
Proof.
  intros Hclick c.
  rewrite (quiet_run_view w i s) by (unfold pressed; by rewrite Hclick).
  fold c. destruct (encode_latin1 c) as [b|] eqn:Hb; [|done].
  apply encode_latin1_Some in Hb. rewrite Hb, text_truthy_latin1.
  assert (pressed RegenerateEmail i = false) as -> by (unfold pressed; by rewrite Hclick).
  destruct (String.eqb b ""); cbn [negb]; [by rewrite app_nil_r|done].
Qed.

Lemma idle_run_witness :
  script numbering (form "Hello" None) (with_draft "Dear John") =
  (Ret (),
   {| drawn := [] ++ form_widgets ++
               (if String.eqb "Dear John" "" then [] else email_section "Dear John");
      sent := []; cache := ∅;
      session_state := session_state (initialised (with_draft "Dear John"));
      files := if String.eqb "Dear John" ""
               then ∅ else <[pdf_path := split_lines "Dear John"]> ∅ |}).
Proof.
  apply (idle_run numbering (form "Hello" None) (with_draft "Dear John")). reflexivity.
Defined.

Lemma latin1_cache_insert a (r : text) s :
  is_Some (encode_latin1 r) → latin1_cache s →
  ∀ b c, <[a := r]> (cache s) !! b = Some c → is_Some (encode_latin1 c).
Proof.
  intros Hr Hs b c. destruct (decide (a = b)) as [->|Hab].
  - rewrite lookup_insert_eq. by intros [= <-].
  - rewrite lookup_insert_ne by done. apply Hs.
Qed.

(** X22: within Latin-1 every run ends normally.  When the model answers
    every prompt with a text within Latin-1, and the draft and the stored
    results the run starts from are within Latin-1, the run ends normally,
    whatever the inputs and the click, and the draft and the stored
    results it leaves are within Latin-1 again. *)
Theorem reply_run_ends_normally w i s :
  (∀ n p, ∃ answer : string, generate_content w n p = Ret (latin1 answer)) →
  latin1_draft s →
  latin1_cache s →
  (script w i s).1 = Ret () ∧
  latin1_draft (script w i s).2 ∧
  latin1_cache (script w i s).2.
Proof.
  intros Hw Hd Hc.
  assert (∀ (s' : app) c b,
    session_state s' !! "email_content" = Some c → encode_latin1 c = Some b →
    latin1_cache s' →
    ((content ← get_email_content;
      if text_truthy content then show_email i else mret ()) s').1 = Ret () ∧
    latin1_draft ((content ← get_email_content;
      if text_truthy content then show_email i else mret ()) s').2 ∧
    latin1_cache ((content ← get_email_content;
      if text_truthy content then show_email i else mret ()) s').2) as Hshow.
  { intros s' c b Hs' Hb Hc'. rewrite (display_exact i s' c Hs'), Hb.
    split; [done|]. cbn [snd]. destruct (text_truthy c); [|split; [|done]].
    - split; [|done]. intros c0. cbn [session_state].
      destruct (pressed RegenerateEmail i).
      + rewrite lookup_insert_eq. intros [= <-]. by rewrite encode_latin1_latin1.
      + rewrite Hs'. intros [= <-]. by rewrite Hb.
    - intros c0. rewrite Hs'. intros [= <-]. by rewrite Hb. }
  rewrite reply_script_view.
  destruct (initialised_quiet (extend form_widgets s)) as (_ & S0 & C0).
  pose proof (initialised_latin1 (extend form_widgets s) Hd) as Hd0.
  destruct (initialised_has (extend form_widgets s)) as [c0 Hc0].
  set (s0 := initialised (extend form_widgets s)) in *.
  assert (latin1_cache s0) as Hc0' by (unfold latin1_cache; rewrite C0; exact Hc).
  destruct (Hd0 c0 Hc0) as [b0 Hb0].
  destruct (pressed GenerateEmail i).
  - destruct (String.eqb_spec (strip (applicant_text i)) "") as [Hblank|Hmsg].
    + unfold on_submit. rewrite Hblank. simpl String.eqb. cbv iota.
      erewrite reply_bind_ret by apply reply_draw.
      eapply Hshow; [exact Hc0|exact Hb0|exact Hc0'].
    + destruct (cache s0 !! args_of i) as [r|] eqn:Hr.
      * erewrite reply_bind_ret by (by apply on_submit_hit).
        destruct (Hc0' _ _ Hr) as [b Hb].
        eapply Hshow; [|exact Hb|exact Hc0']. simpl. by rewrite lookup_insert_eq.
      * destruct (Hw (length (sent s0)) (prompt_of i)) as [answer Ha].
        erewrite reply_bind_ret
          by (rewrite on_submit_view by done; rewrite Ha; reflexivity).
        rewrite text_strip_latin1.
        eapply Hshow; [|apply encode_latin1_latin1|].
        -- simpl. by rewrite lookup_insert_eq.
        -- intros b c. cbn [cache].
           apply latin1_cache_insert; [by rewrite encode_latin1_latin1|exact Hc0'].
  - erewrite reply_bind_ret by reflexivity.
    eapply Hshow; [exact Hc0|exact Hb0|exact Hc0'].
Qed.

Lemma reply_run_ends_normally_witness :
  (script (replying "Dear John") (form "Hello" (Some GenerateEmail)) initial).1 = Ret () ∧
  latin1_draft (script (replying "Dear John") (form "Hello" (Some GenerateEmail)) initial).2 ∧
  latin1_cache (script (replying "Dear John") (form "Hello" (Some GenerateEmail)) initial).2.
Proof.
  apply (reply_run_ends_normally (replying "Dear John") (form "Hello" (Some GenerateEmail))
           initial).
  - intros n p. by exists "Dear John".
  - intros c Hc. discriminate Hc.
  - intros a c Hc. discriminate Hc.
Defined.

(** X23: a submission whose inputs have a stored result within Latin-1
    takes it from the store: the run ends normally, no prompt is sent, the
    store is unchanged, the stored result replaces the draft whatever it
    was, and is drawn below the form when it is not empty. *)
Theorem resubmission_takes_stored_result w i s (r : string) :
  clicked i = Some GenerateEmail →
  strip (applicant_text i) ≠ "" →
  cache s !! args_of i = Some (latin1 r) →
  (script w i s).1 = Ret () ∧
  sent (script w i s).2 = sent s ∧
  cache (script w i s).2 = cache s ∧
  session_state (script w i s).2 !! "email_content" = Some (latin1 r) ∧
  drawn (script w i s).2
    = drawn s ++ form_widgets ++ (if String.eqb r "" then [] else email_section r).
Proof.
  intros Hclick Hmsg Hhit. rewrite (submit_hit_view w i s (latin1 r)) by done.
  rewrite encode_latin1_latin1, text_truthy_latin1. destruct (String.eqb r "");
    cbn [negb fst snd drawn sent cache session_state]; rewrite lookup_insert_eq, ?app_nil_r; done.
Qed.

Lemma resubmission_takes_stored_result_witness :
  let i := form "Hello" (Some GenerateEmail) in
  let s := {| drawn := []; sent := []; cache := {[args_of i := latin1 "Dear John"]};
              session_state := {["email_content" := latin1 "Thank you for your application."]};
              files := ∅ |} in
  (script numbering i s).1 = Ret () ∧
  sent (script numbering i s).2 = [] ∧
  cache (script numbering i s).2 = {[args_of i := latin1 "Dear John"]} ∧
  session_state (script numbering i s).2 !! "email_content" = Some (latin1 "Dear John") ∧
  drawn (script numbering i s).2
    = [] ++ form_widgets ++ (if String.eqb "Dear John" "" then [] else email_section "Dear John").
Proof.
  intros i s.
  apply (resubmission_takes_stored_result numbering i s "Dear John");
    try reflexivity; discriminate.
Defined.

(** X24: the regenerate button does not bring a new email.  After a
    submission the model answered, a click on the regenerate button and a
    second submission of the same form values, the draft is the first
    answer again, and over the three runs the model was asked once; in
    between the draft was the fixed text.  The answer is within Latin-1:
    the button is drawn only after [create_pdf] has returned. *)
Theorem regenerate_then_resubmit w i s (answer : string) :
  clicked i = Some GenerateEmail →
  strip (applicant_text i) ≠ "" →
  cache s !! args_of i = None →
  generate_content w (length (sent s)) (prompt_of i) = Ret (latin1 answer) →
  strip answer ≠ "" →
  let again := with_click (Some RegenerateEmail) i in
  session_state (reruns w [i; again] s) !! "email_content"
    = Some (latin1 "Thank you for your application.") ∧
  session_state (reruns w [i; again; i] s) !! "email_content"
    = Some (latin1 (strip answer)) ∧
  drawn (reruns w [i; again; i] s) = form_widgets ++ email_section (strip answer) ∧
  sent (reruns w [i; again; i] s) = sent s ++ [prompt_of i].
Proof.
  intros Hclick Hmsg Hmiss Hans Hne again.
  unfold reruns. cbn [foldl].
  rewrite (submit_miss_view w i (set_drawn [] s) (latin1 answer)) by done.
  rewrite text_strip_latin1, encode_latin1_latin1, (text_truthy_draft _ Hne). cbn [snd].
  rewrite (quiet_run_view w again) by done.
  cbn [set_drawn drawn sent cache session_state files]. rewrite lookup_insert_eq.
  cbn [default from_option id].
  rewrite encode_latin1_latin1, (text_truthy_draft _ Hne).
  change (pressed RegenerateEmail again) with true. cbv iota. cbn [snd].
  split; [cbn [session_state]; by rewrite lookup_insert_eq|].
  rewrite (submit_hit_view w i _ (latin1 (strip answer)))
    by (done || (cbn [set_drawn cache]; by rewrite lookup_insert_eq)).
  rewrite encode_latin1_latin1, (text_truthy_draft _ Hne).
  cbn [snd drawn sent session_state set_drawn].
  by rewrite lookup_insert_eq.
Qed.

Lemma regenerate_then_resubmit_witness :
  let i := form "Hello" (Some GenerateEmail) in
  let again := with_click (Some RegenerateEmail) i in
  session_state (reruns numbering [i; again] initial) !! "email_content"
    = Some (latin1 "Thank you for your application.") ∧
  session_state (reruns numbering [i; again; i] initial) !! "email_content"
    = Some (latin1 (strip "Draft 0")) ∧
  drawn (reruns numbering [i; again; i] initial)
    = form_widgets ++ email_section (strip "Draft 0") ∧
  sent (reruns numbering [i; again; i] initial) = [] ++ [prompt_of i].
Proof.
  intros i.
  apply (regenerate_then_resubmit numbering i initial "Draft 0");
    try reflexivity; discriminate.
Defined.

(** X25: the fixed text shows one run late.  The run a click on the
    regenerate button triggers still draws the old draft and makes the PDF
    from it; the fixed text is drawn, and the PDF made from it, in the run
    after.  The draft is within Latin-1: the button is drawn only after
    [create_pdf] has returned. *)
Theorem regenerate_shows_old_draft w i j s (c : string) :
  clicked i = Some RegenerateEmail →
  clicked j = None →
  session_state s !! "email_content" = Some (latin1 c) →
  c ≠ "" →
  drawn (script w i s).2 = drawn s ++ form_widgets ++ email_section c ∧
  files (script w i s).2 !! pdf_path = Some (split_lines c) ∧
  drawn (script w j (set_drawn [] (script w i s).2)).2
    = form_widgets ++ email_section "Thank you for your application." ∧
  files (script w j (set_drawn [] (script w i s).2)).2 !! pdf_path
    = Some ["Thank you for your application."].
Proof.
  intros Hi Hj Hc Hne.
  rewrite (quiet_run_view w i s) by (unfold pressed; by rewrite Hi).
  rewrite Hc. cbn [default from_option id].
  rewrite encode_latin1_latin1, (text_truthy_draft _ Hne).
  assert (pressed RegenerateEmail i = true) as -> by (unfold pressed; by rewrite Hi).
  cbn [snd drawn files]. rewrite lookup_insert_eq. split; [done|]. split; [done|].
  rewrite (quiet_run_view w j) by (unfold pressed; by rewrite Hj).
  cbn [set_drawn drawn sent cache session_state files]. rewrite lookup_insert_eq.
  cbn [default from_option id].
  rewrite encode_latin1_latin1, text_truthy_draft by done.
  cbn [snd drawn files]. by rewrite lookup_insert_eq.
Qed.

Lemma regenerate_shows_old_draft_witness :
  let i := form "Hello" (Some RegenerateEmail) in
  let j := form "Hello" None in
  let s := with_draft "Dear John" in
  drawn (script numbering i s).2 = [] ++ form_widgets ++ email_section "Dear John" ∧
  files (script numbering i s).2 !! pdf_path = Some (split_lines "Dear John") ∧
  drawn (script numbering j (set_drawn [] (script numbering i s).2)).2
    = form_widgets ++ email_section "Thank you for your application." ∧
  files (script numbering j (set_drawn [] (script numbering i s).2)).2 !! pdf_path
    = Some ["Thank you for your application."].
Proof.
  intros i j s.
  apply (regenerate_shows_old_draft numbering i j s "Dear John"); try reflexivity; discriminate.
Defined.

(** X26: an answer outside Latin-1 ends the run and every run after it.
    When the stripped answer holds a code point from 256 on, the
    submission stores it under the inputs and as the draft, draws it in
    the text area and then ends in the [UnicodeEncodeError] of
    [create_pdf]: neither the download nor the regenerate button is drawn
    and no file is written.  Nothing catches the exception, and the draft
    stays: the next run, with no click, ends the same way, and so does a
    second submission of the same inputs, which takes the answer from the
    store without asking the model. *)
Theorem wide_answer_ends_run w i j s answer :
  clicked i = Some GenerateEmail →
  strip (applicant_text i) ≠ "" →
  cache s !! args_of i = None →
  generate_content w (length (sent s)) (prompt_of i) = Ret answer →
  encode_latin1 (text_strip answer) = None →
  clicked j = None →
  script w i s =
    (Raise UnicodeEncodeError,
     {| drawn := drawn s ++ form_widgets ++ email_head (text_strip answer);
        sent := sent s ++ [prompt_of i];
        cache := <[args_of i := text_strip answer]> (cache s);
        session_state :=
          <["email_content" := text_strip answer]> (session_state (initialised s));
        files := files s |}) ∧
  (script w j (set_drawn [] (script w i s).2)).1 = Raise UnicodeEncodeError ∧
  (script w i (set_drawn [] (script w i s).2)).1 = Raise UnicodeEncodeError ∧
  sent (script w i (set_drawn [] (script w i s).2)).2 = sent s ++ [prompt_of i].
Proof.
  intros Hclick Hmsg Hmiss Hans Hwide Hj.
  rewrite (submit_miss_view w i s answer) by done. rewrite Hwide.
  split; [done|]. cbn [snd]. split.
  - rewrite (quiet_run_view w j) by (unfold pressed; by rewrite Hj).
    cbn [set_drawn session_state]. rewrite lookup_insert_eq. cbn [default from_option id].
    by rewrite Hwide.
  - match goal with |- context [script w i ?s1] =>
      rewrite (submit_hit_view w i s1 (text_strip answer))
        by (done || (cbn [set_drawn cache]; by rewrite lookup_insert_eq))
    end.
    by rewrite Hwide.
Qed.

(** X26, at an answer with a dash. *)
Lemma wide_answer_ends_run_witness :
  let answer := latin1 "Thanks " ++ [8212%N] ++ latin1 " HR" in
  let w := replying answer in
  let i := form "Hello" (Some GenerateEmail) in
  let j := form "Hello" None in
  script w i initial =
    (Raise UnicodeEncodeError,
     {| drawn := [] ++ form_widgets ++ email_head (text_strip answer);
        sent := [] ++ [prompt_of i];
        cache := <[args_of i := text_strip answer]> ∅;
        session_state :=
          <["email_content" := text_strip answer]> (session_state (initialised initial));
        files := ∅ |}) ∧
  (script w j (set_drawn [] (script w i initial).2)).1 = Raise UnicodeEncodeError ∧
  (script w i (set_drawn [] (script w i initial).2)).1 = Raise UnicodeEncodeError ∧
  sent (script w i (set_drawn [] (script w i initial).2)).2 = [] ++ [prompt_of i].
Proof.
  intros answer w i j.
  apply (wide_answer_ends_run w i j initial answer); try reflexivity; discriminate.
Defined.

End ReplyMore.
